(** * The SQL database project model (sql-database-projects/src/models/project.ts)

    A shallow embedding of the [Project] class: the XML document it owns,
    the collections it derives from that document, the operations that add
    entries, and the round-trip upgrade of an SSDT project.

    Modelled are [readProjFile], [updateProjectForRoundTrip] with
    [updateImportToSupportRoundTrip], [updateImportedTargetsToProjFile] and
    [updatePackageReferenceInProjFile], [addFolderItem], [addScriptItem],
    [getMasterDacpac], [changeDSP], [addDatabaseReference],
    [addMasterDatabaseReference], [addToProject], and the private methods
    they call.  [ProjectEntry.toString] and the [dataSources] field are
    used by no method of the class and are left out. *)

From Stdlib Require Import String Ascii List Arith Lia Bool.
From stdpp Require Import base option gmap strings list fin_maps.

Open Scope string_scope.
Open Scope list_scope.

(** ** The document tree (the part of xmldom the project file uses)

    A node is an element or a text node.  An element has a tag name, an
    ordered attribute list and ordered child nodes. *)

Module xmldom.

Inductive Node : Type :=
| ElementNode (e : Element)
| TextNode (data : string)
with Element : Type :=
| mkElement (tagName : string) (attributes : list (string * string)) (childNodes : list Node).

Definition tagName (e : Element) : string :=
  match e with mkElement t _ _ => t end.

Definition attributes (e : Element) : list (string * string) :=
  match e with mkElement _ a _ => a end.

Definition childNodes (e : Element) : list Node :=
  match e with mkElement _ _ cs => cs end.

(** [node.nodeValue]: the data of a text node, [null] for an element. *)
Definition nodeValue (n : Node) : option string :=
  match n with
  | TextNode s => Some s
  | ElementNode _ => None
  end.

(** The document: xmldom keeps the root element in [documentElement]. *)
Record Document : Type := mkDocument { documentElement : Element }.

Definition createElement (tag : string) : Element := mkElement tag [] [].

Definition createTextNode (data : string) : Node := TextNode data.

(** [getAttribute] of xmldom answers the empty string for a missing
    attribute. *)
Fixpoint lookupAttribute (name : string) (attrs : list (string * string)) : option string :=
  match attrs with
  | [] => None
  | (k, v) :: rest => if String.eqb k name then Some v else lookupAttribute name rest
  end.

Definition getAttribute (name : string) (e : Element) : string :=
  match lookupAttribute name (attributes e) with
  | Some v => v
  | None => ""
  end.

(** [setAttribute] overwrites the attribute of that name, or adds it last. *)
Fixpoint putAttribute (name value : string) (attrs : list (string * string)) : list (string * string) :=
  match attrs with
  | [] => [(name, value)]
  | (k, v) :: rest =>
      if String.eqb k name then (k, value) :: rest
      else (k, v) :: putAttribute name value rest
  end.

Definition setAttribute (name value : string) (e : Element) : Element :=
  match e with
  | mkElement t a cs => mkElement t (putAttribute name value a) cs
  end.

(** [parent.appendChild(child)] for a child that is not yet in the tree. *)
Definition appendChild (child : Node) (parent : Element) : Element :=
  match parent with
  | mkElement t a cs => mkElement t a (cs ++ [child])
  end.

(** A position in the tree, as child indices from a base element.  The
    project keeps references to elements of its own document; a reference
    is modelled by the position of the element it points to. *)
Definition Path : Type := list nat.

Definition tagMatches (tag : string) (e : Element) : bool :=
  String.eqb tag "*" || String.eqb (tagName e) tag.

(** [base.getElementsByTagName(tag)]: every element below [base] (never
    [base] itself) with that tag, in document order, each with its
    position. *)
Fixpoint getElementsByTagName (tag : string) (base : Element) : list (Path * Element) :=
  match base with
  | mkElement _ _ cs =>
      (fix visit (k : nat) (l : list Node) {struct l} : list (Path * Element) :=
         match l with
         | [] => []
         | ElementNode e :: rest =>
             (if tagMatches tag e then [([k], e)] else [])
               ++ map (fun pe => (k :: fst pe, snd pe)) (getElementsByTagName tag e)
               ++ visit (S k) rest
         | TextNode _ :: rest => visit (S k) rest
         end) 0 cs
  end.

(** The same walk over a list of siblings, the first of which has index
    [k]. *)
Fixpoint visitSiblings (tag : string) (k : nat) (l : list Node) : list (Path * Element) :=
  match l with
  | [] => []
  | ElementNode e :: rest =>
      (if tagMatches tag e then [([k], e)] else [])
        ++ map (fun pe => (k :: fst pe, snd pe)) (getElementsByTagName tag e)
        ++ visitSiblings tag (S k) rest
  | TextNode _ :: rest => visitSiblings tag (S k) rest
  end.

(** [document.getElementsByTagName(tag)] starts above the root, so the
    root element itself is a candidate. *)
Definition Document_getElementsByTagName (tag : string) (d : Document) : list Element :=
  (if tagMatches tag (documentElement d) then [documentElement d] else [])
    ++ map snd (getElementsByTagName tag (documentElement d)).

(** The element at a position. *)
Fixpoint elementAt (p : Path) (base : Element) : option Element :=
  match p with
  | [] => Some base
  | k :: p' =>
      match childNodes base !! k with
      | Some (ElementNode e) => elementAt p' e
      | _ => None
      end
  end.

(** Change the element at a position in place. *)
Fixpoint updateAt (p : Path) (f : Element -> Element) (base : Element) : option Element :=
  match p with
  | [] => Some (f base)
  | k :: p' =>
      match childNodes base !! k with
      | Some (ElementNode e) =>
          match updateAt p' f e with
          | Some e' => Some (mkElement (tagName base) (attributes base)
                                       (<[k := ElementNode e']> (childNodes base)))
          | None => None
          end
      | _ => None
      end
  end.

(** [parent.replaceChild(newChild, oldChild)] for an [oldChild] that is a
    child of [parent], here the child at index [k].  For a node that is no
    child of [parent] the DOM has the call throw, and this is what the
    model follows; xmldom makes no such check, and what it leaves of a
    tree then is not described here. *)
Definition replaceChild (newChild : Node) (k : nat) (parent : Element) : option Element :=
  match childNodes parent !! k with
  | Some _ => Some (mkElement (tagName parent) (attributes parent)
                              (<[k := newChild]> (childNodes parent)))
  | None => None
  end.

End xmldom.

Import xmldom.

(** ** What the model takes from outside the file

    [../common/constants] holds the tag names, attribute names and fixed
    strings of the project file format.  They are parameters here; a
    theorem names the inequalities between them it relies on. *)

Module constants.

Class Values : Type := {
  ItemGroup : string;
  Build : string;
  Folder : string;
  Include : string;
  Import : string;
  Project : string;
  Condition : string;
  SqlCmdVariable : string;
  DefaultValue : string;
  ArtifactReference : string;
  SuppressMissingDependenciesErrors : string;
  DatabaseVariableLiteralValue : string;
  DSP : string;
  PackageReference : string;
  Version : string;
  PrivateAssets : string;
  All : string;
  NETFrameworkAssembly : string;
  VersionNumber : string;
  SqlDbPresentCondition : string;
  SqlDbNotPresentCondition : string;
  RoundTripSqlDbPresentCondition : string;
  RoundTripSqlDbNotPresentCondition : string;
  SqlDbTargets : string;
  MsBuildtargets : string;
  NetCoreCondition : string;
  NetCoreTargets : string;
  MicrosoftDatatoolsSchemaSqlSql : string;
  databaseSchemaProvider : string;
  master : string
}.

End constants.

(** The node libraries the class calls: [path], vscode's [Uri], and the
    parser and serializer of xmldom. *)
Class Libraries : Type := {
  Uri : Type;
  Uri_file : string -> Uri;
  Uri_parse : string -> Uri;
  fsPath : Uri -> string;
  path_join : list string -> string;
  path_dirname : string -> string;
  path_basename : string -> string -> string;
  (** [new DOMParser().parseFromString(text)]; [None] when the text is not
      a document *)
  parseFromString : string -> option Document;
  (** [new XMLSerializer().serializeToString(doc)] *)
  serializeToString : Document -> string
}.

(** What [addToProject] calls: two functions of [../common/utils], the
    lower-casing of the runtime, and one more constant. *)
Class Utilities {L : Libraries} : Type := {
  (** [utils.trimUri(innerUri, outerUri)] *)
  trimUri : Uri -> Uri -> string;
  (** [utils.trimChars(input, chars)] *)
  trimChars : string -> string -> string;
  (** [s.toLowerCase()] *)
  toLowerCase : string -> string;
  (** [constants.sqlFileExtension] *)
  sqlFileExtension : string
}.

(** ** Enumerations *)

Module EntryType.
Inductive t : Type := File | Folder | DatabaseReference.
End EntryType.

Module DatabaseReferenceLocation.
Inductive t : Type := sameDatabase | differentDatabaseSameServer.

Definition eqb (a b : t) : bool :=
  match a, b with
  | sameDatabase, sameDatabase => true
  | differentDatabaseSameServer, differentDatabaseSameServer => true
  | _, _ => false
  end.
End DatabaseReferenceLocation.

Module TargetPlatform.
Inductive t : Type :=
| Sql90 | Sql100 | Sql110 | Sql120 | Sql130 | Sql140 | Sql150 | SqlAzureV12.

Definition value (p : t) : string :=
  match p with
  | Sql90 => "90"
  | Sql100 => "100"
  | Sql110 => "110"
  | Sql120 => "120"
  | Sql130 => "130"
  | Sql140 => "140"
  | Sql150 => "150"
  | SqlAzureV12 => "AzureV12"
  end.

Definition all : list t :=
  [Sql90; Sql100; Sql110; Sql120; Sql130; Sql140; Sql150; SqlAzureV12].

(** [Object.values(TargetPlatform)] *)
Definition values : list string := map value all.

(** [Object.values(TargetPlatform).includes(version)] *)
Definition includes (version : string) : bool :=
  existsb (String.eqb version) values.
End TargetPlatform.

(** ** JavaScript strings *)

(** [s.substring(start, finish)]: both indices are clamped to the string
    and swapped when out of order. *)
Definition js_substring (s : string) (start finish : Z) : string :=
  let len := Z.of_nat (String.length s) in
  let a := Z.min (Z.max start 0) len in
  let b := Z.min (Z.max finish 0) len in
  let lo := Z.min a b in
  let hi := Z.max a b in
  String.substring (Z.to_nat lo) (Z.to_nat (hi - lo)) s.

(** [s.substring(start)] *)
Definition js_substring_from (s : string) (start : Z) : string :=
  js_substring s start (Z.of_nat (String.length s)).

(** A string in a condition: only the empty string is falsy. *)
Definition truthy (s : string) : bool := negb (String.eqb s "").

(** [s.endsWith(suffix)] *)
Definition js_endsWith (s suffix : string) : bool :=
  Nat.leb (String.length suffix) (String.length s)
  && String.eqb (String.substring (String.length s - String.length suffix)
                                  (String.length suffix) s)
                suffix.

(** ** JavaScript objects

    A plain object used as a map from names to strings, as [{}] creates
    it: its own properties, and whether its prototype is still
    [Object.prototype].  A value is a string or [null] ([None]). *)

Record JSObject : Type := mkJSObject {
  ownProperties : gmap string (option string);
  inheritsObjectPrototype : bool
}.

(** [{}] *)
#[global] Instance JSObject_empty : Empty JSObject := mkJSObject ∅ true.

(** The own property of a name. *)
#[global] Instance JSObject_lookup : Lookup string (option string) JSObject :=
  fun name o => ownProperties o !! name.

(** [o[name] = value].  An own property of the name gets the value, and
    every name but one that is no own property becomes one.  The name
    [__proto__] is an accessor of [Object.prototype]: while the object
    inherits it and has no own property of the name, the assignment calls
    its setter, which ignores a string and makes [null] the prototype of
    the object; no own property is added.  Once the prototype is [null]
    the name is as any other. *)
Definition setProperty (name : string) (value : option string) (o : JSObject) : JSObject :=
  let assigned :=
    mkJSObject (<[name := value]> (ownProperties o)) (inheritsObjectPrototype o) in
  match ownProperties o !! name with
  | Some _ => assigned
  | None =>
      if String.eqb name "__proto__" && inheritsObjectPrototype o
      then match value with
           | Some _ => o
           | None => mkJSObject (ownProperties o) false
           end
      else assigned
  end.

(** ** The file system

    A path names a file with its text, a directory, or nothing. *)

Inductive Inode : Type :=
| RegularFile (data : string)
| Directory.

(** What an operation throws. *)
Inductive Error : Type :=
| noFileExist (absolutePath : string)   (* Error(constants.noFileExist(path)) *)
| invalidDataSchemaProvider             (* Error(constants.invalidDataSchemaProvider) *)
| TypeError                             (* a property read of undefined or null *)
| NotFoundError                         (* replaceChild of a node that is no child *)
| ParseError
| IOError
| LoopBound.                            (* the model's bound on a loop was reached *)

(** ** Project entries and the project *)

Section ProjectModel.

Context {C : constants.Values} {L : Libraries}.

(** [ProjectEntry], with the two fields [DatabaseReferenceProjectEntry]
    adds; they are undefined ([None]) on a plain entry. *)
Record ProjectEntry : Type := mkProjectEntry {
  fsUri : Uri;
  relativePath : string;
  type : EntryType.t;
  databaseLocation : option DatabaseReferenceLocation.t;
  name : option string
}.

(** [new ProjectEntry(uri, relativePath, type)] *)
Definition new_ProjectEntry (uri : Uri) (relativePath : string) (type : EntryType.t) : ProjectEntry :=
  mkProjectEntry uri relativePath type None None.

(** [new DatabaseReferenceProjectEntry(uri, databaseLocation, name)] *)
Definition new_DatabaseReferenceProjectEntry
    (uri : Uri) (databaseLocation : DatabaseReferenceLocation.t) (name : option string) : ProjectEntry :=
  mkProjectEntry uri "" EntryType.DatabaseReference (Some databaseLocation) name.

(** The fields of [Project] that its methods use; [dataSources] is set
    and read by no method of the class and is left out. *)
Record Project : Type := mkProject {
  projectFilePath : string;
  projectFileName : string;
  files : list ProjectEntry;
  importedTargets : list string;
  (** a plain object; a value is the [nodeValue] read from the document,
      which is [null] ([None]) when the node read is an element *)
  sqlCmdVariables : JSObject;
  (** [undefined] until the project file has been read *)
  projFileXmlDoc : option Document
}.

(** [new Project(projectFilePath)] *)
Definition new_Project (projectFilePath : string) : Project :=
  mkProject projectFilePath (path_basename projectFilePath ".sqlproj") [] [] ∅ None.

Definition projectFolderPath (this : Project) : string :=
  path_dirname (projectFilePath this).

(** The state a method runs in: the project object and the disk. *)
Record World : Type := mkWorld {
  this : Project;
  disk : gmap string Inode
}.

(** ** Methods: state with exceptions

    A method changes the world and returns a value or throws; what it
    changed before it threw stays changed. *)

Definition M (A : Type) : Type := World -> (Error + A) * World.

Definition ret {A : Type} (a : A) : M A := fun w => (inr a, w).

Definition throw {A : Type} (e : Error) : M A := fun w => (inl e, w).

(** Whether an outcome is a value. *)
Definition succeeded {A : Type} (r : Error + A) : bool :=
  match r with
  | inr _ => true
  | inl _ => false
  end.

Definition bind {A B : Type} (m : M A) (k : A -> M B) : M B :=
  fun w =>
    match m w with
    | (inr a, w') => k a w'
    | (inl e, w') => (inl e, w')
    end.

Notation "'let!' x ':=' m 'in' k" := (bind m (fun x => k))
  (at level 10, x name, m at level 100, k at level 200, only parsing).
Notation "m ;; k" := (bind m (fun _ => k))
  (at level 100, k at level 200, right associativity, only parsing).

Definition getThis : M Project := fun w => (inr (this w), w).

Definition setThis (f : Project -> Project) : M unit :=
  fun w => (inr tt, mkWorld (f (this w)) (disk w)).

(** [for (let i = 0; i < l.length; i++) body(l[i])] for a list that the
    body leaves as it is. *)
Fixpoint forEach {A : Type} (l : list A) (body : A -> M unit) : M unit :=
  match l with
  | [] => ret tt
  | x :: rest => body x ;; forEach rest body
  end.

(** *** The file system calls *)

(** [fs.readFile(path)] *)
Definition fs_readFile (path : string) : M string :=
  fun w =>
    match disk w !! path with
    | Some (RegularFile data) => (inr data, w)
    | _ => (inl IOError, w)
    end.

(** [fs.writeFile(path, data)]: creates or overwrites the file *)
Definition fs_writeFile (path data : string) : M unit :=
  fun w =>
    match disk w !! path with
    | Some Directory => (inl IOError, w)
    | _ => (inr tt, mkWorld (this w) (<[path := RegularFile data]> (disk w)))
    end.

(** [fs.copyFile(src, dest)] *)
Definition fs_copyFile (src dest : string) : M unit :=
  fun w =>
    match disk w !! src, disk w !! dest with
    | Some (RegularFile data), Some Directory => (inl IOError, w)
    | Some (RegularFile data), _ =>
        (inr tt, mkWorld (this w) (<[dest := RegularFile data]> (disk w)))
    | _, _ => (inl IOError, w)
    end.

(** The directories above a path, the nearest first: [path.dirname] taken
    again and again until it answers the path it was given, as it does at
    a root.  [bound] limits the number of steps. *)
Fixpoint directoriesAbove (bound : nat) (path : string) : list string :=
  match bound with
  | 0 => []
  | S bound' =>
      let parent := path_dirname path in
      if String.eqb parent path then [] else parent :: directoriesAbove bound' parent
  end.

(** [path.dirname] answers a shorter path for a path of two characters or
    more and a single character (the dot or a root) for any other, where
    it stays; so a path has at most as many directories above it as it has
    characters, and the bound allows for one more. *)
Definition pathsAbove (path : string) : list string :=
  directoriesAbove (S (String.length path)) path.

(** Whether a regular file is where a directory above the path has to
    be. *)
Definition fileAbove (path : string) (files0 : gmap string Inode) : bool :=
  existsb (fun above =>
             match files0 !! above with
             | Some (RegularFile _) => true
             | _ => false
             end)
          (pathsAbove path).

Definition makeDirectories (paths : list string) (files0 : gmap string Inode)
  : gmap string Inode :=
  fold_right (fun path files1 => <[path := Directory]> files1) files0 paths.

(** [fs.mkdir(path, { recursive: true })]: nothing is done for a directory
    that is there; the call fails on a regular file at the path and on one
    above it; else it makes the directory and every missing directory
    above it. *)
Definition fs_mkdir (path : string) : M unit :=
  fun w =>
    match disk w !! path with
    | Some (RegularFile _) => (inl IOError, w)
    | Some Directory => (inr tt, w)
    | None =>
        if fileAbove path (disk w)
        then (inl IOError, w)
        else (inr tt, mkWorld (this w) (makeDirectories (path :: pathsAbove path) (disk w)))
    end.

(** [utils.exists(path)] *)
Definition utils_exists (path : string) : M bool :=
  fun w => (inr (bool_decide (is_Some (disk w !! path))), w).

(** *** The document the project owns *)

(** [this.projFileXmlDoc], whose use throws while it is undefined *)
Definition getDoc : M Document :=
  let! this := getThis in
  match projFileXmlDoc this with
  | Some d => ret d
  | None => throw TypeError
  end.

Definition set_projFileXmlDoc (d : option Document) (p : Project) : Project :=
  mkProject (projectFilePath p) (projectFileName p) (files p) (importedTargets p)
            (sqlCmdVariables p) d.

Definition set_files (l : list ProjectEntry) (p : Project) : Project :=
  mkProject (projectFilePath p) (projectFileName p) l (importedTargets p)
            (sqlCmdVariables p) (projFileXmlDoc p).

Definition set_importedTargets (l : list string) (p : Project) : Project :=
  mkProject (projectFilePath p) (projectFileName p) (files p) l
            (sqlCmdVariables p) (projFileXmlDoc p).

Definition set_sqlCmdVariables (m : JSObject) (p : Project) : Project :=
  mkProject (projectFilePath p) (projectFileName p) (files p) (importedTargets p)
            m (projFileXmlDoc p).

(** [this.files.push(entry)] *)
Definition files_push (entry : ProjectEntry) : M unit :=
  setThis (fun p => set_files (files p ++ [entry]) p).

(** [this.importedTargets.push(target)] *)
Definition importedTargets_push (target : string) : M unit :=
  setThis (fun p => set_importedTargets (importedTargets p ++ [target]) p).

(** Write the changed root element back into the document. *)
Definition setDocumentElement (root : Element) : M unit :=
  setThis (set_projFileXmlDoc (Some (mkDocument root))).

(** [ref.appendChild(child)] for an element [ref] of the document *)
Definition appendChildAt (ref : Path) (child : Node) : M unit :=
  let! d := getDoc in
  match updateAt ref (appendChild child) (documentElement d) with
  | Some root => setDocumentElement root
  | None => throw NotFoundError
  end.

(** ** The methods of [Project] *)

Definition createProjectEntry (this : Project) (relativePath : string) (entryType : EntryType.t)
  : ProjectEntry :=
  new_ProjectEntry (Uri_file (path_join [projectFolderPath this; relativePath]))
                   relativePath entryType.

Definition serializeToProjFile : M unit :=
  let! d := getDoc in
  let! this := getThis in
  fs_writeFile (projectFilePath this) (serializeToString d).

(** One round of the search loop of [findOrCreateItemGroup]: the first
    item group with an element of the tag below it. *)
Fixpoint searchItemGroup (containedTag : string) (groups : list (Path * Element)) : option Path :=
  match groups with
  | [] => None
  | (ref, currentItemGroup) :: rest =>
      if Nat.ltb 0 (List.length (getElementsByTagName containedTag currentItemGroup))
      then Some ref
      else searchItemGroup containedTag rest
  end.

(** Returns the reference to the group to append to; [containedTag] is
    [None] when the caller passes no argument. *)
Definition findOrCreateItemGroup (containedTag : option string) : M Path :=
  let! d := getDoc in
  let outputItemGroup :=
    match containedTag with
    | Some tag =>
        if truthy tag
        then searchItemGroup tag (getElementsByTagName constants.ItemGroup (documentElement d))
        else None
    | None => None
    end in
  match outputItemGroup with
  | Some ref => ret ref
  | None =>
      setDocumentElement
        (appendChild (ElementNode (createElement constants.ItemGroup)) (documentElement d)) ;;
      ret [List.length (childNodes (documentElement d))]
  end.

Definition addFileToProjFile (path : string) : M unit :=
  let newFileNode := setAttribute constants.Include path (createElement constants.Build) in
  let! group := findOrCreateItemGroup (Some constants.Build) in
  appendChildAt group (ElementNode newFileNode).

Definition addFolderToProjFile (path : string) : M unit :=
  let newFolderNode := setAttribute constants.Include path (createElement constants.Folder) in
  let! group := findOrCreateItemGroup (Some constants.Folder) in
  appendChildAt group (ElementNode newFolderNode).

(** [createTextNode(entry.name)]: an undefined name is turned into the
    string the runtime prints for it. *)
Definition nameText (name : option string) : string :=
  match name with
  | Some n => n
  | None => "undefined"
  end.

(** The element [addDatabaseReferenceToProjFile] builds before it looks
    for a group. *)
Definition referenceNode (entry : ProjectEntry) : Element :=
  let referenceNode := createElement constants.ArtifactReference in
  let referenceNode := setAttribute constants.Condition constants.NetCoreCondition referenceNode in
  let referenceNode := setAttribute constants.Include (fsPath (fsUri entry)) referenceNode in
  let suppressMissingDependenciesErrorNode :=
    appendChild (createTextNode "False")
                (createElement constants.SuppressMissingDependenciesErrors) in
  let referenceNode := appendChild (ElementNode suppressMissingDependenciesErrorNode) referenceNode in
  match databaseLocation entry with
  | Some DatabaseReferenceLocation.differentDatabaseSameServer =>
      let databaseVariableLiteralValue :=
        appendChild (createTextNode (nameText (name entry)))
                    (createElement constants.DatabaseVariableLiteralValue) in
      appendChild (ElementNode databaseVariableLiteralValue) referenceNode
  | _ => referenceNode
  end.

Definition addDatabaseReferenceToProjFile (entry : ProjectEntry) : M unit :=
  let! group := findOrCreateItemGroup None in
  appendChildAt group (ElementNode (referenceNode entry)).

(** The [switch] of [addToProjFile]: the [File] case ends in [break], the
    [Folder] case does not and runs on into the [DatabaseReference] case. *)
Definition addToProjFile (entry : ProjectEntry) : M unit :=
  match type entry with
  | EntryType.File => addFileToProjFile (relativePath entry)
  | EntryType.Folder =>
      addFolderToProjFile (relativePath entry) ;;
      addDatabaseReferenceToProjFile entry
  | EntryType.DatabaseReference => addDatabaseReferenceToProjFile entry
  end ;;
  serializeToProjFile.

(** The three scans of [readProjFile] over the root element of the parsed
    document.  They read the document and leave it as it is, so each runs
    over the list found at its start. *)
Definition scanProjFile (root : Element) : M unit :=
      (* find all folders and files to include *)
      forEach (getElementsByTagName constants.ItemGroup root) (fun ig =>
        let itemGroup := snd ig in
        forEach (getElementsByTagName constants.Build itemGroup) (fun b =>
          let! this := getThis in
          files_push (createProjectEntry this (getAttribute constants.Include (snd b))
                                         EntryType.File)) ;;
        forEach (getElementsByTagName constants.Folder itemGroup) (fun f =>
          let! this := getThis in
          files_push (createProjectEntry this (getAttribute constants.Include (snd f))
                                         EntryType.Folder))) ;;
      (* find all import statements to include *)
      forEach (getElementsByTagName constants.Import root) (fun i =>
        importedTargets_push (getAttribute constants.Project (snd i))) ;;
      (* find all SQLCMD variables to include *)
      forEach (getElementsByTagName constants.SqlCmdVariable root) (fun v =>
        let sqlCmdVar := snd v in
        let varName := getAttribute constants.Include sqlCmdVar in
        match getElementsByTagName constants.DefaultValue sqlCmdVar with
        | [] => throw TypeError
        | defaultValue :: _ =>
            match childNodes (snd defaultValue) with
            | [] => throw TypeError
            | child :: _ =>
                setThis (fun p =>
                  set_sqlCmdVariables (setProperty varName (nodeValue child) (sqlCmdVariables p)) p)
            end
        end).

Definition readProjFile : M unit :=
  let! this0 := getThis in
  let! projFileText := fs_readFile (projectFilePath this0) in
  match parseFromString projFileText with
  | None => throw ParseError
  | Some doc =>
      setThis (set_projFileXmlDoc (Some doc)) ;;
      scanProjFile (documentElement doc)
  end.

(** A reference the migration holds to an import element: its position
    among the children while it is in the document, or detached once it
    has been replaced. *)
Inductive NodeRef : Type :=
| Attached (ref : Path)
| Detached.

Definition updateImportedTargetsToProjFile
    (condition projectAttributeVal : string) (oldImportNode : option NodeRef) : M Element :=
  let importNode := createElement constants.Import in
  let importNode := setAttribute constants.Condition condition importNode in
  let importNode := setAttribute constants.Project projectAttributeVal importNode in
  let! d := getDoc in
  match oldImportNode with
  | Some (Attached [k]) =>
      match replaceChild (ElementNode importNode) k (documentElement d) with
      | Some root => setDocumentElement root
      | None => throw NotFoundError
      end
  | Some _ => throw NotFoundError
  | None =>
      setDocumentElement (appendChild (ElementNode importNode) (documentElement d)) ;;
      importedTargets_push projectAttributeVal
  end ;;
  serializeToProjFile ;;
  ret importNode.

(** The loop of [updateImportToSupportRoundTrip] from index [i] on.  The
    list of imports is read from the document anew in every round, as the
    loop does; [bound] limits the number of rounds. *)
Fixpoint updateImportLoop (bound i : nat) : M unit :=
  let! d := getDoc in
  match getElementsByTagName constants.Import (documentElement d) !! i with
  | None => ret tt
  | Some (ref, importTarget) =>
      match bound with
      | 0 => throw LoopBound
      | S bound' =>
          let condition := getAttribute constants.Condition importTarget in
          let projectAttributeVal := getAttribute constants.Project importTarget in
          let! importTarget' :=
            (if String.eqb condition constants.SqlDbPresentCondition
                && String.eqb projectAttributeVal constants.SqlDbTargets
             then updateImportedTargetsToProjFile constants.RoundTripSqlDbPresentCondition
                    projectAttributeVal (Some (Attached ref)) ;;
                  ret Detached
             else ret (Attached ref)) in
          (if String.eqb condition constants.SqlDbNotPresentCondition
              && String.eqb projectAttributeVal constants.MsBuildtargets
           then updateImportedTargetsToProjFile constants.RoundTripSqlDbNotPresentCondition
                  projectAttributeVal (Some importTarget') ;;
                ret tt
           else ret tt) ;;
          updateImportLoop bound' (S i)
      end
  end.

Definition updateImportToSupportRoundTrip : M unit :=
  (* update an SSDT project to include Net core target information *)
  let! d := getDoc in
  updateImportLoop (List.length (getElementsByTagName constants.Import (documentElement d))) 0 ;;
  updateImportedTargetsToProjFile constants.NetCoreCondition constants.NetCoreTargets None ;;
  ret tt.

(** The element [updatePackageReferenceInProjFile] appends. *)
Definition packageRefNode : Element :=
  let packageRefNode := createElement constants.PackageReference in
  let packageRefNode := setAttribute constants.Condition constants.NetCoreCondition packageRefNode in
  let packageRefNode := setAttribute constants.Include constants.NETFrameworkAssembly packageRefNode in
  let packageRefNode := setAttribute constants.Version constants.VersionNumber packageRefNode in
  setAttribute constants.PrivateAssets constants.All packageRefNode.

Definition updatePackageReferenceInProjFile : M unit :=
  let! group := findOrCreateItemGroup (Some constants.PackageReference) in
  appendChildAt group (ElementNode packageRefNode) ;;
  serializeToProjFile.

Definition updateProjectForRoundTrip : M unit :=
  let! this := getThis in
  fs_copyFile (projectFilePath this) (projectFilePath this ++ "_backup") ;;
  updateImportToSupportRoundTrip ;;
  updatePackageReferenceInProjFile.

Definition addFolderItem (relativeFolderPath : string) : M ProjectEntry :=
  let! this := getThis in
  let absoluteFolderPath := path_join [projectFolderPath this; relativeFolderPath] in
  (* If folder doesn't exist, create it *)
  let! exists_ := utils_exists absoluteFolderPath in
  (if negb exists_ then fs_mkdir absoluteFolderPath else ret tt) ;;
  let folderEntry := createProjectEntry this relativeFolderPath EntryType.Folder in
  files_push folderEntry ;;
  addToProjFile folderEntry ;;
  ret folderEntry.

(** [contents] is [None] when the caller passes no second argument; an
    empty string is as falsy as that. *)
Definition addScriptItem (relativeFilePath : string) (contents : option string) : M ProjectEntry :=
  let! this := getThis in
  let absoluteFilePath := path_join [projectFolderPath this; relativeFilePath] in
  match contents with
  | Some text =>
      if truthy text
      then fs_mkdir (path_dirname absoluteFilePath) ;; fs_writeFile absoluteFilePath text
      else ret tt
  | None => ret tt
  end ;;
  (* Check that file actually exists *)
  let! exists_ := utils_exists absoluteFilePath in
  (if negb exists_ then throw (noFileExist absoluteFilePath) else ret tt) ;;
  let fileEntry := createProjectEntry this relativeFilePath EntryType.File in
  files_push fileEntry ;;
  addToProjFile fileEntry ;;
  ret fileEntry.

(** The version [getMasterDacpac] cuts out of the DSP string: the part
    before the number is removed by its length, then the part after it. *)
Definition dspVersion (dsp : string) : string :=
  let version :=
    js_substring_from dsp (Z.of_nat (String.length constants.MicrosoftDatatoolsSchemaSqlSql)) in
  js_substring version 0
    (Z.of_nat (String.length version) - Z.of_nat (String.length constants.databaseSchemaProvider)).

Definition getMasterDacpac : M Uri :=
  let! d := getDoc in
  (* check for invalid DSP *)
  match Document_getElementsByTagName constants.DSP d with
  | [dspNode] =>
      match childNodes dspNode with
      | [child] =>
          match nodeValue child with
          | None => throw TypeError
          | Some dsp =>
              let version := dspVersion dsp in
              (* make sure version is valid *)
              if TargetPlatform.includes version
              then ret (Uri_parse (path_join ["$(NETCoreTargetsPath)"; "SystemDacpacs";
                                              version; "master.dacpac"]))
              else throw invalidDataSchemaProvider
          end
      | _ => throw invalidDataSchemaProvider
      end
  | _ => throw invalidDataSchemaProvider
  end.

Definition addDatabaseReference
    (uri : Uri) (databaseLocation : DatabaseReferenceLocation.t) (databaseName : option string)
  : M unit :=
  let databaseReferenceEntry :=
    new_DatabaseReferenceProjectEntry uri databaseLocation databaseName in
  addToProjFile databaseReferenceEntry.

(** [doc.getElementsByTagName(tag)[0]] with its position; the root
    element is the first candidate. *)
Definition Document_firstElementByTagName (tag : string) (d : Document) : option (Path * Element) :=
  head ((if tagMatches tag (documentElement d) then [([], documentElement d)] else [])
          ++ getElementsByTagName tag (documentElement d)).

(** [node.nodeValue = value] on a text node, as far as a later read of
    [nodeValue] goes.  The tree has one string for a text node; xmldom
    keeps the text it writes to a file in a second property, which this
    assignment leaves alone, so a document changed here stands for what
    [nodeValue] reads and not for what the serializer writes.  On an
    element the DOM has the assignment do nothing, which the model
    follows; xmldom keeps the value on the element. *)
Definition setNodeValue (value : string) (n : Node) : Node :=
  match n with
  | TextNode _ => TextNode value
  | ElementNode e => ElementNode e
  end.

(** The method is synchronous and writes nothing to the disk. *)
Definition changeDSP (compatLevel : string) : M unit :=
  let newDSP :=
    constants.MicrosoftDatatoolsSchemaSqlSql +:+ compatLevel +:+ constants.databaseSchemaProvider in
  let! d := getDoc in
  match Document_firstElementByTagName constants.DSP d with
  | None => throw TypeError
  | Some (ref, dspNode) =>
      match childNodes dspNode with
      | [] => throw TypeError
      | child :: rest =>
          match updateAt ref
                  (fun e => mkElement (tagName e) (attributes e)
                                      (setNodeValue newDSP child :: rest))
                  (documentElement d) with
          | Some root => setDocumentElement root
          | None => throw NotFoundError
          end
      end
  end.

(** *** A call that is not awaited

    An [async] method runs, when it is called, up to its first wait for
    the file system and hands back a promise for the rest; [await] lets
    the rest run before the caller goes on.  The methods above are
    modelled as awaited, which is how their callers in the class use them,
    but for one: [addMasterDatabaseReference] calls [addDatabaseReference]
    and does not await it.  For that call the chain down to the write of
    the project file is modelled once more, each method up to the first
    wait, with what is still to do then as its value. *)

(** What is still to do of a call. *)
Definition Promise (A : Type) : Type := M A.

(** The text is produced at once; the write is what remains. *)
Definition serializeToProjFile_started : M (Promise unit) :=
  let! d := getDoc in
  let! this := getThis in
  ret (fs_writeFile (projectFilePath this) (serializeToString d)).

Definition addToProjFile_started (entry : ProjectEntry) : M (Promise unit) :=
  match type entry with
  | EntryType.File => addFileToProjFile (relativePath entry)
  | EntryType.Folder =>
      addFolderToProjFile (relativePath entry) ;;
      addDatabaseReferenceToProjFile entry
  | EntryType.DatabaseReference => addDatabaseReferenceToProjFile entry
  end ;;
  serializeToProjFile_started.

Definition addDatabaseReference_started
    (uri : Uri) (databaseLocation : DatabaseReferenceLocation.t) (databaseName : option string)
  : M (Promise unit) :=
  let databaseReferenceEntry :=
    new_DatabaseReferenceProjectEntry uri databaseLocation databaseName in
  addToProjFile_started databaseReferenceEntry.

(** The call itself never throws: what the method throws before its first
    wait is kept in the promise. *)
Definition called {A : Type} (started : M (Promise A)) : M (Promise A) :=
  fun w =>
    match started w with
    | (inr rest, w') => (inr rest, w')
    | (inl e, w') => (inr (throw e), w')
    end.

(** The method returns once the call has handed back its promise, which
    it drops; the model returns it, as what is still to happen then. *)
Definition addMasterDatabaseReference : M (Promise unit) :=
  let! uri := getMasterDacpac in
  called (addDatabaseReference_started uri DatabaseReferenceLocation.differentDatabaseSameServer
                                       (Some constants.master)).

(** [fs.stat(path)]: what is at the path; it fails when nothing is. *)
Definition fs_stat (path : string) : M Inode :=
  fun w =>
    match disk w !! path with
    | Some inode => (inr inode, w)
    | None => (inl IOError, w)
    end.

Definition isFile (stat : Inode) : bool :=
  match stat with
  | RegularFile _ => true
  | Directory => false
  end.

Definition isDirectory (stat : Inode) : bool :=
  match stat with
  | RegularFile _ => false
  | Directory => true
  end.

Context {U : Utilities}.

Definition addToProject (list : list string) : M unit :=
  forEach list (fun file =>
    let! this := getThis in
    let relativePath :=
      trimChars (trimUri (Uri_file (projectFilePath this)) (Uri_file file)) "/" in
    if Nat.ltb 0 (String.length relativePath)
    then
      let! fileStat := fs_stat file in
      if isFile fileStat && js_endsWith (toLowerCase file) sqlFileExtension
      then addScriptItem relativePath None ;; ret tt
      else if isDirectory fileStat
      then addFolderItem relativePath ;; ret tt
      else ret tt
    else ret tt).

End ProjectModel.

(** ** A concrete setting

    The constants with the values the extension ships, POSIX paths, and a
    small XML reader and writer for elements, attributes and text.  The
    examples below are stated in this setting. *)

Module Sample.

#[export] Instance values : constants.Values := {|
  constants.ItemGroup := "ItemGroup";
  constants.Build := "Build";
  constants.Folder := "Folder";
  constants.Include := "Include";
  constants.Import := "Import";
  constants.Project := "Project";
  constants.Condition := "Condition";
  constants.SqlCmdVariable := "SqlCmdVariable";
  constants.DefaultValue := "DefaultValue";
  constants.ArtifactReference := "ArtifactReference";
  constants.SuppressMissingDependenciesErrors := "SuppressMissingDependenciesErrors";
  constants.DatabaseVariableLiteralValue := "DatabaseVariableLiteralValue";
  constants.DSP := "DSP";
  constants.PackageReference := "PackageReference";
  constants.Version := "Version";
  constants.PrivateAssets := "PrivateAssets";
  constants.All := "All";
  constants.NETFrameworkAssembly := "Microsoft.NETFramework.ReferenceAssemblies";
  constants.VersionNumber := "1.0.0";
  constants.SqlDbPresentCondition := "'$(SQLDBExtensionsRefPath)' != ''";
  constants.SqlDbNotPresentCondition := "'$(SQLDBExtensionsRefPath)' == ''";
  constants.RoundTripSqlDbPresentCondition :=
    "'$(NetCoreBuild)' != 'true' AND '$(SQLDBExtensionsRefPath)' != ''";
  constants.RoundTripSqlDbNotPresentCondition :=
    "'$(NetCoreBuild)' != 'true' AND '$(SQLDBExtensionsRefPath)' == ''";
  constants.SqlDbTargets := "$(SQLDBExtensionsRefPath)\Microsoft.Data.Tools.Schema.SqlTasks.targets";
  constants.MsBuildtargets :=
    "$(MSBuildExtensionsPath)\Microsoft\VisualStudio\v$(VisualStudioVersion)\SSDT\Microsoft.Data.Tools.Schema.SqlTasks.targets";
  constants.NetCoreCondition := "'$(NetCoreBuild)' == 'true'";
  constants.NetCoreTargets := "$(NETCoreTargetsPath)\Microsoft.Data.Tools.Schema.SqlTasks.targets";
  constants.MicrosoftDatatoolsSchemaSqlSql := "Microsoft.Data.Tools.Schema.Sql.Sql";
  constants.databaseSchemaProvider := "DatabaseSchemaProvider";
  constants.master := "master"
|}.

(** *** Paths *)

Definition isSlash (c : ascii) : bool := Ascii.eqb c "/"%char.

Fixpoint dropWhileChar (p : ascii -> bool) (l : list ascii) : list ascii :=
  match l with
  | [] => []
  | c :: rest => if p c then dropWhileChar p rest else l
  end.

Fixpoint takeWhileChar (p : ascii -> bool) (l : list ascii) : list ascii :=
  match l with
  | [] => []
  | c :: rest => if p c then c :: takeWhileChar p rest else []
  end.

Definition dirname (path : string) : string :=
  let r := rev (list_ascii_of_string path) in
  match rev (tl (dropWhileChar (fun c => negb (isSlash c)) r)) with
  | [] => if existsb isSlash (list_ascii_of_string path) then "/" else "."
  | above => string_of_list_ascii above
  end.

Definition basename (path ext : string) : string :=
  let r := rev (list_ascii_of_string path) in
  let b := string_of_list_ascii (rev (takeWhileChar (fun c => negb (isSlash c)) r)) in
  let n := String.length b - String.length ext in
  if String.eqb (String.substring n (String.length ext) b) ext
  then String.substring 0 n b else b.

(** *** Writing a tree as text *)

Definition quote : ascii := "034"%char.

Fixpoint escape (s : string) : string :=
  match s with
  | EmptyString => EmptyString
  | String c rest =>
      (if Ascii.eqb c "&"%char then "&amp;"
       else if Ascii.eqb c "<"%char then "&lt;"
       else if Ascii.eqb c ">"%char then "&gt;"
       else if Ascii.eqb c quote then "&quot;"
       else String c EmptyString) +:+ escape rest
  end.

Definition writeAttribute (a : string * string) : string :=
  " " +:+ fst a +:+ "=" +:+ String quote (escape (snd a)) +:+ String quote EmptyString.

Fixpoint writeElement (e : Element) : string :=
  match e with
  | mkElement tag attrs children =>
      "<" +:+ tag +:+ String.concat "" (map writeAttribute attrs)
        +:+ match children with
           | [] => "/>"
           | _ =>
               ">" +:+ (fix writeNodes (l : list Node) : string :=
                         match l with
                         | [] => EmptyString
                         | ElementNode c :: rest => writeElement c +:+ writeNodes rest
                         | TextNode t :: rest => escape t +:+ writeNodes rest
                         end) children
                   +:+ "</" +:+ tag +:+ ">"
           end
  end.

Definition write (d : Document) : string := writeElement (documentElement d).

(** *** Reading text as a tree *)

Fixpoint stripPrefix (prefix s : string) : option string :=
  match prefix, s with
  | EmptyString, _ => Some s
  | String a p, String b r => if Ascii.eqb a b then stripPrefix p r else None
  | String _ _, EmptyString => None
  end.

(** Entities back to characters; [skip] characters of an entity are
    still to be dropped. *)
Fixpoint unescapeFrom (skip : nat) (s : string) : string :=
  match s with
  | EmptyString => EmptyString
  | String c rest =>
      match skip with
      | S n => unescapeFrom n rest
      | 0 =>
          if Ascii.eqb c "&"%char then
            if String.prefix "amp;" rest then String "&"%char (unescapeFrom 4 rest)
            else if String.prefix "lt;" rest then String "<"%char (unescapeFrom 3 rest)
            else if String.prefix "gt;" rest then String ">"%char (unescapeFrom 3 rest)
            else if String.prefix "quot;" rest then String quote (unescapeFrom 5 rest)
            else String c (unescapeFrom 0 rest)
          else String c (unescapeFrom 0 rest)
      end
  end.

Definition unescape (s : string) : string := unescapeFrom 0 s.

(** The part of [s] before the first character that satisfies [stop],
    and the rest from that character on. *)
Fixpoint span (stop : ascii -> bool) (s : string) : string * string :=
  match s with
  | EmptyString => (EmptyString, EmptyString)
  | String c rest =>
      if stop c then (EmptyString, s)
      else let (a, b) := span stop rest in (String c a, b)
  end.

Definition endsName (c : ascii) : bool :=
  Ascii.eqb c " "%char || Ascii.eqb c "/"%char || Ascii.eqb c ">"%char
  || Ascii.eqb c "="%char || Ascii.eqb c "<"%char || Ascii.eqb c quote.

(** The attributes of a start tag, up to its [/] or [>]. *)
Fixpoint readAttributes (fuel : nat) (s : string) : option (list (string * string) * string) :=
  match fuel with
  | 0 => None
  | S fuel' =>
      match s with
      | String " " rest => readAttributes fuel' rest
      | String "/" _ => Some ([], s)
      | String ">" _ => Some ([], s)
      | _ =>
          let (name, afterName) := span endsName s in
          match afterName with
          | String "=" (String q afterQuote) =>
              if Ascii.eqb q quote then
                let (value, afterValue) := span (Ascii.eqb quote) afterQuote in
                match afterValue with
                | String _ afterAttribute =>
                    match readAttributes fuel' afterAttribute with
                    | Some (attrs, rest) => Some ((name, unescape value) :: attrs, rest)
                    | None => None
                    end
                | EmptyString => None
                end
              else None
          | _ => None
          end
      end
  end.

(** The nodes up to the next end tag or the end of the text. *)
Fixpoint readNodes (fuel : nat) (s : string) : option (list Node * string) :=
  match fuel with
  | 0 => None
  | S fuel' =>
      match s with
      | EmptyString => Some ([], s)
      | String "<" (String "/" _) => Some ([], s)
      | String "<" afterOpen =>
          let (tag, afterTag) := span endsName afterOpen in
          match readAttributes fuel' afterTag with
          | Some (attrs, String "/" (String ">" afterElement)) =>
              match readNodes fuel' afterElement with
              | Some (siblings, rest) =>
                  Some (ElementNode (mkElement tag attrs []) :: siblings, rest)
              | None => None
              end
          | Some (attrs, String ">" afterStart) =>
              match readNodes fuel' afterStart with
              | Some (children, afterChildren) =>
                  match stripPrefix ("</" +:+ tag +:+ ">") afterChildren with
                  | Some afterElement =>
                      match readNodes fuel' afterElement with
                      | Some (siblings, rest) =>
                          Some (ElementNode (mkElement tag attrs children) :: siblings, rest)
                      | None => None
                      end
                  | None => None
                  end
              | None => None
              end
          | _ => None
          end
      | _ =>
          let (text, afterText) := span (Ascii.eqb "<"%char) s in
          match readNodes fuel' afterText with
          | Some (siblings, rest) => Some (TextNode (unescape text) :: siblings, rest)
          | None => None
          end
      end
  end.

Definition read (text : string) : option Document :=
  match readNodes (S (String.length text)) text with
  | Some ([ElementNode root], EmptyString) => Some (mkDocument root)
  | _ => None
  end.

#[export] Instance libraries : Libraries := {|
  Uri := string;
  Uri_file := fun path => path;
  Uri_parse := fun path => path;
  fsPath := fun uri => uri;
  path_join := String.concat "/";
  path_dirname := dirname;
  path_basename := basename;
  parseFromString := read;
  serializeToString := write
|}.

(** A project file with a folder, a script, a variable, the two SSDT
    imports and a schema provider. *)
Definition sqlproj : Document :=
  mkDocument
    (mkElement "Project" [("DefaultTargets", "Build")]
       [ElementNode (mkElement "PropertyGroup" []
          [ElementNode (mkElement "DSP" []
             [TextNode "Microsoft.Data.Tools.Schema.Sql.Sql130DatabaseSchemaProvider"])]);
        ElementNode (mkElement "ItemGroup" []
          [ElementNode (mkElement "Folder" [("Include", "Tables")] []);
           ElementNode (mkElement "Build" [("Include", "Tables/t1.sql")] [])]);
        ElementNode (mkElement "ItemGroup" []
          [ElementNode (mkElement "SqlCmdVariable" [("Include", "ProdDatabaseName")]
             [ElementNode (mkElement "DefaultValue" [] [TextNode "MyProdDatabase"])])]);
        ElementNode (mkElement "Import"
          [("Condition", "'$(SQLDBExtensionsRefPath)' != ''");
           ("Project", "$(SQLDBExtensionsRefPath)\Microsoft.Data.Tools.Schema.SqlTasks.targets")] []);
        ElementNode (mkElement "Import"
          [("Condition", "'$(SQLDBExtensionsRefPath)' == ''");
           ("Project", "$(MSBuildExtensionsPath)\Microsoft\VisualStudio\v$(VisualStudioVersion)\SSDT\Microsoft.Data.Tools.Schema.SqlTasks.targets")] [])]).

Definition projectPath : string := "/work/db/db.sqlproj".

(** The disk with the project file and its folder. *)
Definition disk0 : gmap string Inode :=
  <[projectPath := RegularFile (write sqlproj)]>
    (<["/work/db" := Directory]> (<["/work/db/Tables" := Directory]> ∅)).

(** A project object that has not read its file, and one that has. *)
Definition fresh : World := mkWorld (new_Project projectPath) disk0.

Definition loaded : World := snd (readProjFile fresh).

(** A loaded project whose schema provider element holds [dsp]. *)
Definition projectWithDsp (dsp : string) : World :=
  mkWorld
    (set_projFileXmlDoc
       (Some (mkDocument
                (mkElement "Project" []
                   [ElementNode (mkElement "PropertyGroup" []
                      [ElementNode (mkElement "DSP" [] [TextNode dsp])])])))
       (new_Project projectPath))
    disk0.

(** A project file whose variable has no default value. *)
Definition noDefaultValue : Document :=
  mkDocument
    (mkElement "Project" []
       [ElementNode (mkElement "ItemGroup" []
          [ElementNode (mkElement "SqlCmdVariable" [("Include", "ProdDatabaseName")] [])])]).

Definition brokenDisk : gmap string Inode :=
  <[projectPath := RegularFile (write noDefaultValue)]> ∅.

(** A project file whose variable has a default value element that holds
    an element and no text. *)
Definition elementDefaultValue : Document :=
  mkDocument
    (mkElement "Project" []
       [ElementNode (mkElement "ItemGroup" []
          [ElementNode (mkElement "SqlCmdVariable" [("Include", "ProdDatabaseName")]
             [ElementNode (mkElement "DefaultValue" []
                [ElementNode (mkElement "Value" [] [])])])])]).

Definition elementDisk : gmap string Inode :=
  <[projectPath := RegularFile (write elementDefaultValue)]> ∅.

(** *** The utilities of [addToProject]

    A path below the folder of the project is relative to that folder;
    any other path has no relative path. *)

Definition trimUriBelow (innerUri outerUri : string) : string :=
  match stripPrefix (dirname innerUri) outerUri with
  | Some rest => rest
  | None => ""
  end.

Definition trimCharsOf (input chars : string) : string :=
  let strip := dropWhileChar (fun c => existsb (Ascii.eqb c) (list_ascii_of_string chars)) in
  string_of_list_ascii (rev (strip (rev (strip (list_ascii_of_string input))))).

Definition lowerCaseOf (c : ascii) : ascii :=
  let n := nat_of_ascii c in
  if Nat.leb 65 n && Nat.leb n 90 then ascii_of_nat (n + 32) else c.

Fixpoint toLowerCaseOf (s : string) : string :=
  match s with
  | EmptyString => EmptyString
  | String c rest => String (lowerCaseOf c) (toLowerCaseOf rest)
  end.

#[export] Instance utilities : Utilities := {|
  trimUri := trimUriBelow;
  trimChars := trimCharsOf;
  toLowerCase := toLowerCaseOf;
  sqlFileExtension := ".sql"
|}.

(** The disk with a second script in the folder of tables. *)
Definition scriptDisk : gmap string Inode :=
  <["/work/db/Tables/t2.sql" := RegularFile "CREATE TABLE t2 (id int)"]> disk0.

(** A disk on which a directory takes the path of the project file. *)
Definition lockedDisk : gmap string Inode :=
  <[projectPath := Directory]> scriptDisk.

(** A project file that declares one variable twice, and between the two
    a variable with the name of the prototype accessor. *)
Definition twoDefaults : Document :=
  mkDocument
    (mkElement "Project" []
       [ElementNode (mkElement "ItemGroup" []
          [ElementNode (mkElement "SqlCmdVariable" [("Include", "Environment")]
             [ElementNode (mkElement "DefaultValue" [] [TextNode "test"])]);
           ElementNode (mkElement "SqlCmdVariable" [("Include", "__proto__")]
             [ElementNode (mkElement "DefaultValue" [] [TextNode "staging"])]);
           ElementNode (mkElement "SqlCmdVariable" [("Include", "Environment")]
             [ElementNode (mkElement "DefaultValue" [] [TextNode "production"])])])]).

(** A project file with two variables of that name, the second of which
    has an element as value. *)
Definition protoDefaults : Document :=
  mkDocument
    (mkElement "Project" []
       [ElementNode (mkElement "ItemGroup" []
          [ElementNode (mkElement "SqlCmdVariable" [("Include", "__proto__")]
             [ElementNode (mkElement "DefaultValue" [] [TextNode "staging"])]);
           ElementNode (mkElement "SqlCmdVariable" [("Include", "__proto__")]
             [ElementNode (mkElement "DefaultValue" []
                [ElementNode (mkElement "Value" [] [])])])])]).

Definition twoDefaultsDisk : gmap string Inode :=
  <[projectPath := RegularFile (write twoDefaults)]> ∅.

(** A project file with a script, an import and two variables, the second
    of which has no default value. *)
Definition secondWithoutDefault : Document :=
  mkDocument
    (mkElement "Project" []
       [ElementNode (mkElement "ItemGroup" []
          [ElementNode (mkElement "Build" [("Include", "Tables/t1.sql")] [])]);
        ElementNode (mkElement "ItemGroup" []
          [ElementNode (mkElement "SqlCmdVariable" [("Include", "Environment")]
             [ElementNode (mkElement "DefaultValue" [] [TextNode "test"])]);
           ElementNode (mkElement "SqlCmdVariable" [("Include", "Region")] [])]);
        ElementNode (mkElement "Import" [("Project", "common.targets")] [])]).

Definition secondWithoutDefaultDisk : gmap string Inode :=
  <[projectPath := RegularFile (write secondWithoutDefault)]> ∅.

End Sample.

(** * Notions the statements use *)

Section Notions.

Context {C : constants.Values} {L : Libraries}.

(** What the walk finds at one node with index [k]. *)
Definition visitNode (tag : string) (k : nat) (n : Node) : list (Path * Element) :=
  match n with
  | ElementNode e =>
      (if tagMatches tag e then [([k], e)] else [])
        ++ map (fun pe => (k :: fst pe, snd pe)) (getElementsByTagName tag e)
  | TextNode _ => []
  end.

(** An element with text below it only. *)
Definition holdsTextOnly (e : Element) : Prop :=
  Forall (fun n => exists s, n = TextNode s) (childNodes e).

(** A node with no element of the tag below it (the node itself may be
    one). *)
Definition noneBelow (tag : string) (n : Node) : Prop :=
  match n with
  | ElementNode e => getElementsByTagName tag e = []
  | TextNode _ => True
  end.

(** The world with another root element in the project's document. *)
Definition withRoot (root : Element) (w : World) : World :=
  mkWorld (set_projFileXmlDoc (Some (mkDocument root)) (this w)) (disk w).

(** [w'] has the project file where [w] has it, and the same disk apart
    from the project file. *)
Definition sameElsewhere (w w' : World) : Prop :=
  projectFilePath (this w') = projectFilePath (this w)
  /\ forall q, q <> projectFilePath (this w) -> disk w' !! q = disk w !! q.

(** A method that, whatever its outcome, writes no file but the project
    file. *)
Definition keepsOtherFiles {A} (m : M A) : Prop :=
  forall w, sameElsewhere w (snd (m w)).

(** The import element [updateImportedTargetsToProjFile] builds. *)
Definition importNode (condition projectAttributeVal : string) : Element :=
  setAttribute constants.Project projectAttributeVal
    (setAttribute constants.Condition condition (createElement constants.Import)).

(** The two tests of the loop of [updateImportToSupportRoundTrip]. *)
Definition isSqlDbPresent (importTarget : Element) : bool :=
  String.eqb (getAttribute constants.Condition importTarget) constants.SqlDbPresentCondition
  && String.eqb (getAttribute constants.Project importTarget) constants.SqlDbTargets.

Definition isSqlDbNotPresent (importTarget : Element) : bool :=
  String.eqb (getAttribute constants.Condition importTarget) constants.SqlDbNotPresentCondition
  && String.eqb (getAttribute constants.Project importTarget) constants.MsBuildtargets.

(** What one round of the loop puts in the place of an import. *)
Definition rewriteImport (importTarget : Element) : Element :=
  if isSqlDbPresent importTarget
  then importNode constants.RoundTripSqlDbPresentCondition
                  (getAttribute constants.Project importTarget)
  else if isSqlDbNotPresent importTarget
  then importNode constants.RoundTripSqlDbNotPresentCondition
                  (getAttribute constants.Project importTarget)
  else importTarget.

Definition rewriteNode (n : Node) : Node :=
  match n with
  | ElementNode e =>
      if tagMatches constants.Import e then ElementNode (rewriteImport e) else n
  | TextNode _ => n
  end.

(** The names the round-trip upgrade tells apart: no tag is the
    wildcard, the three tags differ, the two attributes differ, and so do
    the two legacy conditions. *)
Definition roundTripNames : Prop :=
  constants.Import <> "*" /\ constants.PackageReference <> "*" /\ constants.ItemGroup <> "*"
  /\ constants.Import <> constants.ItemGroup
  /\ constants.Import <> constants.PackageReference
  /\ constants.ItemGroup <> constants.PackageReference
  /\ constants.Condition <> constants.Project
  /\ constants.SqlDbPresentCondition <> constants.SqlDbNotPresentCondition.

(** An outcome other than the model's [LoopBound]. *)
Definition withinBound {A} (r : Error + A) : Prop :=
  match r with
  | inl LoopBound => False
  | _ => True
  end.

(** The group [findOrCreateItemGroup] finds before it creates one. *)
Definition outputItemGroup (containedTag : option string) (root : Element) : option Path :=
  match containedTag with
  | Some tag =>
      if truthy tag
      then searchItemGroup tag (getElementsByTagName constants.ItemGroup root)
      else None
  | None => None
  end.

(** An element found by a walk that has no element of the tag below it. *)
Definition holdsNone (tag : string) (found : Path * Element) : Prop :=
  getElementsByTagName tag (snd found) = [].

(** The element [addFileToProjFile] builds. *)
Definition newFileNode (path : string) : Element :=
  setAttribute constants.Include path (createElement constants.Build).

(** The element [addFolderToProjFile] builds. *)
Definition newFolderNode (path : string) : Element :=
  setAttribute constants.Include path (createElement constants.Folder).

(** The disk once [addFolderItem] has made sure of the folder, where
    [fs.mkdir] can make it. *)
Definition withFolder (absoluteFolderPath : string) (files0 : gmap string Inode)
  : gmap string Inode :=
  match files0 !! absoluteFolderPath with
  | Some _ => files0
  | None => makeDirectories (absoluteFolderPath :: pathsAbove absoluteFolderPath) files0
  end.

(** The names [addScriptItem] tells apart. *)
Definition buildNames : Prop :=
  constants.Build <> "" /\ constants.Build <> "*" /\ constants.ItemGroup <> "*"
  /\ constants.Build <> constants.ItemGroup.


(** The first step of [addScriptItem]: the file is written when contents
    are given. *)
Definition writeContents (absoluteFilePath : string) (contents : option string) : M unit :=
  match contents with
  | Some text =>
      if truthy text
      then bind (fs_mkdir (path_dirname absoluteFilePath))
                (fun _ => fs_writeFile absoluteFilePath text)
      else ret tt
  | None => ret tt
  end.

(** What [readProjFile] reads from one item group: the script files, then
    the folders. *)
Definition entriesOf (p : Project) (itemGroup : Path * Element) : list ProjectEntry :=
  map (fun b => createProjectEntry p (getAttribute constants.Include (snd b)) EntryType.File)
      (getElementsByTagName constants.Build (snd itemGroup))
  ++ map (fun f => createProjectEntry p (getAttribute constants.Include (snd f)) EntryType.Folder)
         (getElementsByTagName constants.Folder (snd itemGroup)).

Definition readEntries (p : Project) (root : Element) : list ProjectEntry :=
  flat_map (entriesOf p) (getElementsByTagName constants.ItemGroup root).

Definition readTargets (root : Element) : list string :=
  map (fun i => getAttribute constants.Project (snd i))
      (getElementsByTagName constants.Import root).

(** The value [readProjFile] reads for a variable: the [nodeValue] of the
    first child of its first default value element, when there is one. *)
Definition defaultValueOf (sqlCmdVar : Path * Element) : option (option string) :=
  match getElementsByTagName constants.DefaultValue (snd sqlCmdVar) with
  | [] => None
  | defaultValue :: _ =>
      match childNodes (snd defaultValue) with
      | [] => None
      | child :: _ => Some (nodeValue child)
      end
  end.

Definition readVariable (m : JSObject) (sqlCmdVar : Path * Element) : JSObject :=
  match defaultValueOf sqlCmdVar with
  | Some value => setProperty (getAttribute constants.Include (snd sqlCmdVar)) value m
  | None => m
  end.

Definition readVariables (root : Element) (m : JSObject) : JSObject :=
  fold_left readVariable (getElementsByTagName constants.SqlCmdVariable root) m.

(** The name of a variable, as [readProjFile] reads it. *)
Definition variableName (sqlCmdVar : Path * Element) : string :=
  getAttribute constants.Include (snd sqlCmdVar).

(** What reading a variable does to the own properties when its name is
    not [__proto__]. *)
Definition readOwnProperty (own : gmap string (option string)) (sqlCmdVar : Path * Element)
  : gmap string (option string) :=
  match defaultValueOf sqlCmdVar with
  | Some value => <[variableName sqlCmdVar := value]> own
  | None => own
  end.

(** A variable named [__proto__] with a text as value. *)
Definition protoWithText (sqlCmdVar : Path * Element) : Prop :=
  variableName sqlCmdVar = "__proto__" ->
  exists text, defaultValueOf sqlCmdVar = Some (Some text).

(** The project after [readProjFile] has read the document [d]. *)
Definition afterRead (d : Document) (p : Project) : Project :=
  mkProject (projectFilePath p) (projectFileName p)
            (files p ++ readEntries p (documentElement d))
            (importedTargets p ++ readTargets (documentElement d))
            (readVariables (documentElement d) (sqlCmdVariables p))
            (Some d).


(** The entry [addMasterDatabaseReference] makes for a Uri. *)
Definition masterEntry (uri : Uri) : ProjectEntry :=
  new_DatabaseReferenceProjectEntry uri DatabaseReferenceLocation.differentDatabaseSameServer
                                    (Some constants.master).

(** The root with a new last item group that holds the reference of an
    entry. *)
Definition withReference (entry : ProjectEntry) (root : Element) : Element :=
  appendChild
    (ElementNode (mkElement constants.ItemGroup [] [ElementNode (referenceNode entry)]))
    root.


Context {U : Utilities}.

(** The relative path [addToProject] computes for a path of the list. *)
Definition relativePathOf (p : Project) (file : string) : string :=
  trimChars (trimUri (Uri_file (projectFilePath p)) (Uri_file file)) "/".

(** A path [addToProject] passes over: its relative path is empty, or it
    names a file whose name does not end in the extension of scripts. *)
Definition passedOver (w : World) (file : string) : Prop :=
  relativePathOf (this w) file = ""
  \/ exists data,
       disk w !! file = Some (RegularFile data)
       /\ js_endsWith (toLowerCase file) sqlFileExtension = false.

End Notions.

(** * Facts about strings *)

Section StringFacts.

Lemma length_append (a b : string) :
  String.length (a +:+ b) = String.length a + String.length b.
Proof. induction a as [|c a IH]; simpl; [reflexivity | rewrite IH; reflexivity]. Qed.

Lemma substring_append_skip (p r : string) n :
  String.substring (String.length p) n (p +:+ r) = String.substring 0 n r.
Proof. induction p as [|c p IH]; simpl; [reflexivity | exact IH]. Qed.

Lemma substring_append_prefix (v s : string) :
  String.substring 0 (String.length v) (v +:+ s) = v.
Proof.
  induction v as [|c v IH]; simpl; [destruct s; reflexivity | rewrite IH; reflexivity].
Qed.

Lemma substring_whole (s : string) : String.substring 0 (String.length s) s = s.
Proof. induction s as [|c s IH]; simpl; [reflexivity | rewrite IH; reflexivity]. Qed.

(** [substring] with indices in order and inside the string. *)
Lemma js_substring_in_range (s : string) (a b : nat) :
  a <= b -> b <= String.length s ->
  js_substring s (Z.of_nat a) (Z.of_nat b) = String.substring a (b - a) s.
Proof.
  intros Hab Hb. unfold js_substring.
  replace (Z.min (Z.min (Z.max (Z.of_nat a) 0) (Z.of_nat (String.length s)))
                 (Z.min (Z.max (Z.of_nat b) 0) (Z.of_nat (String.length s))))
    with (Z.of_nat a) by lia.
  replace (Z.max (Z.min (Z.max (Z.of_nat a) 0) (Z.of_nat (String.length s)))
                 (Z.min (Z.max (Z.of_nat b) 0) (Z.of_nat (String.length s))))
    with (Z.of_nat b) by lia.
  rewrite Nat2Z.id. replace (Z.to_nat (Z.of_nat b - Z.of_nat a)) with (b - a) by lia.
  reflexivity.
Qed.

Lemma substring_nothing (n : nat) (s : string) : String.substring n 0 s = "".
Proof. revert s. induction n as [|n IH]; intros [|c s]; simpl; auto. Qed.

Lemma length_substring_le (n m : nat) (s : string) :
  String.length (String.substring n m s) <= String.length s - n.
Proof.
  revert n m. induction s as [|c s IH]; intros [|n] [|m]; simpl; try lia.
  - specialize (IH 0 m). lia.
  - apply IH.
  - apply IH.
Qed.

(** [s.substring(a)] is no longer than what follows the first [a]
    characters. *)
Lemma length_js_substring_from (s : string) (a : nat) :
  String.length (js_substring_from s (Z.of_nat a)) <= String.length s - a.
Proof.
  unfold js_substring_from, js_substring.
  match goal with
  | |- String.length (String.substring ?lo ?count s) <= _ =>
      pose proof (length_substring_le lo count s) as Hle;
      assert (Hlo : lo = Nat.min a (String.length s)) by lia
  end.
  lia.
Qed.

(** [s.substring(0, finish)] for an index that is not positive. *)
Lemma js_substring_to_nonpositive (s : string) (finish : Z) :
  (finish <= 0)%Z -> js_substring s 0 finish = "".
Proof.
  intros Hfinish. unfold js_substring.
  match goal with
  | |- String.substring ?lo ?count s = _ =>
      assert (Hcount : count = 0) by lia; rewrite Hcount
  end.
  apply substring_nothing.
Qed.

Lemma string_split_front (n : nat) (s : string) :
  n <= String.length s ->
  exists before rest, String.length before = n /\ s = before +:+ rest.
Proof.
  revert s. induction n as [|n IH]; intros s Hn.
  - exists "", s. split; reflexivity.
  - destruct s as [|c s]; [simpl in Hn; lia|].
    destruct (IH s) as (before & rest & Hlength & ->); [simpl in Hn; lia|].
    exists (String c before), rest. split; [simpl; rewrite Hlength|]; reflexivity.
Qed.

Lemma string_split_back (m : nat) (s : string) :
  m <= String.length s ->
  exists rest after, String.length after = m /\ s = rest +:+ after.
Proof.
  induction s as [|c s IH]; intros Hm.
  - exists "", "". split; [simpl in *; lia | reflexivity].
  - destruct (Nat.eq_dec m (String.length (String c s))) as [->|Hne].
    + exists "", (String c s). split; reflexivity.
    + destruct IH as (rest & after & Hlength & ->); [simpl in *; lia|].
      exists (String c rest), after. split; [exact Hlength | reflexivity].
Qed.

(** A string as long as [n] and [m] characters together has [n]
    characters in front, [m] at the end and the rest between them. *)
Lemma string_split_both (n m : nat) (s : string) :
  n + m <= String.length s ->
  exists before between after,
    String.length before = n /\ String.length after = m
    /\ s = before +:+ between +:+ after.
Proof.
  intros Hlength.
  destruct (string_split_front n s) as (before & rest & Hbefore & ->); [lia|].
  rewrite length_append in Hlength.
  destruct (string_split_back m rest) as (between & after & Hafter & ->); [lia|].
  exists before, between, after. auto.
Qed.

(** A path with a suffix added is another path. *)
Lemma append_nonempty_ne (p suffix : string) :
  suffix <> EmptyString -> p +:+ suffix <> p.
Proof.
  intros Hne Heq. apply (f_equal String.length) in Heq.
  rewrite length_append in Heq. destruct suffix; [contradiction|]. simpl in Heq. lia.
Qed.

End StringFacts.

(** * Facts about the document tree *)

Section DocumentFacts.

(** Induction over an element with the property known of the elements
    among its children. *)
Lemma Element_children_ind (P : Element -> Prop)
    (step : forall t a cs,
        Forall (fun n => match n with ElementNode e => P e | TextNode _ => True end) cs ->
        P (mkElement t a cs))
    (e : Element) : P e.
Proof.
  revert e. fix IH 1. intros [t a cs]. apply step.
  induction cs as [|n rest IHrest]; constructor; [|exact IHrest].
  destruct n; [apply IH | exact I].
Qed.

Lemma getElementsByTagName_children tag t a cs :
  getElementsByTagName tag (mkElement t a cs) = visitSiblings tag 0 cs.
Proof.
  simpl. generalize 0. induction cs as [|n rest IH]; intros k; [reflexivity|].
  destruct n; simpl; rewrite IH; reflexivity.
Qed.

Lemma getElementsByTagName_childNodes tag e :
  getElementsByTagName tag e = visitSiblings tag 0 (childNodes e).
Proof. destruct e. apply getElementsByTagName_children. Qed.

Lemma visitSiblings_cons tag k n rest :
  visitSiblings tag k (n :: rest) = visitNode tag k n ++ visitSiblings tag (S k) rest.
Proof. destruct n; simpl; [rewrite <- app_assoc|]; reflexivity. Qed.

Lemma visitSiblings_app tag k l1 l2 :
  visitSiblings tag k (l1 ++ l2)
  = visitSiblings tag k l1 ++ visitSiblings tag (k + List.length l1) l2.
Proof.
  revert k. induction l1 as [|n rest IH]; intros k.
  - simpl. rewrite Nat.add_0_r. reflexivity.
  - rewrite <- app_comm_cons, !visitSiblings_cons, IH, <- app_assoc.
    simpl. rewrite Nat.add_succ_r. reflexivity.
Qed.

(** The walk over siblings of which the one at index [i] is [n]. *)
Lemma visitSiblings_lookup tag k (l : list Node) i n :
  l !! i = Some n ->
  visitSiblings tag k l
  = visitSiblings tag k (take i l) ++ visitNode tag (k + i) n
      ++ visitSiblings tag (S (k + i)) (drop (S i) l).
Proof.
  intros Hi.
  rewrite <- (take_drop_middle l i n Hi) at 1.
  rewrite visitSiblings_app, visitSiblings_cons.
  rewrite length_take_le by (apply Nat.lt_le_incl; eapply lookup_lt_Some; eassumption).
  reflexivity.
Qed.

(** The same siblings after the one at index [i] has been replaced. *)
Lemma visitSiblings_insert tag k (l : list Node) i n :
  i < List.length l ->
  visitSiblings tag k (<[i := n]> l)
  = visitSiblings tag k (take i l) ++ visitNode tag (k + i) n
      ++ visitSiblings tag (S (k + i)) (drop (S i) l).
Proof.
  intros Hi.
  rewrite (visitSiblings_lookup tag k (<[i := n]> l) i n)
    by (apply list_lookup_insert_eq; exact Hi).
  rewrite take_insert_ge by lia. rewrite drop_insert_lt by lia. reflexivity.
Qed.

(** Every entry of the walk is an element of that tag at that position. *)
Lemma getElementsByTagName_elementAt tag base p e :
  In (p, e) (getElementsByTagName tag base) ->
  elementAt p base = Some e /\ tagMatches tag e = true /\ p <> [].
Proof.
  revert p e. induction base as [t a cs IH] using Element_children_ind.
  intros p e. rewrite getElementsByTagName_children.
  assert (Hgen : forall k done,
             List.length done = k ->
             In (p, e) (visitSiblings tag k cs) ->
             elementAt p (mkElement t a (done ++ cs)) = Some e
             /\ tagMatches tag e = true /\ p <> []).
  { induction cs as [|n rest IHrest]; intros k done Hk Hin; [destruct Hin|].
    inversion IH as [|? ? Hn Hrest]; subst.
    rewrite visitSiblings_cons in Hin. apply in_app_or in Hin as [Hin|Hin].
    - destruct n as [c|s]; [|destruct Hin]. simpl in Hin.
      apply in_app_or in Hin as [Hin|Hin].
      + destruct (tagMatches tag c) eqn:Hm; [|destruct Hin].
        destruct Hin as [Heq|[]]. inversion Heq; subst.
        simpl. rewrite list_lookup_middle by reflexivity. auto.
      + apply in_map_iff in Hin as [[q x] [Heq Hqx]]. simpl in Heq.
        inversion Heq; subst. destruct (Hn _ _ Hqx) as (Hat & Hm & _).
        simpl. rewrite list_lookup_middle by reflexivity. auto.
    - specialize (IHrest Hrest (S (List.length done)) (done ++ [n])).
      rewrite <- app_assoc in IHrest. simpl in IHrest. apply IHrest; [|exact Hin].
      rewrite length_app. simpl. lia. }
  apply (Hgen 0 []). reflexivity.
Qed.

(** A position that holds an element can be updated. *)
Lemma updateAt_is_Some p f base e :
  elementAt p base = Some e -> is_Some (updateAt p f base).
Proof.
  revert base. induction p as [|k p IH]; intros base Hat; simpl in *; [eauto|].
  destruct (childNodes base !! k) as [[c|]|]; try discriminate.
  destruct (IH c Hat) as [c' Hc']. rewrite Hc'. eauto.
Qed.

(** Updating the child that was appended last. *)
Lemma updateAt_last_child f t a cs g :
  updateAt [List.length cs] f (mkElement t a (cs ++ [ElementNode g]))
  = Some (mkElement t a (cs ++ [ElementNode (f g)])).
Proof.
  simpl. rewrite list_lookup_middle by reflexivity.
  rewrite insert_app_r_alt by lia. rewrite Nat.sub_diag. reflexivity.
Qed.

Lemma lookupAttribute_putAttribute_eq name value attrs :
  lookupAttribute name (putAttribute name value attrs) = Some value.
Proof.
  induction attrs as [|[k v] rest IH]; simpl.
  - rewrite String.eqb_refl. reflexivity.
  - destruct (String.eqb k name) eqn:Hk; simpl; rewrite Hk; [reflexivity | exact IH].
Qed.

Lemma lookupAttribute_putAttribute_ne name other value attrs :
  other <> name ->
  lookupAttribute name (putAttribute other value attrs) = lookupAttribute name attrs.
Proof.
  intros Hne. induction attrs as [|[k v] rest IH]; simpl.
  - apply String.eqb_neq in Hne. rewrite Hne. reflexivity.
  - destruct (String.eqb k other) eqn:Hk; simpl.
    + apply String.eqb_eq in Hk. subst k.
      apply String.eqb_neq in Hne. rewrite Hne. reflexivity.
    + rewrite IH. reflexivity.
Qed.

Lemma getAttribute_setAttribute_eq name value e :
  getAttribute name (setAttribute name value e) = value.
Proof.
  destruct e. unfold getAttribute. simpl.
  rewrite lookupAttribute_putAttribute_eq. reflexivity.
Qed.

Lemma getAttribute_setAttribute_ne name other value e :
  other <> name ->
  getAttribute name (setAttribute other value e) = getAttribute name e.
Proof.
  intros Hne. destruct e. unfold getAttribute. simpl.
  rewrite lookupAttribute_putAttribute_ne by exact Hne. reflexivity.
Qed.

Lemma childNodes_setAttribute name value e :
  childNodes (setAttribute name value e) = childNodes e.
Proof. destruct e. reflexivity. Qed.

Lemma tagName_setAttribute name value e :
  tagName (setAttribute name value e) = tagName e.
Proof. destruct e. reflexivity. Qed.

(** *** The walk after an element was appended somewhere *)

Lemma getElementsByTagName_appendChild tag n root :
  getElementsByTagName tag (appendChild n root)
  = getElementsByTagName tag root
      ++ visitNode tag (List.length (childNodes root)) n.
Proof.
  destruct root as [t a cs]. cbn [appendChild childNodes].
  rewrite !getElementsByTagName_children, visitSiblings_app, visitSiblings_cons.
  simpl. rewrite app_nil_r. reflexivity.
Qed.

Lemma visitNode_length tag k n :
  List.length (visitNode tag k n) = List.length (visitNode tag 0 n).
Proof.
  destruct n; [|reflexivity]. simpl. rewrite !length_app, !length_map.
  destruct (tagMatches tag e); reflexivity.
Qed.

(** What the walk finds below a child, it finds below the parent. *)
Lemma getElementsByTagName_below_child tag t a cs k e q x :
  cs !! k = Some (ElementNode e) ->
  In (q, x) (getElementsByTagName tag e) ->
  In (k :: q, x) (getElementsByTagName tag (mkElement t a cs)).
Proof.
  intros Hk Hin. rewrite getElementsByTagName_children.
  rewrite (visitSiblings_lookup tag 0 cs k _ Hk).
  apply in_or_app. right. apply in_or_app. left. simpl.
  apply in_or_app. right. apply in_map_iff. exists (q, x). split; [reflexivity | exact Hin].
Qed.

Lemma getElementsByTagName_child tag t a cs k e :
  cs !! k = Some (ElementNode e) ->
  tagMatches tag e = true ->
  In ([k], e) (getElementsByTagName tag (mkElement t a cs)).
Proof.
  intros Hk Hm. rewrite getElementsByTagName_children.
  rewrite (visitSiblings_lookup tag 0 cs k _ Hk).
  apply in_or_app. right. apply in_or_app. left. simpl. rewrite Hm. left. reflexivity.
Qed.

Lemma updateAt_tagName p f base base' :
  (forall e, tagName (f e) = tagName e) ->
  updateAt p f base = Some base' -> tagName base' = tagName base.
Proof.
  intros Hf. destruct p as [|k p]; simpl.
  - intros Heq. inversion Heq. apply Hf.
  - destruct (childNodes base !! k) as [[c|]|]; try discriminate.
    destruct (updateAt p f c); [|discriminate]. intros Heq. inversion Heq. reflexivity.
Qed.

Lemma tagMatches_tagName tag e e' :
  tagName e' = tagName e -> tagMatches tag e' = tagMatches tag e.
Proof. intros Heq. unfold tagMatches. rewrite Heq. reflexivity. Qed.

(** Appending an element at position [p] adds to the walk what the walk
    finds at that element. *)
Lemma updateAt_appendChild_length tag c p base base' :
  updateAt p (appendChild (ElementNode c)) base = Some base' ->
  List.length (getElementsByTagName tag base')
  = List.length (getElementsByTagName tag base)
    + List.length (visitNode tag 0 (ElementNode c)).
Proof.
  revert base base'. induction p as [|k p IH]; intros base base' Hup.
  - simpl in Hup. inversion Hup. rewrite getElementsByTagName_appendChild, length_app.
    rewrite visitNode_length. reflexivity.
  - simpl in Hup. destruct (childNodes base !! k) as [[e|]|] eqn:Hk; try discriminate.
    destruct (updateAt p (appendChild (ElementNode c)) e) as [e'|] eqn:He; [|discriminate].
    inversion Hup. subst base'. clear Hup.
    destruct base as [t a cs]. cbn [tagName attributes childNodes] in *.
    rewrite !getElementsByTagName_children.
    rewrite (visitSiblings_insert tag 0 cs k) by (eapply lookup_lt_Some; exact Hk).
    rewrite (visitSiblings_lookup tag 0 cs k _ Hk).
    rewrite !length_app. cbn [visitNode]. rewrite !length_app, !length_map.
    specialize (IH e e' He). cbn [visitNode] in IH.
    rewrite length_app, length_map in IH.
    rewrite (tagMatches_tagName tag e e')
      by (eapply updateAt_tagName; [|exact He]; intros [? ? ?]; reflexivity).
    unfold Path in *.
    destruct (tagMatches tag e), (tagMatches tag c); simpl in *; lia.
Qed.

(** Appending at position [p] an element the walk does not find leaves
    the walk as it was, when no element it finds lies on the way to [p]. *)
Lemma updateAt_appendChild_unchanged tag c p base base' :
  updateAt p (appendChild (ElementNode c)) base = Some base' ->
  visitNode tag 0 (ElementNode c) = [] ->
  (forall q e, In (q, e) (getElementsByTagName tag base) -> ~ q `prefix_of` p) ->
  getElementsByTagName tag base' = getElementsByTagName tag base.
Proof.
  revert base base'. induction p as [|k p IH]; intros base base' Hup Hc Hway.
  - simpl in Hup. inversion Hup. rewrite getElementsByTagName_appendChild.
    assert (Hnil : visitNode tag (List.length (childNodes base)) (ElementNode c) = []).
    { apply length_zero_iff_nil. rewrite visitNode_length, Hc. reflexivity. }
    rewrite Hnil. apply app_nil_r.
  - simpl in Hup. destruct (childNodes base !! k) as [[e|]|] eqn:Hk; try discriminate.
    destruct (updateAt p (appendChild (ElementNode c)) e) as [e'|] eqn:He; [|discriminate].
    inversion Hup. subst base'. clear Hup.
    destruct base as [t a cs]. cbn [tagName attributes childNodes] in *.
    rewrite !getElementsByTagName_children.
    rewrite (visitSiblings_insert tag 0 cs k) by (eapply lookup_lt_Some; exact Hk).
    rewrite (visitSiblings_lookup tag 0 cs k _ Hk).
    f_equal. f_equal. cbn [visitNode].
    rewrite (tagMatches_tagName tag e e')
      by (eapply updateAt_tagName; [|exact He]; intros [? ? ?]; reflexivity).
    destruct (tagMatches tag e) eqn:Hm.
    + exfalso. apply (Hway [k] e).
      * apply getElementsByTagName_child; assumption.
      * exists p. reflexivity.
    + rewrite (IH e e' He Hc); [reflexivity|].
      intros q x Hin Hpre. apply (Hway (k :: q) x).
      * eapply getElementsByTagName_below_child; eassumption.
      * destruct Hpre as [r ->]. exists r. reflexivity.
Qed.

Lemma elementAt_app p q base :
  elementAt (p ++ q) base
  = match elementAt p base with Some e => elementAt q e | None => None end.
Proof.
  revert base. induction p as [|k p IH]; intros base; simpl; [reflexivity|].
  destruct (childNodes base !! k) as [[c|]|]; [apply IH | reflexivity | reflexivity].
Qed.

Lemma holdsTextOnly_getElementsByTagName tag e :
  holdsTextOnly e -> getElementsByTagName tag e = [].
Proof.
  unfold holdsTextOnly. rewrite getElementsByTagName_childNodes. generalize 0.
  induction (childNodes e) as [|n rest IH]; intros k Htext; [reflexivity|].
  inversion Htext as [|? ? [s ->] Hrest]; subst. simpl. apply IH, Hrest.
Qed.

(** When every element the walk finds is a child of the base, no child
    has such an element below it. *)
Lemma noneBelow_children tag t a cs :
  (forall p x, In (p, x) (getElementsByTagName tag (mkElement t a cs)) -> List.length p = 1) ->
  Forall (noneBelow tag) cs.
Proof.
  intros Htop. apply Forall_forall. intros n Hn.
  destruct n as [e|s]; [|exact I]. simpl.
  apply list_elem_of_lookup in Hn as [k Hk].
  destruct (getElementsByTagName tag e) as [|[q x] others] eqn:Hbelow; [reflexivity|].
  exfalso.
  assert (Hin : In (q, x) (getElementsByTagName tag e)) by (rewrite Hbelow; left; reflexivity).
  pose proof (getElementsByTagName_elementAt tag e q x Hin) as (_ & _ & Hq).
  pose proof (Htop (k :: q) x
                (getElementsByTagName_below_child tag t a cs k e q x Hk Hin)) as Hlen.
  destruct q; [contradiction | simpl in Hlen; lia].
Qed.

(** The walk finds every matching element below the base. *)
Lemma elementAt_getElementsByTagName tag p :
  forall base e,
    p <> [] -> elementAt p base = Some e -> tagMatches tag e = true ->
    In (p, e) (getElementsByTagName tag base).
Proof.
  induction p as [|k p IH]; intros base e Hp Hat Hm; [contradiction|].
  destruct base as [t a cs]. simpl in Hat.
  destruct (cs !! k) as [[c|s]|] eqn:Hk; try discriminate.
  destruct p as [|k' p'].
  - simpl in Hat. injection Hat as ->. apply getElementsByTagName_child; assumption.
  - apply getElementsByTagName_below_child with (e := c); [assumption|].
    apply IH; [discriminate | assumption | assumption].
Qed.

Lemma elementAt_updateAt p f :
  forall base base' e,
    elementAt p base = Some e -> updateAt p f base = Some base' ->
    elementAt p base' = Some (f e).
Proof.
  induction p as [|k p IH]; intros base base' e Hat Hup; simpl in *.
  - congruence.
  - destruct (childNodes base !! k) as [[c|s]|] eqn:Hk; try discriminate.
    destruct (updateAt p f c) as [c'|] eqn:Hc; [|discriminate].
    injection Hup as <-. simpl.
    rewrite list_lookup_insert_eq by (eapply lookup_lt_Some; eassumption).
    eapply IH; eassumption.
Qed.

Lemma map_fst_below (k : nat) (l : list (Path * Element)) :
  map fst (map (fun pe => (k :: fst pe, snd pe)) l) = map (cons k) (map fst l).
Proof. induction l as [|x l IH]; simpl; [reflexivity | rewrite IH; reflexivity]. Qed.

Lemma map_fst_visitNode tag k e e' :
  tagName e' = tagName e ->
  map fst (getElementsByTagName tag e') = map fst (getElementsByTagName tag e) ->
  map fst (visitNode tag k (ElementNode e')) = map fst (visitNode tag k (ElementNode e)).
Proof.
  intros Htag Hbelow. unfold visitNode. rewrite !map_app, !map_fst_below, Hbelow.
  rewrite (tagMatches_tagName tag e e' Htag).
  destruct (tagMatches tag e); reflexivity.
Qed.

(** A change of one element that keeps its tag and the places of the
    elements below it keeps the places of all elements. *)
Lemma updateAt_places tag f p :
  forall base base' e,
    elementAt p base = Some e -> updateAt p f base = Some base' ->
    tagName (f e) = tagName e ->
    map fst (getElementsByTagName tag (f e)) = map fst (getElementsByTagName tag e) ->
    tagName base' = tagName base
    /\ map fst (getElementsByTagName tag base') = map fst (getElementsByTagName tag base).
Proof.
  induction p as [|k p IH]; intros base base' e Hat Hup Htag Hbelow; simpl in Hat, Hup.
  - injection Hat as <-. injection Hup as <-. auto.
  - destruct base as [t a cs]. cbn [childNodes tagName attributes] in *.
    destruct (cs !! k) as [[c|s]|] eqn:Hk; try discriminate.
    destruct (updateAt p f c) as [c'|] eqn:Hc; [|discriminate].
    injection Hup as <-. split; [reflexivity|].
    destruct (IH c c' e Hat Hc Htag Hbelow) as [Htag' Hbelow'].
    rewrite !getElementsByTagName_children.
    rewrite visitSiblings_insert by (eapply lookup_lt_Some; exact Hk).
    rewrite (visitSiblings_lookup tag 0 cs k _ Hk).
    rewrite !map_app. f_equal. f_equal. apply map_fst_visitNode; assumption.
Qed.

Lemma visitNode_matching tag k e :
  tagMatches tag e = true -> visitNode tag k (ElementNode e) <> [].
Proof. intros Hm. unfold visitNode. rewrite Hm. discriminate. Qed.

Lemma tagMatches_same tag e : tagName e = tag -> tagMatches tag e = true.
Proof. intros <-. unfold tagMatches. rewrite String.eqb_refl. apply orb_true_r. Qed.

End DocumentFacts.

(** * Facts about the project *)

Section ProjectFacts.

Context {C : constants.Values} {L : Libraries}.

Lemma getDoc_Some w d :
  projFileXmlDoc (this w) = Some d -> getDoc w = (inr d, w).
Proof. intros Hd. unfold getDoc, bind, getThis. simpl. rewrite Hd. reflexivity. Qed.

Lemma getDoc_withRoot root w :
  getDoc (withRoot root w) = (inr (mkDocument root), withRoot root w).
Proof. reflexivity. Qed.

Lemma bind_inr {A B} (m : M A) (k : A -> M B) w a w' :
  m w = (inr a, w') -> bind m k w = k a w'.
Proof. intros Hm. unfold bind. rewrite Hm. reflexivity. Qed.

Lemma bind_getThis {B} (k : Project -> M B) w : bind getThis k w = k (this w) w.
Proof. reflexivity. Qed.

Lemma bind_setThis {B} f (k : unit -> M B) w :
  bind (setThis f) k w = k tt (mkWorld (f (this w)) (disk w)).
Proof. reflexivity. Qed.

Lemma bind_ret {A B} (a : A) (k : A -> M B) w : bind (ret a) k w = k a w.
Proof. reflexivity. Qed.

Lemma bind_throw {A B} (e : Error) (k : A -> M B) w : bind (throw e) k w = (inl e, w).
Proof. reflexivity. Qed.

Lemma bind_assoc {A B D} (m : M A) (k : A -> M B) (k' : B -> M D) w :
  bind (bind m k) k' w = bind m (fun a => bind (k a) k') w.
Proof. unfold bind. destruct (m w) as [[e|a] w1]; reflexivity. Qed.

Lemma bind_then_ret {A B D} (m : M A) (b : B) (k : B -> M D) w a w1 :
  m w = (inr a, w1) -> bind (bind m (fun _ => ret b)) k w = k b w1.
Proof. intros Hm. unfold bind. rewrite Hm. reflexivity. Qed.

Lemma bind_inl {A B} (m : M A) (k : A -> M B) w e w' :
  m w = (inl e, w') -> bind m k w = (inl e, w').
Proof. intros Hm. unfold bind. rewrite Hm. reflexivity. Qed.

(** Writing the project file leaves the project object as it is. *)
Lemma serializeToProjFile_this w :
  this (snd (serializeToProjFile w)) = this w.
Proof.
  cbv [serializeToProjFile bind getDoc getThis fs_writeFile throw ret].
  destruct (projFileXmlDoc (this w)); simpl; [|reflexivity].
  destruct (disk w !! projectFilePath (this w)) as [[|]|]; reflexivity.
Qed.

(** Without a tag, [findOrCreateItemGroup] searches nothing: it appends
    a new, empty item group to the root and returns it. *)
Lemma findOrCreateItemGroup_None w d :
  projFileXmlDoc (this w) = Some d ->
  findOrCreateItemGroup None w
  = (inr [List.length (childNodes (documentElement d))],
     withRoot (appendChild (ElementNode (createElement constants.ItemGroup))
                           (documentElement d)) w).
Proof.
  intros Hd. unfold findOrCreateItemGroup.
  rewrite (bind_inr _ _ _ _ _ (getDoc_Some w d Hd)). reflexivity.
Qed.

(** The reference element goes into an item group made for it, which
    becomes the last child of the root. *)
Lemma addDatabaseReferenceToProjFile_document entry w d :
  projFileXmlDoc (this w) = Some d ->
  addDatabaseReferenceToProjFile entry w
  = (inr tt,
     withRoot (appendChild
                 (ElementNode (mkElement constants.ItemGroup []
                                 [ElementNode (referenceNode entry)]))
                 (documentElement d)) w).
Proof.
  intros Hd. unfold addDatabaseReferenceToProjFile.
  rewrite (bind_inr _ _ _ _ _ (findOrCreateItemGroup_None w d Hd)).
  unfold appendChildAt.
  rewrite (bind_inr _ _ _ _ _ (getDoc_withRoot _ w)).
  destruct d as [[t a cs]]. unfold createElement.
  cbn [documentElement childNodes appendChild].
  rewrite updateAt_last_child. reflexivity.
Qed.

Lemma addDatabaseReference_document uri location databaseName w d :
  projFileXmlDoc (this w) = Some d ->
  projFileXmlDoc (this (snd (addDatabaseReference uri location databaseName w)))
  = Some (mkDocument
            (appendChild
               (ElementNode
                  (mkElement constants.ItemGroup []
                     [ElementNode
                        (referenceNode
                           (new_DatabaseReferenceProjectEntry uri location databaseName))]))
               (documentElement d))).
Proof.
  intros Hd. unfold addDatabaseReference, addToProjFile.
  cbn [type new_DatabaseReferenceProjectEntry].
  rewrite (bind_inr _ _ _ _ _ (addDatabaseReferenceToProjFile_document _ w d Hd)).
  rewrite serializeToProjFile_this. reflexivity.
Qed.

Lemma getAttribute_appendChild name child e :
  getAttribute name (appendChild child e) = getAttribute name e.
Proof. destruct e. reflexivity. Qed.

Lemma tagName_appendChild child e : tagName (appendChild child e) = tagName e.
Proof. destruct e. reflexivity. Qed.

(** The children of the reference element: the suppress flag, then the
    literal name for a database on the same server. *)
Lemma referenceNode_childNodes entry :
  childNodes (referenceNode entry)
  = ElementNode (mkElement constants.SuppressMissingDependenciesErrors [] [TextNode "False"])
      :: match databaseLocation entry with
         | Some DatabaseReferenceLocation.differentDatabaseSameServer =>
             [ElementNode (mkElement constants.DatabaseVariableLiteralValue []
                             [TextNode (nameText (name entry))])]
         | _ => []
         end.
Proof.
  unfold referenceNode.
  destruct (databaseLocation entry) as [[|]|]; reflexivity.
Qed.

Lemma referenceNode_condition entry :
  constants.Include <> constants.Condition ->
  getAttribute constants.Condition (referenceNode entry) = constants.NetCoreCondition.
Proof.
  intros Hne. unfold referenceNode.
  destruct (databaseLocation entry) as [[|]|];
    rewrite ?getAttribute_appendChild, getAttribute_setAttribute_ne by exact Hne;
    apply getAttribute_setAttribute_eq.
Qed.

Lemma referenceNode_tagName entry :
  tagName (referenceNode entry) = constants.ArtifactReference.
Proof.
  unfold referenceNode. destruct (databaseLocation entry) as [[|]|]; reflexivity.
Qed.

(** ** addScriptItem *)

(** C4. For every relative path at which nothing exists on disk,
    [addScriptItem] with that path and no contents throws the
    [noFileExist] error for the absolute path, and the whole world, so the
    [files] collection and the document too, is as it was before the
    call. *)
Theorem addScriptItem_missing_file_is_atomic (relativeFilePath : string) (w : World) :
  disk w !! path_join [projectFolderPath (this w); relativeFilePath] = None ->
  addScriptItem relativeFilePath None w
  = (inl (noFileExist (path_join [projectFolderPath (this w); relativeFilePath])), w).
Proof.
  intros Hmissing.
  cbv [addScriptItem bind getThis ret utils_exists throw].
  rewrite Hmissing. rewrite bool_decide_eq_false_2 by (intros [x Hx]; discriminate).
  reflexivity.
Qed.

(** ** addDatabaseReference *)

(** C10. Whatever the location, the reference element that
    [addDatabaseReference] puts into the document is an artifact reference
    whose condition attribute is the NetCore condition. *)
Theorem addDatabaseReference_condition_is_NetCore
    uri (location : DatabaseReferenceLocation.t) (databaseName : option string) w d :
  constants.Include <> constants.Condition ->
  projFileXmlDoc (this w) = Some d ->
  exists reference,
    projFileXmlDoc (this (snd (addDatabaseReference uri location databaseName w)))
    = Some (mkDocument
              (appendChild
                 (ElementNode (mkElement constants.ItemGroup [] [ElementNode reference]))
                 (documentElement d)))
    /\ tagName reference = constants.ArtifactReference
    /\ getAttribute constants.Condition reference = constants.NetCoreCondition.
Proof.
  intros Hne Hd. eexists. split; [apply addDatabaseReference_document, Hd|].
  split; [apply referenceNode_tagName | apply referenceNode_condition, Hne].
Qed.

(** C7. The reference element that [addDatabaseReference] puts into the
    document has a suppress-missing-dependencies child with the text
    False; it has a literal-value child with the supplied name as text
    exactly when the location is differentDatabaseSameServer, and for
    sameDatabase no child has the literal-value tag. *)
Theorem addDatabaseReference_children
    uri (location : DatabaseReferenceLocation.t) (databaseName : string) w d :
  constants.SuppressMissingDependenciesErrors <> constants.DatabaseVariableLiteralValue ->
  projFileXmlDoc (this w) = Some d ->
  exists reference,
    projFileXmlDoc (this (snd (addDatabaseReference uri location (Some databaseName) w)))
    = Some (mkDocument
              (appendChild
                 (ElementNode (mkElement constants.ItemGroup [] [ElementNode reference]))
                 (documentElement d)))
    /\ In (ElementNode (mkElement constants.SuppressMissingDependenciesErrors []
                          [TextNode "False"]))
          (childNodes reference)
    /\ (In (ElementNode (mkElement constants.DatabaseVariableLiteralValue []
                           [TextNode databaseName]))
           (childNodes reference)
        <-> location = DatabaseReferenceLocation.differentDatabaseSameServer)
    /\ (location = DatabaseReferenceLocation.sameDatabase ->
        forall child, In (ElementNode child) (childNodes reference) ->
                      tagName child <> constants.DatabaseVariableLiteralValue).
Proof.
  intros Hne Hd. eexists. split; [apply addDatabaseReference_document, Hd|].
  rewrite referenceNode_childNodes. cbn [databaseLocation name new_DatabaseReferenceProjectEntry nameText].
  split; [left; reflexivity|]. split; [split|].
  - intros [Heq|Hin]; [inversion Heq; contradiction|].
    destruct location; [destruct Hin | reflexivity].
  - intros ->. right. left. reflexivity.
  - intros -> child [Heq|[]]. inversion Heq. subst child. exact Hne.
Qed.

(** C8, as the code has it.  [addDatabaseReference] never looks for an
    item group: it appends a new one as the last child of the root, with
    the reference element as its only child, so the document has more
    item groups after the call than before, whatever it held. *)
Theorem addDatabaseReference_always_creates_item_group
    uri (location : DatabaseReferenceLocation.t) (databaseName : option string) w d :
  projFileXmlDoc (this w) = Some d ->
  exists d',
    projFileXmlDoc (this (snd (addDatabaseReference uri location databaseName w))) = Some d'
    /\ tagName (documentElement d') = tagName (documentElement d)
    /\ attributes (documentElement d') = attributes (documentElement d)
    /\ childNodes (documentElement d')
       = childNodes (documentElement d)
           ++ [ElementNode
                 (mkElement constants.ItemGroup []
                    [ElementNode
                       (referenceNode
                          (new_DatabaseReferenceProjectEntry uri location databaseName))])]
    /\ List.length (getElementsByTagName constants.ItemGroup (documentElement d))
       < List.length (getElementsByTagName constants.ItemGroup (documentElement d')).
Proof.
  intros Hd. eexists. split; [apply addDatabaseReference_document, Hd|].
  destruct d as [[t a cs]]. cbn [documentElement appendChild tagName attributes childNodes].
  repeat split.
  rewrite !getElementsByTagName_children, visitSiblings_app, length_app.
  rewrite visitSiblings_cons. unfold visitNode at 1.
  unfold tagMatches at 1. cbn [tagName]. rewrite String.eqb_refl, orb_true_r.
  rewrite !length_app. simpl. lia.
Qed.

(** ** getMasterDacpac *)

(** From a string with the prefix and the suffix, the version between
    them is cut out. *)
Lemma dspVersion_pattern (version : string) :
  dspVersion (constants.MicrosoftDatatoolsSchemaSqlSql +:+ version
                +:+ constants.databaseSchemaProvider)
  = version.
Proof.
  unfold dspVersion, js_substring_from.
  set (p := constants.MicrosoftDatatoolsSchemaSqlSql).
  set (s := constants.databaseSchemaProvider).
  rewrite (js_substring_in_range (p +:+ version +:+ s) (String.length p))
    by (rewrite ?length_append; lia).
  rewrite substring_append_skip.
  replace (String.length (p +:+ version +:+ s) - String.length p)
    with (String.length (version +:+ s)) by (rewrite !length_append; lia).
  rewrite substring_whole.
  replace (Z.of_nat (String.length (version +:+ s)) - Z.of_nat (String.length s))%Z
    with (Z.of_nat (String.length version)) by (rewrite length_append; lia).
  change 0%Z with (Z.of_nat 0).
  rewrite (js_substring_in_range (version +:+ s) 0 (String.length version))
    by (rewrite ?length_append; lia).
  rewrite Nat.sub_0_r. apply substring_append_prefix.
Qed.

(** The cut goes by the lengths alone: any characters of the length of
    the prefix are removed in front, any of the length of the suffix at
    the end. *)
Lemma dspVersion_cut (before version after : string) :
  String.length before = String.length constants.MicrosoftDatatoolsSchemaSqlSql ->
  String.length after = String.length constants.databaseSchemaProvider ->
  dspVersion (before +:+ version +:+ after) = version.
Proof.
  intros Hbefore Hafter. unfold dspVersion, js_substring_from.
  rewrite <- Hbefore, <- Hafter.
  rewrite (js_substring_in_range (before +:+ version +:+ after) (String.length before))
    by (rewrite ?length_append; lia).
  rewrite substring_append_skip.
  replace (String.length (before +:+ version +:+ after) - String.length before)
    with (String.length (version +:+ after)) by (rewrite !length_append; lia).
  rewrite substring_whole.
  replace (Z.of_nat (String.length (version +:+ after)) - Z.of_nat (String.length after))%Z
    with (Z.of_nat (String.length version)) by (rewrite length_append; lia).
  change 0%Z with (Z.of_nat 0).
  rewrite (js_substring_in_range (version +:+ after) 0 (String.length version))
    by (rewrite ?length_append; lia).
  rewrite Nat.sub_0_r. apply substring_append_prefix.
Qed.

(** Nothing is left of a string shorter than the prefix and the suffix
    together. *)
Lemma dspVersion_short (dsp : string) :
  String.length dsp
  < String.length constants.MicrosoftDatatoolsSchemaSqlSql
    + String.length constants.databaseSchemaProvider ->
  dspVersion dsp = "".
Proof.
  intros Hshort. unfold dspVersion.
  pose proof (length_js_substring_from dsp
                (String.length constants.MicrosoftDatatoolsSchemaSqlSql)) as Hle.
  apply js_substring_to_nonpositive. lia.
Qed.

Lemma includes_values (version : string) :
  TargetPlatform.includes version = true
  <-> In version ["90"; "100"; "110"; "120"; "130"; "140"; "150"; "AzureV12"].
Proof.
  unfold TargetPlatform.includes.
  change TargetPlatform.values
    with ["90"; "100"; "110"; "120"; "130"; "140"; "150"; "AzureV12"].
  rewrite existsb_exists. split.
  - intros (x & Hin & Heq). apply String.eqb_eq in Heq. subst x. exact Hin.
  - intros Hin. exists version. split; [exact Hin | apply String.eqb_refl].
Qed.

(** C3, as the code has it.  For a document with one schema provider
    element that holds one text: whatever characters stand where the
    prefix and the suffix are expected, as many as each of them has,
    [getMasterDacpac] answers the master dacpac of the version left
    between them when that version is one of the eight target platforms,
    and throws the invalid-provider error when it is not; a text shorter
    than prefix and suffix together leaves no version and gives that
    error.  These are all texts.  In every case the world is as before;
    130 is a platform and 999 is none. *)
Theorem getMasterDacpac_checks_version_only
    (w : World) (d : Document) (dspNode : Element) (dsp : string) :
  projFileXmlDoc (this w) = Some d ->
  Document_getElementsByTagName constants.DSP d = [dspNode] ->
  childNodes dspNode = [TextNode dsp] ->
  (forall before version after,
      String.length before = String.length constants.MicrosoftDatatoolsSchemaSqlSql ->
      String.length after = String.length constants.databaseSchemaProvider ->
      dsp = before +:+ version +:+ after ->
      getMasterDacpac w
      = (if TargetPlatform.includes version
         then inr (Uri_parse (path_join ["$(NETCoreTargetsPath)"; "SystemDacpacs";
                                         version; "master.dacpac"]))
         else inl invalidDataSchemaProvider,
         w))
  /\ (String.length dsp
      < String.length constants.MicrosoftDatatoolsSchemaSqlSql
        + String.length constants.databaseSchemaProvider ->
      getMasterDacpac w = (inl invalidDataSchemaProvider, w))
  /\ (String.length constants.MicrosoftDatatoolsSchemaSqlSql
      + String.length constants.databaseSchemaProvider
      <= String.length dsp ->
      exists before version after,
        String.length before = String.length constants.MicrosoftDatatoolsSchemaSqlSql
        /\ String.length after = String.length constants.databaseSchemaProvider
        /\ dsp = before +:+ version +:+ after)
  /\ (forall version,
         TargetPlatform.includes version = true
         <-> In version ["90"; "100"; "110"; "120"; "130"; "140"; "150"; "AzureV12"])
  /\ TargetPlatform.includes "130" = true
  /\ TargetPlatform.includes "999" = false.
Proof.
  intros Hd Hdsp Hchild.
  assert (Hrun : getMasterDacpac w
                 = (if TargetPlatform.includes (dspVersion dsp)
                    then inr (Uri_parse (path_join ["$(NETCoreTargetsPath)"; "SystemDacpacs";
                                                    dspVersion dsp; "master.dacpac"]))
                    else inl invalidDataSchemaProvider,
                    w)).
  { unfold getMasterDacpac. rewrite (bind_inr _ _ _ _ _ (getDoc_Some w d Hd)).
    rewrite Hdsp, Hchild. cbn [nodeValue].
    destruct (TargetPlatform.includes (dspVersion dsp)); reflexivity. }
  split; [|split; [|split; [|split; [exact includes_values | split; reflexivity]]]].
  - intros before version after Hbefore Hafter ->.
    rewrite Hrun, (dspVersion_cut before version after Hbefore Hafter). reflexivity.
  - intros Hshort. rewrite Hrun, (dspVersion_short dsp Hshort). reflexivity.
  - apply string_split_both.
Qed.

(** ** readProjFile *)

Lemma forEach_succeeds {A} (l : list A) (body : A -> M unit) :
  (forall x w, fst (body x w) = inr tt) ->
  forall w, fst (forEach l body w) = inr tt.
Proof.
  intros Hbody. induction l as [|x rest IH]; intros w; [reflexivity|].
  simpl. unfold bind. specialize (Hbody x w).
  destruct (body x w) as [[e|[]] w1]; simpl in Hbody; [discriminate|]. apply IH.
Qed.

(** A loop whose rounds succeed or throw [e], and one round of which
    throws [e] in every world, throws [e]. *)
Lemma forEach_throws {A} (l : list A) (body : A -> M unit) (e : Error) (x0 : A) :
  (forall x w, fst (body x w) = inr tt \/ fst (body x w) = inl e) ->
  In x0 l ->
  (forall w, fst (body x0 w) = inl e) ->
  forall w, fst (forEach l body w) = inl e.
Proof.
  intros Hbody Hin Hx0. induction l as [|x rest IH]; intros w; [destruct Hin|].
  simpl. unfold bind.
  destruct Hin as [->|Hin].
  - specialize (Hx0 w). destruct (body x0 w) as [[e'|[]] w1]; simpl in *;
      [exact Hx0 | discriminate].
  - destruct (Hbody x w) as [Hok|Herr]; destruct (body x w) as [[e'|[]] w1];
      simpl in *; try discriminate; [apply IH, Hin | exact Herr].
Qed.

(** C6, as the code has it.  When some SqlCmdVariable element of the
    project file has no DefaultValue element below it, or the first one
    has no child node at all, reading the project file throws: the read of
    a property of undefined ends the load.  (The code has no error of its
    own for this; [TypeError] is what the runtime throws.) *)
Theorem readProjFile_missing_default_value
    (w : World) (text : string) (d : Document) (sqlCmdVar : Path * Element) :
  disk w !! projectFilePath (this w) = Some (RegularFile text) ->
  parseFromString text = Some d ->
  In sqlCmdVar (getElementsByTagName constants.SqlCmdVariable (documentElement d)) ->
  (getElementsByTagName constants.DefaultValue (snd sqlCmdVar) = []
   \/ exists defaultValue others,
        getElementsByTagName constants.DefaultValue (snd sqlCmdVar) = defaultValue :: others
        /\ childNodes (snd defaultValue) = []) ->
  fst (readProjFile w) = inl TypeError.
Proof.
  intros Hfile Hparse Hin Hbad.
  unfold readProjFile.
  rewrite bind_getThis.
  rewrite (bind_inr _ _ w text w) by (unfold fs_readFile; rewrite Hfile; reflexivity).
  rewrite Hparse, bind_setThis. unfold scanProjFile.
  set (w1 := mkWorld _ _).
  set (scanGroups := forEach (getElementsByTagName constants.ItemGroup _) _).
  assert (Hgroups : forall w, fst (scanGroups w) = inr tt).
  { apply forEach_succeeds. intros ig w0. unfold bind.
    pose proof (forEach_succeeds
                  (getElementsByTagName constants.Build (snd ig))
                  (fun b => bind getThis (fun this =>
                     files_push (createProjectEntry this
                       (getAttribute constants.Include (snd b)) EntryType.File)))
                  (fun _ _ => eq_refl) w0) as Hb.
    destruct (forEach (getElementsByTagName constants.Build (snd ig)) _ w0)
      as [[e|[]] w2]; simpl in Hb; [discriminate|].
    apply forEach_succeeds. reflexivity. }
  unfold bind at 1. specialize (Hgroups w1).
  destruct (scanGroups w1) as [[e|[]] w2]; simpl in Hgroups; [discriminate|].
  unfold bind at 1.
  pose proof (forEach_succeeds
                (getElementsByTagName constants.Import (documentElement d))
                (fun i => importedTargets_push (getAttribute constants.Project (snd i)))
                (fun _ _ => eq_refl) w2) as Himports.
  destruct (forEach (getElementsByTagName constants.Import (documentElement d)) _ w2)
    as [[e|[]] w3]; simpl in Himports; [discriminate|].
  eapply forEach_throws; [|exact Hin|].
  - intros v w0.
    destruct (getElementsByTagName constants.DefaultValue (snd v)) as [|dv ?];
      [right; reflexivity|].
    destruct (childNodes (snd dv)); [right|left]; reflexivity.
  - intros w0. destruct Hbad as [->|(dv & others & -> & ->)]; reflexivity.
Qed.

(** ** The round-trip upgrade: which files it touches *)

Lemma sameElsewhere_refl w : sameElsewhere w w.
Proof. split; [reflexivity | intros; reflexivity]. Qed.

Lemma sameElsewhere_trans w1 w2 w3 :
  sameElsewhere w1 w2 -> sameElsewhere w2 w3 -> sameElsewhere w1 w3.
Proof.
  intros [Hp12 Hd12] [Hp23 Hd23]. split; [congruence|].
  intros q Hq. rewrite Hd23 by congruence. apply Hd12, Hq.
Qed.

Lemma keeps_ret {A} (a : A) : keepsOtherFiles (ret a).
Proof. intros w. apply sameElsewhere_refl. Qed.

Lemma keeps_throw {A} (e : Error) : keepsOtherFiles (throw e : M A).
Proof. intros w. apply sameElsewhere_refl. Qed.

Lemma keeps_getThis : keepsOtherFiles getThis.
Proof. intros w. apply sameElsewhere_refl. Qed.

Lemma keeps_bind {A B} (m : M A) (k : A -> M B) :
  keepsOtherFiles m -> (forall a, keepsOtherFiles (k a)) -> keepsOtherFiles (bind m k).
Proof.
  intros Hm Hk w. unfold bind. specialize (Hm w).
  destruct (m w) as [[e|a] w1]; simpl in Hm; [exact Hm|].
  eapply sameElsewhere_trans; [exact Hm | apply Hk].
Qed.

Lemma keeps_setThis (f : Project -> Project) :
  (forall p, projectFilePath (f p) = projectFilePath p) -> keepsOtherFiles (setThis f).
Proof. intros Hf w. split; [apply Hf | intros; reflexivity]. Qed.

Lemma keeps_getDoc : keepsOtherFiles getDoc.
Proof.
  apply keeps_bind; [apply keeps_getThis|]. intros p.
  destruct (projFileXmlDoc p); [apply keeps_ret | apply keeps_throw].
Qed.

Lemma keeps_serializeToProjFile : keepsOtherFiles serializeToProjFile.
Proof.
  apply keeps_bind; [apply keeps_getDoc|]. intros d w.
  cbv [bind getThis fs_writeFile].
  destruct (disk w !! projectFilePath (this w)) as [[|]|]; simpl;
    try apply sameElsewhere_refl;
    (split; [reflexivity | intros q Hq; simpl; apply lookup_insert_ne; congruence]).
Qed.

Lemma keeps_setDocumentElement root : keepsOtherFiles (setDocumentElement root).
Proof. apply keeps_setThis. reflexivity. Qed.

Lemma keeps_importedTargets_push target : keepsOtherFiles (importedTargets_push target).
Proof. apply keeps_setThis. reflexivity. Qed.

Lemma keeps_appendChildAt ref child : keepsOtherFiles (appendChildAt ref child).
Proof.
  apply keeps_bind; [apply keeps_getDoc|]. intros d.
  destruct (updateAt ref (appendChild child) (documentElement d));
    [apply keeps_setDocumentElement | apply keeps_throw].
Qed.

Lemma keeps_findOrCreateItemGroup containedTag :
  keepsOtherFiles (findOrCreateItemGroup containedTag).
Proof.
  apply keeps_bind; [apply keeps_getDoc|]. intros d. cbv beta zeta.
  match goal with
  | |- keepsOtherFiles (match ?found with Some _ => _ | None => _ end) => destruct found
  end; [apply keeps_ret|].
  apply keeps_bind; [apply keeps_setDocumentElement | intros; apply keeps_ret].
Qed.

Lemma keeps_updateImportedTargetsToProjFile condition projectAttributeVal oldImportNode :
  keepsOtherFiles (updateImportedTargetsToProjFile condition projectAttributeVal oldImportNode).
Proof.
  apply keeps_bind; [apply keeps_getDoc|]. intros d.
  apply keeps_bind;
    [|intros; apply keeps_bind; [apply keeps_serializeToProjFile | intros; apply keeps_ret]].
  destruct oldImportNode as [[[|k [|]]|]|]; try apply keeps_throw.
  - destruct (replaceChild _ k (documentElement d));
      [apply keeps_setDocumentElement | apply keeps_throw].
  - apply keeps_bind; [apply keeps_setDocumentElement|].
    intros; apply keeps_importedTargets_push.
Qed.

Lemma keeps_updateImportLoop bound i : keepsOtherFiles (updateImportLoop bound i).
Proof.
  revert i. induction bound as [|bound IH]; intros i; simpl;
    (apply keeps_bind; [apply keeps_getDoc|]); intros d;
    destruct (getElementsByTagName constants.Import (documentElement d) !! i) as [[ref e]|];
    try apply keeps_ret; [apply keeps_throw|].
  apply keeps_bind; [|intros r; apply keeps_bind; [|intros; apply IH]].
  - match goal with |- keepsOtherFiles (if ?b then _ else _) => destruct b end;
      [|apply keeps_ret].
    apply keeps_bind; [apply keeps_updateImportedTargetsToProjFile | intros; apply keeps_ret].
  - match goal with |- keepsOtherFiles (if ?b then _ else _) => destruct b end;
      [|apply keeps_ret].
    apply keeps_bind; [apply keeps_updateImportedTargetsToProjFile | intros; apply keeps_ret].
Qed.

Lemma keeps_updateImportToSupportRoundTrip : keepsOtherFiles updateImportToSupportRoundTrip.
Proof.
  apply keeps_bind; [apply keeps_getDoc|]. intros d.
  apply keeps_bind; [apply keeps_updateImportLoop|]. intros _.
  apply keeps_bind; [apply keeps_updateImportedTargetsToProjFile | intros; apply keeps_ret].
Qed.

Lemma keeps_updatePackageReferenceInProjFile :
  keepsOtherFiles updatePackageReferenceInProjFile.
Proof.
  apply keeps_bind; [apply keeps_findOrCreateItemGroup|]. intros group.
  apply keeps_bind; [apply keeps_appendChildAt | intros; apply keeps_serializeToProjFile].
Qed.

(** C9. The copy to the backup path is the first thing the upgrade
    does.  When the copy fails, the upgrade fails with the copy's error
    and the world, the project file and the document in it, is as before.
    When the copy succeeds, the backup path holds the text the project
    file had before the call at the end of the upgrade, however the later
    steps end.  So whenever the project file differs after the call, the
    backup of its old text is there. *)
Theorem updateProjectForRoundTrip_backs_up_first (w : World) :
  (forall e,
      fst (fs_copyFile (projectFilePath (this w))
                       (projectFilePath (this w) +:+ "_backup") w) = inl e ->
      updateProjectForRoundTrip w = (inl e, w))
  /\ (fst (fs_copyFile (projectFilePath (this w))
                       (projectFilePath (this w) +:+ "_backup") w) = inr tt ->
      exists original,
        disk w !! projectFilePath (this w) = Some (RegularFile original)
        /\ disk (snd (updateProjectForRoundTrip w))
             !! (projectFilePath (this w) +:+ "_backup")
           = Some (RegularFile original))
  /\ (disk (snd (updateProjectForRoundTrip w)) !! projectFilePath (this w)
      <> disk w !! projectFilePath (this w) ->
      exists original,
        disk w !! projectFilePath (this w) = Some (RegularFile original)
        /\ disk (snd (updateProjectForRoundTrip w))
             !! (projectFilePath (this w) +:+ "_backup")
           = Some (RegularFile original)).
Proof.
  set (path := projectFilePath (this w)).
  assert (Hbackup : path +:+ "_backup" <> path)
    by (apply append_nonempty_ne; discriminate).
  assert (Hlater : keepsOtherFiles
            (bind updateImportToSupportRoundTrip (fun _ => updatePackageReferenceInProjFile))).
  { apply keeps_bind; [apply keeps_updateImportToSupportRoundTrip|].
    intros; apply keeps_updatePackageReferenceInProjFile. }
  assert (Hrun : updateProjectForRoundTrip w
                 = match fs_copyFile path (path +:+ "_backup") w with
                   | (inr _, w1) =>
                       bind updateImportToSupportRoundTrip
                            (fun _ => updatePackageReferenceInProjFile) w1
                   | (inl e, w1) => (inl e, w1)
                   end) by reflexivity.
  rewrite Hrun. clear Hrun. unfold fs_copyFile.
  destruct (disk w !! path) as [[original|]|] eqn:Hfile;
    [destruct (disk w !! (path +:+ "_backup")) as [[other|]|] eqn:Hdest| |]; simpl.
  all: repeat split.
  all: try (intros e He; inversion He; reflexivity).
  all: try (intros; discriminate).
  all: try (intros Hchanged; contradiction).
  all: try (intros _; exists original; split; [reflexivity|]).
  all: try (intros _; eexists; split; [reflexivity|]).
  all: match goal with
       | |- disk (snd (?m ?w1)) !! _ = _ =>
           destruct (Hlater w1) as [_ Hdisk]; rewrite Hdisk by exact Hbackup;
           simpl; apply lookup_insert_eq
       end.
Qed.

(** ** The round-trip upgrade: what it makes of the document *)

Lemma importNode_tagMatches condition projectAttributeVal :
  tagMatches constants.Import (importNode condition projectAttributeVal) = true.
Proof. unfold tagMatches. simpl. rewrite String.eqb_refl. apply orb_true_r. Qed.

Lemma importNode_childNodes condition projectAttributeVal :
  childNodes (importNode condition projectAttributeVal) = [].
Proof. reflexivity. Qed.

Lemma visitNode_importNode k condition projectAttributeVal :
  visitNode constants.Import k (ElementNode (importNode condition projectAttributeVal))
  = [([k], importNode condition projectAttributeVal)].
Proof.
  unfold visitNode. rewrite importNode_tagMatches.
  rewrite getElementsByTagName_childNodes, importNode_childNodes. reflexivity.
Qed.

Lemma serializeToProjFile_writes p files0 d :
  projFileXmlDoc p = Some d ->
  files0 !! projectFilePath p <> Some Directory ->
  serializeToProjFile (mkWorld p files0)
  = (inr tt,
     mkWorld p (<[projectFilePath p := RegularFile (serializeToString d)]> files0)).
Proof.
  intros Hd Hfile. unfold serializeToProjFile.
  rewrite (bind_inr _ _ _ _ _ (getDoc_Some (mkWorld p files0) d Hd)).
  rewrite bind_getThis. unfold fs_writeFile. simpl.
  destruct (files0 !! projectFilePath p) as [[|]|]; [reflexivity | contradiction | reflexivity].
Qed.

Lemma updateImportedTargetsToProjFile_replace condition projectAttributeVal k p files0 t a cs old :
  projFileXmlDoc p = Some (mkDocument (mkElement t a cs)) ->
  cs !! k = Some old ->
  files0 !! projectFilePath p <> Some Directory ->
  updateImportedTargetsToProjFile condition projectAttributeVal (Some (Attached [k]))
                                  (mkWorld p files0)
  = (inr (importNode condition projectAttributeVal),
     mkWorld
       (set_projFileXmlDoc
          (Some (mkDocument
                   (mkElement t a
                      (<[k := ElementNode (importNode condition projectAttributeVal)]> cs))))
          p)
       (<[projectFilePath p :=
            RegularFile
              (serializeToString
                 (mkDocument
                    (mkElement t a
                       (<[k := ElementNode (importNode condition projectAttributeVal)]> cs))))]>
          files0)).
Proof.
  intros Hd Hk Hfile. unfold updateImportedTargetsToProjFile. cbv zeta.
  rewrite (bind_inr _ _ _ _ _ (getDoc_Some (mkWorld p files0) _ Hd)).
  unfold replaceChild. cbn [documentElement childNodes tagName attributes]. rewrite Hk.
  unfold setDocumentElement at 1. rewrite bind_setThis. cbn [this disk].
  match goal with
  | |- bind serializeToProjFile _ (mkWorld ?p1 _) = _ =>
      pose proof (serializeToProjFile_writes p1 files0 _ eq_refl Hfile) as Hwrite
  end.
  rewrite (bind_inr _ _ _ _ _ Hwrite). reflexivity.
Qed.

Lemma updateImportedTargetsToProjFile_append condition projectAttributeVal p files0 t a cs :
  projFileXmlDoc p = Some (mkDocument (mkElement t a cs)) ->
  files0 !! projectFilePath p <> Some Directory ->
  updateImportedTargetsToProjFile condition projectAttributeVal None (mkWorld p files0)
  = (inr (importNode condition projectAttributeVal),
     mkWorld
       (set_importedTargets (importedTargets p ++ [projectAttributeVal])
          (set_projFileXmlDoc
             (Some (mkDocument
                      (mkElement t a
                         (cs ++ [ElementNode (importNode condition projectAttributeVal)]))))
             p))
       (<[projectFilePath p :=
            RegularFile
              (serializeToString
                 (mkDocument
                    (mkElement t a
                       (cs ++ [ElementNode (importNode condition projectAttributeVal)]))))]>
          files0)).
Proof.
  intros Hd Hfile. unfold updateImportedTargetsToProjFile. cbv zeta.
  rewrite (bind_inr _ _ _ _ _ (getDoc_Some (mkWorld p files0) _ Hd)).
  cbn [documentElement appendChild].
  rewrite (bind_inr
             (bind (setDocumentElement _) (fun _ => importedTargets_push projectAttributeVal))
             _ (mkWorld p files0) tt _ eq_refl).
  cbn [this disk].
  match goal with
  | |- bind serializeToProjFile _ (mkWorld ?p1 _) = _ =>
      pose proof (serializeToProjFile_writes p1 files0 _ eq_refl Hfile) as Hwrite
  end.
  rewrite (bind_inr _ _ _ _ _ Hwrite). reflexivity.
Qed.

Lemma lookup_insert_eq_ne_Directory (files0 : gmap string Inode) path text :
  <[path := RegularFile text]> files0 !! path <> Some Directory.
Proof. rewrite lookup_insert_eq. discriminate. Qed.

Lemma set_projFileXmlDoc_same p d :
  projFileXmlDoc p = d -> set_projFileXmlDoc d p = p.
Proof. intros <-. destruct p. reflexivity. Qed.

Lemma updateImportLoop_end bound i w d :
  projFileXmlDoc (this w) = Some d ->
  getElementsByTagName constants.Import (documentElement d) !! i = None ->
  updateImportLoop bound i w = (inr tt, w).
Proof.
  intros Hd Hend.
  destruct bound; simpl; rewrite (bind_inr _ _ _ _ _ (getDoc_Some w d Hd)), Hend; reflexivity.
Qed.

(** The loop over the children [todo] of the root that are still to be
    looked at, [done] being the children before them, when no import lies
    below a child: every import among [todo] is replaced by what
    [rewriteImport] makes of it, and no file but the project file is
    written. *)
Lemma updateImportLoop_rewrites (todo : list Node) :
  (forall e, isSqlDbPresent e = true -> isSqlDbNotPresent e = false) ->
  forall (done : list Node) bound i p files0 t a,
    projFileXmlDoc p = Some (mkDocument (mkElement t a (done ++ todo))) ->
    files0 !! projectFilePath p <> Some Directory ->
    Forall (noneBelow constants.Import) todo ->
    List.length (visitSiblings constants.Import 0 done) = i ->
    List.length (visitSiblings constants.Import (List.length done) todo) <= bound ->
    exists files1,
      updateImportLoop bound i (mkWorld p files0)
      = (inr tt,
         mkWorld
           (set_projFileXmlDoc
              (Some (mkDocument (mkElement t a (done ++ map rewriteNode todo)))) p)
           files1)
      /\ files1 !! projectFilePath p <> Some Directory
      /\ forall q, q <> projectFilePath p -> files1 !! q = files0 !! q.
Proof.
  intros Hexclusive.
  induction todo as [|n rest IH]; intros done bound i p files0 t a Hd Hfile Hbelow Hi Hbound.
  - exists files0. split; [|split; [exact Hfile | reflexivity]].
    erewrite updateImportLoop_end; [|exact Hd|].
    + rewrite set_projFileXmlDoc_same by exact Hd. reflexivity.
    + cbn [documentElement]. rewrite getElementsByTagName_children, app_nil_r.
      apply lookup_ge_None. lia.
  - apply Forall_cons in Hbelow as [Hn Hrest].
    assert (Hskip : visitNode constants.Import (List.length done) n = [] ->
                    exists files1,
                      updateImportLoop bound i (mkWorld p files0)
                      = (inr tt,
                         mkWorld
                           (set_projFileXmlDoc
                              (Some (mkDocument
                                       (mkElement t a (done ++ n :: map rewriteNode rest)))) p)
                           files1)
                      /\ files1 !! projectFilePath p <> Some Directory
                      /\ forall q, q <> projectFilePath p -> files1 !! q = files0 !! q).
    { intros Hnone.
      destruct (IH (done ++ [n]) bound i p files0 t a) as (files1 & Hrun & Hfile1 & Hother).
      - rewrite <- app_assoc. exact Hd.
      - exact Hfile.
      - exact Hrest.
      - rewrite visitSiblings_app, visitSiblings_cons, Nat.add_0_l, Hnone.
        simpl. rewrite app_nil_r. exact Hi.
      - rewrite visitSiblings_cons, Hnone in Hbound. rewrite length_app. simpl in *.
        rewrite Nat.add_1_r. exact Hbound.
      - exists files1. rewrite <- app_assoc in Hrun. split; [exact Hrun | split; assumption]. }
    destruct n as [e|s]; [|apply Hskip; reflexivity].
    cbn [map rewriteNode]. simpl in Hn.
    destruct (tagMatches constants.Import e) eqn:Hmatch;
      [|apply Hskip; simpl; rewrite Hmatch, Hn; reflexivity].
    clear Hskip.
    assert (Hlookup : getElementsByTagName constants.Import (mkElement t a (done ++ ElementNode e :: rest))
                        !! i = Some ([List.length done], e)).
    { rewrite getElementsByTagName_children, visitSiblings_app, visitSiblings_cons.
      simpl. rewrite Hmatch, Hn. simpl. subst i. apply list_lookup_middle. reflexivity. }
    rewrite visitSiblings_cons in Hbound. simpl in Hbound. rewrite Hmatch, Hn in Hbound.
    simpl in Hbound. destruct bound as [|bound]; [lia|].
    cbn [updateImportLoop].
    rewrite (bind_inr _ _ _ _ _ (getDoc_Some (mkWorld p files0) _ Hd)).
    cbn [documentElement]. unfold Path in *. rewrite Hlookup.
    fold (isSqlDbPresent e). fold (isSqlDbNotPresent e). unfold rewriteImport.
    assert (Hinsert : forall new, <[List.length done := new]> (done ++ ElementNode e :: rest)
                                  = done ++ new :: rest).
    { intros new. rewrite insert_app_r_alt by lia. rewrite Nat.sub_diag. reflexivity. }
    assert (Hnext : forall new p1 files1,
               tagMatches constants.Import new = true ->
               getElementsByTagName constants.Import new = [] ->
               projFileXmlDoc p1 = Some (mkDocument (mkElement t a (done ++ ElementNode new :: rest))) ->
               projectFilePath p1 = projectFilePath p ->
               set_projFileXmlDoc
                 (Some (mkDocument (mkElement t a (done ++ ElementNode new :: map rewriteNode rest)))) p1
               = set_projFileXmlDoc
                   (Some (mkDocument (mkElement t a (done ++ ElementNode new :: map rewriteNode rest)))) p ->
               files1 !! projectFilePath p <> Some Directory ->
               (forall q, q <> projectFilePath p -> files1 !! q = files0 !! q) ->
               exists files2,
                 updateImportLoop bound (S i) (mkWorld p1 files1)
                 = (inr tt,
                    mkWorld
                      (set_projFileXmlDoc
                         (Some (mkDocument
                                  (mkElement t a (done ++ ElementNode new :: map rewriteNode rest)))) p)
                      files2)
                 /\ files2 !! projectFilePath p <> Some Directory
                 /\ forall q, q <> projectFilePath p -> files2 !! q = files0 !! q).
    { intros new p1 files1 Hnew Hnewbelow Hd1 Hpath1 Hset Hfile1 Hother1.
      destruct (IH (done ++ [ElementNode new]) bound (S i) p1 files1 t a)
        as (files2 & Hrun & Hfile2 & Hother2).
      - rewrite <- app_assoc. exact Hd1.
      - rewrite Hpath1. exact Hfile1.
      - exact Hrest.
      - rewrite visitSiblings_app, visitSiblings_cons, Nat.add_0_l. simpl.
        rewrite Hnew, Hnewbelow. simpl. rewrite length_app. simpl.
        rewrite Nat.add_1_r. f_equal. exact Hi.
      - rewrite length_app. simpl. rewrite Nat.add_1_r. lia.
      - exists files2. rewrite <- app_assoc in Hrun. simpl in Hrun. rewrite Hset in Hrun.
        split; [exact Hrun|]. rewrite Hpath1 in Hfile2, Hother2. split; [exact Hfile2|].
        intros q Hq. rewrite Hother2 by exact Hq. apply Hother1, Hq. }
    assert (Hreplace : forall condition,
               updateImportedTargetsToProjFile condition (getAttribute constants.Project e)
                 (Some (Attached [List.length done])) (mkWorld p files0)
               = (inr (importNode condition (getAttribute constants.Project e)),
                  mkWorld
                    (set_projFileXmlDoc
                       (Some (mkDocument
                                (mkElement t a
                                   (done ++ ElementNode
                                              (importNode condition
                                                 (getAttribute constants.Project e)) :: rest))))
                       p)
                    (<[projectFilePath p :=
                         RegularFile
                           (serializeToString
                              (mkDocument
                                 (mkElement t a
                                    (done ++ ElementNode
                                               (importNode condition
                                                  (getAttribute constants.Project e)) :: rest))))]>
                       files0))).
    { intros condition. rewrite <- Hinsert.
      apply (updateImportedTargetsToProjFile_replace _ _ _ p files0 t a _ (ElementNode e));
        [exact Hd | apply list_lookup_middle; reflexivity | exact Hfile]. }
    destruct (isSqlDbPresent e) eqn:Hpresent.
    + rewrite (Hexclusive e Hpresent).
      rewrite (bind_then_ret _ _ _ _ _ _ (Hreplace _)). rewrite bind_ret.
      apply Hnext; try reflexivity.
      * apply importNode_tagMatches.
      * apply lookup_insert_eq_ne_Directory.
      * intros q Hq. apply lookup_insert_ne. congruence.
    + rewrite bind_ret. destruct (isSqlDbNotPresent e) eqn:Habsent.
      * rewrite (bind_then_ret _ _ _ _ _ _ (Hreplace _)).
        apply Hnext; try reflexivity.
        -- apply importNode_tagMatches.
        -- apply lookup_insert_eq_ne_Directory.
        -- intros q Hq. apply lookup_insert_ne. congruence.
      * rewrite bind_ret.
        apply Hnext; try assumption; try reflexivity.
Qed.

Lemma rewriteImport_tagMatches e :
  tagMatches constants.Import e = true ->
  tagMatches constants.Import (rewriteImport e) = true.
Proof.
  intros He. unfold rewriteImport.
  destruct (isSqlDbPresent e); [apply importNode_tagMatches|].
  destruct (isSqlDbNotPresent e); [apply importNode_tagMatches | exact He].
Qed.

Lemma rewriteImport_none_below tag e :
  getElementsByTagName tag e = [] ->
  getElementsByTagName tag (rewriteImport e) = [].
Proof.
  intros He. unfold rewriteImport.
  destruct (isSqlDbPresent e); [reflexivity|].
  destruct (isSqlDbNotPresent e); [reflexivity | exact He].
Qed.

(** The imports among rewritten children are the rewritten imports. *)
Lemma visitSiblings_rewriteNode_Import cs k :
  Forall (noneBelow constants.Import) cs ->
  visitSiblings constants.Import k (map rewriteNode cs)
  = map (fun pe => (fst pe, rewriteImport (snd pe))) (visitSiblings constants.Import k cs).
Proof.
  revert k. induction cs as [|n rest IH]; intros k Hbelow; [reflexivity|].
  apply Forall_cons in Hbelow as [Hn Hrest].
  cbn [map]. rewrite !visitSiblings_cons, map_app, IH by exact Hrest. f_equal.
  destruct n as [e|s]; [|reflexivity]. simpl in Hn. simpl.
  destruct (tagMatches constants.Import e) eqn:Hmatch; simpl.
  - rewrite rewriteImport_tagMatches by exact Hmatch.
    rewrite rewriteImport_none_below, Hn by exact Hn. reflexivity.
  - rewrite Hmatch, Hn. reflexivity.
Qed.

(** Elements of another tag are where they were after the rewriting,
    when the imports hold text only. *)
Lemma visitSiblings_rewriteNode_other tag cs k :
  tagMatches tag (createElement constants.Import) = false ->
  (forall e, In (ElementNode e) cs -> tagMatches constants.Import e = true ->
             holdsTextOnly e /\ tagMatches tag e = false) ->
  visitSiblings tag k (map rewriteNode cs) = visitSiblings tag k cs.
Proof.
  intros Hnew. revert k. induction cs as [|n rest IH]; intros k Himports; [reflexivity|].
  cbn [map]. rewrite !visitSiblings_cons, IH by (intros e He; apply Himports; right; exact He).
  f_equal. destruct n as [e|s]; [|reflexivity]. cbn [rewriteNode].
  destruct (tagMatches constants.Import e) eqn:Hmatch; [|reflexivity].
  destruct (Himports e (or_introl eq_refl) Hmatch) as [Htext Hother].
  unfold rewriteImport.
  assert (Hgone : forall condition,
             visitNode tag k (ElementNode (importNode condition (getAttribute constants.Project e)))
             = visitNode tag k (ElementNode e)).
  { intros condition. simpl.
    rewrite Hother, (holdsTextOnly_getElementsByTagName tag e Htext).
    change (tagMatches tag (importNode condition (getAttribute constants.Project e)))
      with (tagMatches tag (createElement constants.Import)).
    rewrite Hnew. reflexivity. }
  destruct (isSqlDbPresent e); [apply Hgone|].
  destruct (isSqlDbNotPresent e); [apply Hgone | reflexivity].
Qed.

Lemma searchItemGroup_In containedTag groups ref :
  searchItemGroup containedTag groups = Some ref -> exists g, In (ref, g) groups.
Proof.
  induction groups as [|[r g] rest IH]; simpl; [discriminate|].
  destruct (Nat.ltb 0 (List.length (getElementsByTagName containedTag g))).
  - intros Heq. inversion Heq. subst. exists g. left. reflexivity.
  - intros Hrest. destruct (IH Hrest) as [g' Hg']. exists g'. right. exact Hg'.
Qed.

(** [findOrCreateItemGroup] followed by [appendChild] on the group it
    returns always succeeds.  The element appended counts for the walks
    that find it; a walk that does not find it, nor an item group, and
    whose elements are childless and no item groups is left as it was. *)
Lemma appendToItemGroup containedTag child p files0 root :
  projFileXmlDoc p = Some (mkDocument root) ->
  exists root',
    bind (findOrCreateItemGroup containedTag)
         (fun group => appendChildAt group (ElementNode child)) (mkWorld p files0)
    = (inr tt, mkWorld (set_projFileXmlDoc (Some (mkDocument root')) p) files0)
    /\ (forall tag,
           tagMatches tag (createElement constants.ItemGroup) = false ->
           List.length (getElementsByTagName tag root')
           = List.length (getElementsByTagName tag root)
             + List.length (visitNode tag 0 (ElementNode child)))
    /\ (forall tag,
           tagMatches tag (createElement constants.ItemGroup) = false ->
           visitNode tag 0 (ElementNode child) = [] ->
           (forall q e, In (q, e) (getElementsByTagName tag root) ->
                        childNodes e = [] /\ tagMatches constants.ItemGroup e = false) ->
           getElementsByTagName tag root' = getElementsByTagName tag root).
Proof.
  intros Hd. unfold findOrCreateItemGroup. rewrite bind_assoc.
  rewrite (bind_inr _ _ _ _ _ (getDoc_Some (mkWorld p files0) _ Hd)).
  cbv zeta. cbn [documentElement].
  match goal with
  | |- context [match ?found with Some _ => _ | None => _ end] =>
      destruct found as [ref|] eqn:Hfound
  end.
  - assert (Hgroup : exists g, In (ref, g) (getElementsByTagName constants.ItemGroup root)).
    { destruct containedTag as [tag|]; [|discriminate].
      destruct (truthy tag); [|discriminate].
      eapply searchItemGroup_In. exact Hfound. }
    destruct Hgroup as [g Hg].
    destruct (getElementsByTagName_elementAt _ _ _ _ Hg) as (Hat & Hgmatch & _).
    destruct (updateAt_is_Some ref (appendChild (ElementNode child)) root g Hat) as [root' Hup].
    exists root'. split; [|split].
    + rewrite bind_ret. unfold appendChildAt.
      rewrite (bind_inr _ _ _ _ _ (getDoc_Some (mkWorld p files0) _ Hd)).
      cbn [documentElement]. rewrite Hup. reflexivity.
    + intros tag _. eapply updateAt_appendChild_length. exact Hup.
    + intros tag _ Hchild Hleaves.
      eapply updateAt_appendChild_unchanged; [exact Hup | exact Hchild |].
      intros q e Hin [r Hr]. subst ref.
      destruct (Hleaves q e Hin) as [Hempty Hnogroup].
      destruct (getElementsByTagName_elementAt _ _ _ _ Hin) as (Hq & _ & _).
      rewrite elementAt_app, Hq in Hat.
      destruct r as [|j r]; simpl in Hat.
      * inversion Hat. subst g. congruence.
      * rewrite Hempty in Hat. discriminate.
  - exists (appendChild
              (ElementNode (mkElement constants.ItemGroup [] [ElementNode child])) root).
    split; [|split].
    + rewrite bind_assoc. unfold setDocumentElement at 1. rewrite bind_setThis.
      rewrite bind_ret. unfold appendChildAt.
      match goal with
      | |- bind getDoc _ ?w1 = _ =>
          rewrite (bind_inr _ _ w1 _ w1 (getDoc_Some w1 _ eq_refl))
      end.
      destruct root as [t a cs]. unfold createElement.
      cbn [documentElement childNodes appendChild this].
      rewrite updateAt_last_child. reflexivity.
    + intros tag Hgroup. rewrite getElementsByTagName_appendChild, length_app.
      f_equal. cbn [visitNode].
      change (tagMatches tag (mkElement constants.ItemGroup [] [ElementNode child]))
        with (tagMatches tag (createElement constants.ItemGroup)).
      rewrite Hgroup.
      rewrite getElementsByTagName_children, visitSiblings_cons.
      simpl. rewrite app_nil_r, length_map. reflexivity.
    + intros tag Hgroup Hchild _. rewrite getElementsByTagName_appendChild.
      cbn [visitNode].
      change (tagMatches tag (mkElement constants.ItemGroup [] [ElementNode child]))
        with (tagMatches tag (createElement constants.ItemGroup)).
      rewrite Hgroup.
      rewrite getElementsByTagName_children, visitSiblings_cons, Hchild.
      simpl. apply app_nil_r.
Qed.

Lemma tagMatches_false tag e :
  tag <> "*" -> tagName e <> tag -> tagMatches tag e = false.
Proof.
  intros Hstar Htag. unfold tagMatches.
  apply String.eqb_neq in Hstar, Htag. rewrite Hstar, Htag. reflexivity.
Qed.

Lemma tagMatches_true_tagName tag e :
  tag <> "*" -> tagMatches tag e = true -> tagName e = tag.
Proof.
  intros Hstar. unfold tagMatches. apply String.eqb_neq in Hstar. rewrite Hstar.
  simpl. apply String.eqb_eq.
Qed.

Lemma getAttribute_importNode_Project condition projectAttributeVal :
  getAttribute constants.Project (importNode condition projectAttributeVal)
  = projectAttributeVal.
Proof. apply getAttribute_setAttribute_eq. Qed.

Lemma getAttribute_importNode_Condition condition projectAttributeVal :
  constants.Condition <> constants.Project ->
  getAttribute constants.Condition (importNode condition projectAttributeVal) = condition.
Proof.
  intros Hne. unfold importNode.
  rewrite getAttribute_setAttribute_ne by congruence. apply getAttribute_setAttribute_eq.
Qed.

Lemma isSqlDbPresent_exclusive :
  constants.SqlDbPresentCondition <> constants.SqlDbNotPresentCondition ->
  forall e, isSqlDbPresent e = true -> isSqlDbNotPresent e = false.
Proof.
  intros Hne e. unfold isSqlDbPresent, isSqlDbNotPresent.
  rewrite andb_true_iff, String.eqb_eq. intros [-> _].
  apply String.eqb_neq in Hne. rewrite Hne. reflexivity.
Qed.

Lemma packageRefNode_tagName : tagName packageRefNode = constants.PackageReference.
Proof. unfold packageRefNode. rewrite !tagName_setAttribute. reflexivity. Qed.

Lemma packageRefNode_childNodes : childNodes packageRefNode = [].
Proof. unfold packageRefNode. rewrite !childNodes_setAttribute. reflexivity. Qed.

Lemma visitNode_childless tag k e :
  childNodes e = [] ->
  visitNode tag k (ElementNode e) = if tagMatches tag e then [([k], e)] else [].
Proof.
  intros Hempty. unfold visitNode.
  rewrite getElementsByTagName_childNodes, Hempty. simpl. apply app_nil_r.
Qed.

(** The whole upgrade of a project whose imports are children of the
    root: it succeeds, and its last step works on the root with the
    imports rewritten and the NetCore import appended. *)
Lemma updateProjectForRoundTrip_runs p files0 t a cs original :
  constants.SqlDbPresentCondition <> constants.SqlDbNotPresentCondition ->
  projFileXmlDoc p = Some (mkDocument (mkElement t a cs)) ->
  files0 !! projectFilePath p = Some (RegularFile original) ->
  files0 !! (projectFilePath p +:+ "_backup") <> Some Directory ->
  Forall (noneBelow constants.Import) cs ->
  exists root' files1,
    updateProjectForRoundTrip (mkWorld p files0)
    = (inr tt,
       mkWorld
         (set_projFileXmlDoc (Some (mkDocument root'))
            (set_importedTargets (importedTargets p ++ [constants.NetCoreTargets]) p))
         files1)
    /\ (forall tag,
           tagMatches tag (createElement constants.ItemGroup) = false ->
           List.length (getElementsByTagName tag root')
           = List.length
               (getElementsByTagName tag
                  (mkElement t a
                     (map rewriteNode cs
                        ++ [ElementNode (importNode constants.NetCoreCondition
                                                    constants.NetCoreTargets)])))
             + List.length (visitNode tag 0 (ElementNode packageRefNode)))
    /\ (forall tag,
           tagMatches tag (createElement constants.ItemGroup) = false ->
           visitNode tag 0 (ElementNode packageRefNode) = [] ->
           (forall q e,
               In (q, e)
                  (getElementsByTagName tag
                     (mkElement t a
                        (map rewriteNode cs
                           ++ [ElementNode (importNode constants.NetCoreCondition
                                                       constants.NetCoreTargets)]))) ->
               childNodes e = [] /\ tagMatches constants.ItemGroup e = false) ->
           getElementsByTagName tag root'
           = getElementsByTagName tag
               (mkElement t a
                  (map rewriteNode cs
                     ++ [ElementNode (importNode constants.NetCoreCondition
                                                 constants.NetCoreTargets)])))
    /\ files1 !! (projectFilePath p +:+ "_backup") = Some (RegularFile original)
    /\ files1 !! projectFilePath p
       = Some (RegularFile (serializeToString (mkDocument root'))).
Proof.
  intros Hconditions Hd Hfile Hdest Hbelow.
  set (path := projectFilePath p) in *.
  assert (Hbackup : path +:+ "_backup" <> path) by (apply append_nonempty_ne; discriminate).
  unfold updateProjectForRoundTrip. rewrite bind_getThis. cbn [this]. fold path.
  assert (Hcopy : fs_copyFile path (path +:+ "_backup") (mkWorld p files0)
                  = (inr tt, mkWorld p (<[path +:+ "_backup" := RegularFile original]> files0))).
  { unfold fs_copyFile. cbn [disk this]. rewrite Hfile.
    destruct (files0 !! (path +:+ "_backup")) as [[|]|];
      [reflexivity | contradiction | reflexivity]. }
  rewrite (bind_inr _ _ _ _ _ Hcopy). clear Hcopy.
  set (files1 := <[path +:+ "_backup" := RegularFile original]> files0).
  assert (Hfile1 : files1 !! projectFilePath p <> Some Directory).
  { unfold files1. fold path. rewrite lookup_insert_ne by exact Hbackup.
    rewrite Hfile. discriminate. }
  destruct (updateImportLoop_rewrites cs (isSqlDbPresent_exclusive Hconditions)
              [] (List.length (getElementsByTagName constants.Import (mkElement t a cs)))
              0 p files1 t a Hd Hfile1 Hbelow eq_refl)
    as (files2 & Hloop & Hfile2 & Hother2).
  { rewrite getElementsByTagName_children. simpl. lia. }
  simpl app in Hloop.
  unfold updateImportToSupportRoundTrip.
  rewrite bind_assoc.
  rewrite (bind_inr _ _ _ _ _ (getDoc_Some (mkWorld p files1) _ Hd)).
  cbn [documentElement]. rewrite bind_assoc.
  rewrite (bind_inr _ _ _ _ _ Hloop). clear Hloop.
  match goal with
  | |- context [updateImportedTargetsToProjFile ?c ?v None] =>
      pose proof (updateImportedTargetsToProjFile_append c v
                    (set_projFileXmlDoc
                       (Some (mkDocument (mkElement t a (map rewriteNode cs)))) p)
                    files2 t a (map rewriteNode cs) eq_refl Hfile2) as Happend
  end.
  rewrite (bind_then_ret _ _ _ _ _ _ Happend). clear Happend.
  cbn [projectFilePath set_projFileXmlDoc importedTargets]. fold path.
  set (root3 := mkElement t a
                  (map rewriteNode cs
                     ++ [ElementNode (importNode constants.NetCoreCondition
                                                 constants.NetCoreTargets)])).
  set (files3 := <[path := RegularFile (serializeToString (mkDocument root3))]> files2).
  unfold updatePackageReferenceInProjFile.
  match goal with
  | |- context [mkWorld ?p3 files3] =>
      destruct (appendToItemGroup (Some constants.PackageReference) packageRefNode
                  p3 files3 root3 eq_refl)
        as (root' & Hgroup & Hcount & Hsame)
  end.
  rewrite <- (bind_assoc (findOrCreateItemGroup (Some constants.PackageReference))
                (fun group => appendChildAt group (ElementNode packageRefNode))
                (fun _ => serializeToProjFile)).
  rewrite (bind_inr _ _ _ _ _ Hgroup). clear Hgroup.
  exists root'. eexists. split; [|split; [exact Hcount | split; [exact Hsame|]]].
  - rewrite serializeToProjFile_writes with (d := mkDocument root');
      [reflexivity | reflexivity |].
    cbn [projectFilePath set_projFileXmlDoc set_importedTargets]. fold path.
    unfold files3. rewrite lookup_insert_eq. discriminate.
  - cbn [projectFilePath set_projFileXmlDoc set_importedTargets]. fold path. split.
    + rewrite lookup_insert_ne by congruence. unfold files3.
      rewrite lookup_insert_ne by congruence.
      rewrite Hother2 by exact Hbackup. unfold files1. apply lookup_insert_eq.
    + apply lookup_insert_eq.
Qed.

(** After the upgrade of a project with two imports, both children of
    the root with text below them only and both matched by a test of the
    loop: the imports of the document and the number of package
    references. *)
Lemma updateProjectForRoundTrip_imports p files0 root original k1 k2 i1 i2 :
  roundTripNames ->
  projFileXmlDoc p = Some (mkDocument root) ->
  files0 !! projectFilePath p = Some (RegularFile original) ->
  files0 !! (projectFilePath p +:+ "_backup") <> Some Directory ->
  getElementsByTagName constants.Import root = [([k1], i1); ([k2], i2)] ->
  holdsTextOnly i1 -> holdsTextOnly i2 ->
  isSqlDbPresent i1 || isSqlDbNotPresent i1 = true ->
  isSqlDbPresent i2 || isSqlDbNotPresent i2 = true ->
  exists root' files1,
    updateProjectForRoundTrip (mkWorld p files0)
    = (inr tt,
       mkWorld
         (set_projFileXmlDoc (Some (mkDocument root'))
            (set_importedTargets (importedTargets p ++ [constants.NetCoreTargets]) p))
         files1)
    /\ getElementsByTagName constants.Import root'
       = [([k1], rewriteImport i1); ([k2], rewriteImport i2);
          ([List.length (childNodes root)],
           importNode constants.NetCoreCondition constants.NetCoreTargets)]
    /\ List.length (getElementsByTagName constants.PackageReference root')
       = S (List.length (getElementsByTagName constants.PackageReference root))
    /\ files1 !! (projectFilePath p +:+ "_backup") = Some (RegularFile original)
    /\ files1 !! projectFilePath p
       = Some (RegularFile (serializeToString (mkDocument root'))).
Proof.
  intros (HImport & HPackage & HGroup & HIG & HIP & HGP & HCP & Hconditions)
         Hd Hfile Hdest Himports Htext1 Htext2 Hmatch1 Hmatch2.
  destruct root as [t a cs].
  assert (Hbelow : Forall (noneBelow constants.Import) cs).
  { apply (noneBelow_children constants.Import t a cs). rewrite Himports.
    intros q x [Heq|[Heq|[]]]; inversion Heq; reflexivity. }
  destruct (updateProjectForRoundTrip_runs p files0 t a cs original
              Hconditions Hd Hfile Hdest Hbelow)
    as (root' & files1 & Hrun & Hcount & Hsame & Hkept & Hwritten).
  exists root', files1. split; [exact Hrun|].
  assert (Hchild : forall e, In (ElementNode e) cs -> tagMatches constants.Import e = true ->
                             e = i1 \/ e = i2).
  { intros e He Hm. apply list_elem_of_In, list_elem_of_lookup in He as [k Hk].
    pose proof (getElementsByTagName_child constants.Import t a cs k e Hk Hm) as Hin.
    rewrite Himports in Hin. destruct Hin as [Heq|[Heq|[]]]; inversion Heq; auto. }
  assert (Hnew : forall tag condition projectAttributeVal,
             tag <> "*" -> constants.Import <> tag ->
             tagMatches tag (importNode condition projectAttributeVal) = false).
  { intros tag condition v Hstar Hne. apply tagMatches_false; [exact Hstar | exact Hne]. }
  assert (Hrewritten : forall i, isSqlDbPresent i || isSqlDbNotPresent i = true ->
                                 childNodes (rewriteImport i) = []
                                 /\ tagMatches constants.ItemGroup (rewriteImport i) = false).
  { intros i Hi. unfold rewriteImport.
    destruct (isSqlDbPresent i); [split; [reflexivity | apply Hnew; assumption]|].
    destruct (isSqlDbNotPresent i); [split; [reflexivity | apply Hnew; assumption]|].
    discriminate. }
  assert (Himports3 :
            getElementsByTagName constants.Import
              (mkElement t a
                 (map rewriteNode cs
                    ++ [ElementNode (importNode constants.NetCoreCondition
                                                constants.NetCoreTargets)]))
            = [([k1], rewriteImport i1); ([k2], rewriteImport i2);
               ([List.length cs],
                importNode constants.NetCoreCondition constants.NetCoreTargets)]).
  { rewrite getElementsByTagName_children, visitSiblings_app, visitSiblings_cons.
    rewrite visitSiblings_rewriteNode_Import by exact Hbelow.
    rewrite <- getElementsByTagName_children with (t := t) (a := a), Himports.
    rewrite visitNode_importNode, length_map. reflexivity. }
  split; [|split; [|split; [exact Hkept | exact Hwritten]]].
  - rewrite Hsame; [exact Himports3 | | |].
    + apply tagMatches_false; [exact HImport | simpl; congruence].
    + rewrite visitNode_childless by apply packageRefNode_childNodes.
      rewrite tagMatches_false; [reflexivity | exact HImport |].
      rewrite packageRefNode_tagName. congruence.
    + rewrite Himports3. intros q e [Heq|[Heq|[Heq|[]]]]; inversion Heq; subst.
      * apply Hrewritten, Hmatch1.
      * apply Hrewritten, Hmatch2.
      * split; [reflexivity | apply Hnew; assumption].
  - rewrite Hcount by (apply tagMatches_false; [exact HPackage | simpl; congruence]).
    rewrite visitNode_childless by apply packageRefNode_childNodes.
    unfold tagMatches at 1. rewrite packageRefNode_tagName, String.eqb_refl, orb_true_r.
    rewrite getElementsByTagName_children, visitSiblings_app, visitSiblings_cons.
    rewrite visitNode_childless by reflexivity.
    rewrite Hnew by assumption.
    rewrite visitSiblings_rewriteNode_other.
    + rewrite getElementsByTagName_children. simpl. rewrite app_nil_r. lia.
    + apply tagMatches_false; [exact HPackage | simpl; exact HIP].
    + intros e He Hm.
      assert (Htag : tagMatches constants.PackageReference e = false).
      { apply tagMatches_false; [exact HPackage|].
        rewrite (tagMatches_true_tagName _ _ HImport Hm). exact HIP. }
      destruct (Hchild e He Hm) as [->| ->]; split; assumption.
Qed.

(** C2. A project document with exactly two imports, both children of
    the root with no element below them, one with the SqlDbPresent
    condition and the SqlDbTargets path (at index [kp]) and one with the
    SqlDbNotPresent condition and the MsBuildtargets path (at index [ka]),
    in either order, on a disk that holds the project file.  The upgrade
    succeeds; the document then has three imports, at the two old
    positions and as the new last child of the root: the round-trip
    present condition with the SqlDbTargets path at [kp], the round-trip
    not-present condition with the MsBuildtargets path at [ka], and the
    NetCore import, whose target is appended to [importedTargets]; it has
    one package reference more; the backup path holds the old text of the
    project file, and the project file the new document. *)
Theorem updateProjectForRoundTrip_two_imports
    (p : Project) (files0 : gmap string Inode) (root : Element) (original : string)
    (kp ka : nat) (present absent : Element) :
  roundTripNames ->
  projFileXmlDoc p = Some (mkDocument root) ->
  files0 !! projectFilePath p = Some (RegularFile original) ->
  files0 !! (projectFilePath p +:+ "_backup") <> Some Directory ->
  (getElementsByTagName constants.Import root = [([kp], present); ([ka], absent)]
   \/ getElementsByTagName constants.Import root = [([ka], absent); ([kp], present)]) ->
  holdsTextOnly present -> holdsTextOnly absent ->
  isSqlDbPresent present = true ->
  isSqlDbNotPresent absent = true ->
  exists root' files1,
    updateProjectForRoundTrip (mkWorld p files0)
    = (inr tt,
       mkWorld
         (set_projFileXmlDoc (Some (mkDocument root'))
            (set_importedTargets (importedTargets p ++ [constants.NetCoreTargets]) p))
         files1)
    /\ map fst (getElementsByTagName constants.Import root')
       = map fst (getElementsByTagName constants.Import root)
           ++ [[List.length (childNodes root)]]
    /\ List.length (getElementsByTagName constants.Import root') = 3
    /\ In ([kp], importNode constants.RoundTripSqlDbPresentCondition constants.SqlDbTargets)
          (getElementsByTagName constants.Import root')
    /\ In ([ka], importNode constants.RoundTripSqlDbNotPresentCondition constants.MsBuildtargets)
          (getElementsByTagName constants.Import root')
    /\ In ([List.length (childNodes root)],
           importNode constants.NetCoreCondition constants.NetCoreTargets)
          (getElementsByTagName constants.Import root')
    /\ (forall condition target,
           getAttribute constants.Condition (importNode condition target) = condition
           /\ getAttribute constants.Project (importNode condition target) = target)
    /\ List.length (getElementsByTagName constants.PackageReference root')
       = S (List.length (getElementsByTagName constants.PackageReference root))
    /\ files1 !! (projectFilePath p +:+ "_backup") = Some (RegularFile original)
    /\ files1 !! projectFilePath p
       = Some (RegularFile (serializeToString (mkDocument root'))).
Proof.
  intros Hnames Hd Hfile Hdest Himports Htextp Htexta Hpresent Habsent.
  assert (Hconditions : constants.SqlDbPresentCondition <> constants.SqlDbNotPresentCondition)
    by apply Hnames.
  assert (HCP : constants.Condition <> constants.Project) by apply Hnames.
  assert (Hrp : rewriteImport present
                = importNode constants.RoundTripSqlDbPresentCondition constants.SqlDbTargets).
  { unfold rewriteImport. rewrite Hpresent. f_equal.
    unfold isSqlDbPresent in Hpresent. apply andb_true_iff in Hpresent as [_ Hp].
    apply String.eqb_eq, Hp. }
  assert (Hra : rewriteImport absent
                = importNode constants.RoundTripSqlDbNotPresentCondition
                             constants.MsBuildtargets).
  { unfold rewriteImport.
    destruct (isSqlDbPresent absent) eqn:Hboth.
    - rewrite (isSqlDbPresent_exclusive Hconditions absent Hboth) in Habsent. discriminate.
    - rewrite Habsent. f_equal.
      unfold isSqlDbNotPresent in Habsent. apply andb_true_iff in Habsent as [_ Ha].
      apply String.eqb_eq, Ha. }
  assert (Hattributes : forall condition target,
             getAttribute constants.Condition (importNode condition target) = condition
             /\ getAttribute constants.Project (importNode condition target) = target).
  { intros condition target. split;
      [apply getAttribute_importNode_Condition, HCP | apply getAttribute_importNode_Project]. }
  destruct Himports as [Himports|Himports].
  - destruct (updateProjectForRoundTrip_imports p files0 root original kp ka present absent
                Hnames Hd Hfile Hdest Himports Htextp Htexta)
      as (root' & files1 & Hrun & Hlist & Hpackages & Hkept & Hwritten).
    { rewrite Hpresent. reflexivity. }
    { rewrite Habsent. apply orb_true_r. }
    exists root', files1. rewrite Hlist, Himports, Hrp, Hra. simpl.
    repeat split; auto; apply Hattributes.
  - destruct (updateProjectForRoundTrip_imports p files0 root original ka kp absent present
                Hnames Hd Hfile Hdest Himports Htexta Htextp)
      as (root' & files1 & Hrun & Hlist & Hpackages & Hkept & Hwritten).
    { rewrite Habsent. apply orb_true_r. }
    { rewrite Hpresent. reflexivity. }
    exists root', files1. rewrite Hlist, Himports, Hrp, Hra. simpl.
    repeat split; auto; apply Hattributes.
Qed.

(** ** addFolderItem *)

Lemma bind_inr_inv {A B} (m : M A) (k : A -> M B) w b w' :
  bind m k w = (inr b, w') ->
  exists a w1, m w = (inr a, w1) /\ k a w1 = (inr b, w').
Proof.
  unfold bind. destruct (m w) as [[e|a] w1]; [discriminate|]. intros Hk. eauto.
Qed.

Lemma appendChildAt_document ref child w w' :
  appendChildAt ref child w = (inr tt, w') ->
  exists d', projFileXmlDoc (this w') = Some d'.
Proof.
  unfold appendChildAt. intros Hrun.
  apply bind_inr_inv in Hrun as (d & w1 & Hdoc & Hrun).
  destruct (updateAt ref (appendChild child) (documentElement d)) as [root|];
    [|discriminate].
  inversion Hrun. simpl. eauto.
Qed.

(** C1 fails on the code.  For every world and every relative folder
    path: when [addFolderItem] succeeds, it returns the folder entry, and
    the last child of the root is a new item group that holds an artifact
    reference to the folder, built by the database reference case that
    the folder case of the switch runs on into.  So the call adds more
    than the folder element. *)
Theorem addFolderItem_also_adds_reference (relativeFolderPath : string) (w : World) :
  succeeded (fst (addFolderItem relativeFolderPath w)) = true ->
  fst (addFolderItem relativeFolderPath w)
  = inr (createProjectEntry (this w) relativeFolderPath EntryType.Folder)
  /\ exists d',
      projFileXmlDoc (this (snd (addFolderItem relativeFolderPath w))) = Some d'
      /\ last (childNodes (documentElement d'))
         = Some (ElementNode
                   (mkElement constants.ItemGroup []
                      [ElementNode
                         (referenceNode
                            (createProjectEntry (this w) relativeFolderPath
                               EntryType.Folder))])).
Proof.
  destruct (addFolderItem relativeFolderPath w) as [[e|folderEntry] w'] eqn:Hrun;
    [discriminate|].
  intros _. cbn [fst snd].
  unfold addFolderItem in Hrun. rewrite bind_getThis in Hrun.
  apply bind_inr_inv in Hrun as (exists_ & w1 & _ & Hrun).
  apply bind_inr_inv in Hrun as ([] & w2 & _ & Hrun).
  apply bind_inr_inv in Hrun as ([] & w3 & _ & Hrun).
  apply bind_inr_inv in Hrun as ([] & w4 & Hadd & Hrun).
  inversion Hrun. subst folderEntry w4. clear Hrun.
  split; [reflexivity|].
  unfold addToProjFile in Hadd. cbn [type createProjectEntry new_ProjectEntry] in Hadd.
  apply bind_inr_inv in Hadd as ([] & w5 & Hswitch & Hwrite).
  apply bind_inr_inv in Hswitch as ([] & w6 & Hfolder & Hreference).
  unfold addFolderToProjFile in Hfolder.
  apply bind_inr_inv in Hfolder as (group & w7 & _ & Hfolder).
  destruct (appendChildAt_document _ _ _ _ Hfolder) as [d6 Hd6].
  rewrite (addDatabaseReferenceToProjFile_document _ w6 d6 Hd6) in Hreference.
  inversion Hreference. subst w5. clear Hreference.
  pose proof (serializeToProjFile_this
                (withRoot
                   (appendChild
                      (ElementNode
                         (mkElement constants.ItemGroup []
                            [ElementNode
                               (referenceNode
                                  (createProjectEntry (this w) relativeFolderPath
                                     EntryType.Folder))])) (documentElement d6)) w6))
    as Hthis.
  rewrite Hwrite in Hthis. simpl in Hthis. rewrite Hthis.
  eexists. split; [reflexivity|].
  destruct d6 as [[t a cs]]. simpl. apply last_snoc.
Qed.

(** ** The bound of the loop is never reached *)

Lemma withinBound_bind {A B} (m : M A) (k : A -> M B) w :
  withinBound (fst (m w)) ->
  (forall a w1, m w = (inr a, w1) -> withinBound (fst (k a w1))) ->
  withinBound (fst (bind m k w)).
Proof.
  intros Hm Hk. unfold bind. destruct (m w) as [[e|a] w1]; [exact Hm|].
  apply Hk. reflexivity.
Qed.

Lemma withinBound_getDoc w : withinBound (fst (getDoc w)).
Proof. cbv [getDoc bind getThis]. destruct (projFileXmlDoc (this w)); exact I. Qed.

Lemma getDoc_inr_inv w d w1 :
  getDoc w = (inr d, w1) -> projFileXmlDoc (this w) = Some d /\ w1 = w.
Proof.
  cbv [getDoc bind getThis]. destruct (projFileXmlDoc (this w)); [|discriminate].
  intros Heq. inversion Heq. split; reflexivity.
Qed.

Lemma withinBound_serializeToProjFile w : withinBound (fst (serializeToProjFile w)).
Proof.
  apply withinBound_bind; [apply withinBound_getDoc|]. intros d w1 _.
  cbv [bind getThis fs_writeFile].
  destruct (disk w1 !! projectFilePath (this w1)) as [[|]|]; exact I.
Qed.

Lemma withinBound_appendChildAt ref child w : withinBound (fst (appendChildAt ref child w)).
Proof.
  apply withinBound_bind; [apply withinBound_getDoc|]. intros d w1 _.
  destruct (updateAt ref (appendChild child) (documentElement d)); exact I.
Qed.

Lemma withinBound_findOrCreateItemGroup containedTag w :
  withinBound (fst (findOrCreateItemGroup containedTag w)).
Proof.
  apply withinBound_bind; [apply withinBound_getDoc|]. intros d w1 _. cbv zeta.
  match goal with
  | |- context [match ?found with Some _ => _ | None => _ end] => destruct found
  end; exact I.
Qed.

Lemma withinBound_updateImportedTargetsToProjFile condition projectAttributeVal old w :
  withinBound (fst (updateImportedTargetsToProjFile condition projectAttributeVal old w)).
Proof.
  unfold updateImportedTargetsToProjFile. cbv zeta.
  apply withinBound_bind; [apply withinBound_getDoc|]. intros d w1 _.
  apply withinBound_bind.
  - destruct old as [[[|k [|]]|]|]; try exact I.
    destruct (replaceChild _ k (documentElement d)); exact I.
  - intros [] w2 _. apply withinBound_bind; [apply withinBound_serializeToProjFile|].
    intros; exact I.
Qed.

(** Replacing an import that the walk finds by a new import never makes
    the walk longer. *)
Lemma updateImportedTargetsToProjFile_count condition projectAttributeVal ref e w d x w' :
  projFileXmlDoc (this w) = Some d ->
  In (ref, e) (getElementsByTagName constants.Import (documentElement d)) ->
  updateImportedTargetsToProjFile condition projectAttributeVal (Some (Attached ref)) w
  = (inr x, w') ->
  exists d',
    projFileXmlDoc (this w') = Some d'
    /\ List.length (getElementsByTagName constants.Import (documentElement d'))
       <= List.length (getElementsByTagName constants.Import (documentElement d)).
Proof.
  intros Hd Hin Hrun.
  destruct (getElementsByTagName_elementAt _ _ _ _ Hin) as (Hat & Hmatch & _).
  unfold updateImportedTargetsToProjFile in Hrun. cbv zeta in Hrun.
  rewrite (bind_inr _ _ _ _ _ (getDoc_Some w d Hd)) in Hrun.
  destruct ref as [|k [|]]; try discriminate.
  destruct d as [[t a cs]]. cbn [documentElement] in *.
  simpl in Hat. destruct (cs !! k) as [[c|]|] eqn:Hk; try discriminate.
  inversion Hat. subst c. clear Hat.
  unfold replaceChild in Hrun. cbn [childNodes tagName attributes] in Hrun.
  rewrite Hk in Hrun. unfold setDocumentElement at 1 in Hrun.
  rewrite bind_setThis in Hrun.
  apply bind_inr_inv in Hrun as ([] & w1 & Hwrite & Hret).
  inversion Hret. subst w1. clear Hret.
  match type of Hwrite with
  | serializeToProjFile ?w0 = _ => pose proof (serializeToProjFile_this w0) as Hthis
  end.
  rewrite Hwrite in Hthis. cbn [snd this] in Hthis.
  rewrite Hthis. eexists. split; [reflexivity|].
  cbn [documentElement projFileXmlDoc set_projFileXmlDoc].
  rewrite !getElementsByTagName_children.
  rewrite (visitSiblings_insert constants.Import 0 cs k) by (eapply lookup_lt_Some; exact Hk).
  rewrite (visitSiblings_lookup constants.Import 0 cs k _ Hk).
  rewrite !length_app.
  change (ElementNode (setAttribute constants.Project projectAttributeVal
                         (setAttribute constants.Condition condition
                            (createElement constants.Import))))
    with (ElementNode (importNode condition projectAttributeVal)).
  rewrite visitNode_importNode. cbn [visitNode]. rewrite Hmatch.
  rewrite length_app. simpl. lia.
Qed.

(** A replaced node is no child any more: replacing it again throws. *)
Lemma updateImportedTargetsToProjFile_Detached condition projectAttributeVal w x w' :
  updateImportedTargetsToProjFile condition projectAttributeVal (Some Detached) w
  <> (inr x, w').
Proof.
  unfold updateImportedTargetsToProjFile. cbv zeta. intros Hrun.
  apply bind_inr_inv in Hrun as (d & w1 & _ & Hrun).
  apply bind_inr_inv in Hrun as (u & w2 & Hthrow & _). discriminate Hthrow.
Qed.

Lemma updateImportLoop_bound_suffices bound :
  forall i w,
    (forall d, projFileXmlDoc (this w) = Some d ->
               List.length (getElementsByTagName constants.Import (documentElement d))
               <= bound + i) ->
    withinBound (fst (updateImportLoop bound i w)).
Proof.
  induction bound as [|bound IH]; intros i w Hcount.
  - simpl. apply withinBound_bind; [apply withinBound_getDoc|]. intros d w1 Hdoc.
    apply getDoc_inr_inv in Hdoc as [Hd ->].
    destruct (getElementsByTagName constants.Import (documentElement d) !! i)
      as [[ref e]|] eqn:Hi; [|exact I].
    apply lookup_lt_Some in Hi. specialize (Hcount d Hd). unfold Path in *. lia.
  - cbn [updateImportLoop]. apply withinBound_bind; [apply withinBound_getDoc|].
    intros d w1 Hdoc. apply getDoc_inr_inv in Hdoc as [Hd ->].
    destruct (getElementsByTagName constants.Import (documentElement d) !! i)
      as [[ref e]|] eqn:Hi; [|exact I].
    assert (Hin : In (ref, e) (getElementsByTagName constants.Import (documentElement d))).
    { apply list_elem_of_In, list_elem_of_lookup. exists i. exact Hi. }
    assert (Hnext : forall w1 d1,
               projFileXmlDoc (this w1) = Some d1 ->
               List.length (getElementsByTagName constants.Import (documentElement d1))
               <= List.length (getElementsByTagName constants.Import (documentElement d)) ->
               withinBound (fst (updateImportLoop bound (S i) w1))).
    { intros w1 d1 Hd1 Hle. apply IH. intros d2 Hd2.
      rewrite Hd1 in Hd2. inversion Hd2. subst d2.
      specialize (Hcount d Hd). unfold Path in *. lia. }
    apply withinBound_bind.
    + match goal with
      | |- context [if ?b1 then _ else _] => destruct b1
      end; [|exact I].
      apply withinBound_bind; [apply withinBound_updateImportedTargetsToProjFile|].
      intros; exact I.
    + intros importTarget' w1 Hfirst.
      assert (Hstate : (importTarget' = Detached
                        /\ exists d1, projFileXmlDoc (this w1) = Some d1
                             /\ List.length (getElementsByTagName constants.Import
                                               (documentElement d1))
                                <= List.length (getElementsByTagName constants.Import
                                                  (documentElement d)))
                       \/ (importTarget' = Attached ref /\ w1 = w)).
      { match type of Hfirst with
        | context [if ?b1 then _ else _] => destruct b1
        end.
        - apply bind_inr_inv in Hfirst as (x & w2 & Hrun & Hret).
          inversion Hret. subst. left. split; [reflexivity|].
          eapply updateImportedTargetsToProjFile_count; eassumption.
        - inversion Hfirst. right. split; reflexivity. }
      apply withinBound_bind.
      * match goal with
        | |- context [if ?b2 then _ else _] => destruct b2
        end; [|exact I].
        apply withinBound_bind; [apply withinBound_updateImportedTargetsToProjFile|].
        intros; exact I.
      * intros [] w2 Hsecond.
        match type of Hsecond with
        | context [if ?b2 then _ else _] => destruct b2
        end.
        -- apply bind_inr_inv in Hsecond as (x & w3 & Hrun & Hret).
           inversion Hret. subst w3. clear Hret.
           destruct Hstate as [[-> _]|[-> ->]];
             [destruct (updateImportedTargetsToProjFile_Detached _ _ _ _ _ Hrun)|].
           destruct (updateImportedTargetsToProjFile_count _ _ _ _ _ _ _ _ Hd Hin Hrun)
             as (d2 & Hd2 & Hle2).
           apply (Hnext w2 d2 Hd2 Hle2).
        -- inversion Hsecond. subst w2.
           destruct Hstate as [[_ (d1 & Hd1 & Hle1)]|[_ ->]].
           ++ apply (Hnext w1 d1 Hd1 Hle1).
           ++ apply (Hnext w d Hd (le_n _)).
Qed.

(** The upgrade never ends at the bound the model puts on its loop: the
    number of imports at the start is enough rounds. *)
Lemma updateProjectForRoundTrip_withinBound w :
  withinBound (fst (updateProjectForRoundTrip w)).
Proof.
  unfold updateProjectForRoundTrip. rewrite bind_getThis.
  apply withinBound_bind.
  { unfold fs_copyFile.
    destruct (disk w !! projectFilePath (this w)) as [[|]|];
      [destruct (disk w !! (projectFilePath (this w) +:+ "_backup")) as [[|]|]| |];
      exact I. }
  intros [] w1 _. apply withinBound_bind.
  - unfold updateImportToSupportRoundTrip.
    apply withinBound_bind; [apply withinBound_getDoc|]. intros d w2 Hdoc.
    apply getDoc_inr_inv in Hdoc as [Hd ->].
    apply withinBound_bind.
    + apply updateImportLoop_bound_suffices. intros d' Hd'.
      rewrite Hd in Hd'. inversion Hd'. lia.
    + intros [] w3 _.
      apply withinBound_bind; [apply withinBound_updateImportedTargetsToProjFile|].
      intros; exact I.
  - intros [] w2 _. unfold updatePackageReferenceInProjFile.
    apply withinBound_bind; [apply withinBound_findOrCreateItemGroup|]. intros group w3 _.
    apply withinBound_bind; [apply withinBound_appendChildAt|]. intros [] w4 _.
    apply withinBound_serializeToProjFile.
Qed.

(** ** findOrCreateItemGroup: which group it returns *)

Lemma searchItemGroup_first containedTag groups ref :
  searchItemGroup containedTag groups = Some ref <->
  exists before g after,
    groups = before ++ (ref, g) :: after
    /\ Forall (holdsNone containedTag) before
    /\ getElementsByTagName containedTag g <> [].
Proof.
  split.
  - induction groups as [|[r g] rest IH]; simpl; [discriminate|].
    destruct (getElementsByTagName containedTag g) as [|x l] eqn:Hg; simpl.
    + intros Hrest. destruct (IH Hrest) as (before & g' & after & -> & Hall & Hne).
      exists ((r, g) :: before), g', after. split; [reflexivity|]. split; [|exact Hne].
      constructor; [exact Hg | exact Hall].
    + intros Heq. injection Heq as ->. exists [], g, rest.
      split; [reflexivity|]. split; [constructor|]. rewrite Hg. discriminate.
  - intros (before & g & after & -> & Hall & Hne).
    induction Hall as [|[r g'] before Hx Hall IH]; simpl.
    + destruct (getElementsByTagName containedTag g); [contradiction | reflexivity].
    + unfold holdsNone in Hx. simpl in Hx. rewrite Hx. simpl. exact IH.
Qed.

Lemma searchItemGroup_None containedTag groups :
  searchItemGroup containedTag groups = None <-> Forall (holdsNone containedTag) groups.
Proof.
  induction groups as [|[r g] rest IH]; simpl.
  - split; [constructor | reflexivity].
  - destruct (getElementsByTagName containedTag g) as [|x l] eqn:Hg; simpl.
    + rewrite IH. split.
      * intros Hall. constructor; [exact Hg | exact Hall].
      * intros Hall. apply Forall_cons in Hall as [_ Hall]. exact Hall.
    + split; [discriminate|]. intros Hall. apply Forall_cons in Hall as [Hx _].
      unfold holdsNone in Hx. simpl in Hx. congruence.
Qed.

Lemma searchItemGroup_exists containedTag groups ref g :
  In (ref, g) groups -> getElementsByTagName containedTag g <> [] ->
  is_Some (searchItemGroup containedTag groups).
Proof.
  intros Hin Hne.
  destruct (searchItemGroup containedTag groups) as [r|] eqn:Hs; [eexists; reflexivity|].
  apply searchItemGroup_None in Hs. exfalso. apply Hne.
  rewrite Forall_forall in Hs. apply (Hs (ref, g)). apply list_elem_of_In. exact Hin.
Qed.

Lemma findOrCreateItemGroup_found containedTag w d ref :
  projFileXmlDoc (this w) = Some d ->
  outputItemGroup containedTag (documentElement d) = Some ref ->
  findOrCreateItemGroup containedTag w = (inr ref, w).
Proof.
  intros Hd Hout. unfold findOrCreateItemGroup.
  rewrite (bind_inr _ _ _ _ _ (getDoc_Some w _ Hd)). cbv zeta.
  unfold outputItemGroup in Hout. rewrite Hout. reflexivity.
Qed.

Lemma findOrCreateItemGroup_created containedTag w d :
  projFileXmlDoc (this w) = Some d ->
  outputItemGroup containedTag (documentElement d) = None ->
  findOrCreateItemGroup containedTag w
  = (inr [List.length (childNodes (documentElement d))],
     withRoot (appendChild (ElementNode (createElement constants.ItemGroup))
                           (documentElement d)) w).
Proof.
  intros Hd Hout. unfold findOrCreateItemGroup.
  rewrite (bind_inr _ _ _ _ _ (getDoc_Some w _ Hd)). cbv zeta.
  unfold outputItemGroup in Hout. rewrite Hout.
  unfold setDocumentElement. rewrite bind_setThis. reflexivity.
Qed.

(** X8. [findOrCreateItemGroup] with a tag, on a project whose document
    is loaded.  When some item group has an element of the tag below it,
    the method returns the first such group in document order and changes
    nothing.  When no item group has one, or the tag is the empty string,
    it appends a new empty item group as the last child of the root and
    returns that. *)
Theorem findOrCreateItemGroup_first_group (containedTag : string) (w : World) (d : Document) :
  projFileXmlDoc (this w) = Some d ->
  (forall before ref g after,
      containedTag <> "" ->
      getElementsByTagName constants.ItemGroup (documentElement d) = before ++ (ref, g) :: after ->
      Forall (holdsNone containedTag) before ->
      getElementsByTagName containedTag g <> [] ->
      findOrCreateItemGroup (Some containedTag) w = (inr ref, w))
  /\ (Forall (holdsNone containedTag)
             (getElementsByTagName constants.ItemGroup (documentElement d))
      \/ containedTag = "" ->
      findOrCreateItemGroup (Some containedTag) w
      = (inr [List.length (childNodes (documentElement d))],
         withRoot (appendChild (ElementNode (createElement constants.ItemGroup))
                               (documentElement d)) w)).
Proof.
  intros Hd. split.
  - intros before ref g after Htag Hgroups Hbefore Hg.
    apply (findOrCreateItemGroup_found _ _ d); [exact Hd|].
    unfold outputItemGroup, truthy.
    destruct (String.eqb_spec containedTag ""); [contradiction|]. simpl.
    apply searchItemGroup_first. exists before, g, after. auto.
  - intros Hnone. apply findOrCreateItemGroup_created; [exact Hd|].
    unfold outputItemGroup, truthy.
    destruct (String.eqb_spec containedTag ""); [reflexivity|]. simpl.
    apply searchItemGroup_None. destruct Hnone as [Hall|Hempty]; [exact Hall | contradiction].
Qed.

(** Where [findOrCreateItemGroup] followed by [appendChild] puts the
    element, and what that does to every walk. *)
Lemma appendToItemGroup_place containedTag child p files0 root :
  projFileXmlDoc p = Some (mkDocument root) ->
  exists ref g root',
    bind (findOrCreateItemGroup containedTag)
         (fun group => appendChildAt group (ElementNode child)) (mkWorld p files0)
    = (inr tt, mkWorld (set_projFileXmlDoc (Some (mkDocument root')) p) files0)
    /\ elementAt ref root' = Some (appendChild (ElementNode child) g)
    /\ tagMatches constants.ItemGroup g = true
    /\ match outputItemGroup containedTag root with
       | Some found =>
           ref = found /\ elementAt ref root = Some g
           /\ updateAt ref (appendChild (ElementNode child)) root = Some root'
       | None =>
           ref = [List.length (childNodes root)] /\ g = createElement constants.ItemGroup
           /\ root' = appendChild (ElementNode (appendChild (ElementNode child) g)) root
       end
    /\ (forall tag,
           List.length (getElementsByTagName tag root')
           = List.length (getElementsByTagName tag root)
             + match outputItemGroup containedTag root with
               | Some _ => 0
               | None => if tagMatches tag (createElement constants.ItemGroup) then 1 else 0
               end
             + List.length (visitNode tag 0 (ElementNode child)))
    /\ (forall tag,
           truthy tag = true -> tagMatches tag child = true ->
           is_Some (outputItemGroup (Some tag) root')).
Proof.
  intros Hd.
  assert (Hnext : forall ref g root' tag,
             ref <> [] ->
             elementAt ref root' = Some (appendChild (ElementNode child) g) ->
             tagMatches constants.ItemGroup g = true ->
             truthy tag = true -> tagMatches tag child = true ->
             is_Some (outputItemGroup (Some tag) root')).
  { intros ref g root' tag Hne Hat Hg Htruthy Hchild.
    unfold outputItemGroup. rewrite Htruthy.
    apply (searchItemGroup_exists _ _ ref (appendChild (ElementNode child) g)).
    - apply elementAt_getElementsByTagName; [exact Hne | exact Hat |].
      rewrite (tagMatches_tagName _ g); [exact Hg | apply tagName_appendChild].
    - rewrite getElementsByTagName_appendChild. intros Hnil.
      apply app_eq_nil in Hnil as [_ Hnil].
      exact (visitNode_matching _ _ _ Hchild Hnil). }
  destruct (outputItemGroup containedTag root) as [ref|] eqn:Hfound.
  - assert (Hgroup : exists g, In (ref, g) (getElementsByTagName constants.ItemGroup root)).
    { unfold outputItemGroup in Hfound.
      destruct containedTag as [tag|]; [|discriminate].
      destruct (truthy tag); [|discriminate].
      eapply searchItemGroup_In. exact Hfound. }
    destruct Hgroup as [g Hg].
    destruct (getElementsByTagName_elementAt _ _ _ _ Hg) as (Hat & Hgmatch & Hne).
    destruct (updateAt_is_Some ref (appendChild (ElementNode child)) root g Hat) as [root' Hup].
    exists ref, g, root'.
    assert (Hat' : elementAt ref root' = Some (appendChild (ElementNode child) g))
      by (eapply elementAt_updateAt; eassumption).
    split; [|split; [exact Hat'|split; [exact Hgmatch|split; [auto|split]]]].
    + rewrite (bind_inr _ _ _ _ _
                 (findOrCreateItemGroup_found containedTag (mkWorld p files0) _ ref Hd Hfound)).
      unfold appendChildAt.
      rewrite (bind_inr _ _ _ _ _ (getDoc_Some (mkWorld p files0) _ Hd)).
      cbn [documentElement]. rewrite Hup. reflexivity.
    + intros tag. rewrite Nat.add_0_r. eapply updateAt_appendChild_length. exact Hup.
    + intros tag. apply (Hnext ref g root' tag Hne Hat' Hgmatch).
  - exists [List.length (childNodes root)], (createElement constants.ItemGroup),
           (appendChild (ElementNode (appendChild (ElementNode child)
                                         (createElement constants.ItemGroup))) root).
    assert (Hgmatch : tagMatches constants.ItemGroup (createElement constants.ItemGroup) = true)
      by (apply tagMatches_same; reflexivity).
    assert (Hat' : elementAt [List.length (childNodes root)]
                     (appendChild (ElementNode (appendChild (ElementNode child)
                                                  (createElement constants.ItemGroup))) root)
                   = Some (appendChild (ElementNode child) (createElement constants.ItemGroup))).
    { destruct root as [t a cs]. simpl.
      rewrite lookup_app_r by reflexivity. rewrite Nat.sub_diag. reflexivity. }
    split; [|split; [exact Hat'|split; [exact Hgmatch|split; [auto|split]]]].
    + rewrite (bind_inr _ _ _ _ _
                 (findOrCreateItemGroup_created containedTag (mkWorld p files0) _ Hd Hfound)).
      unfold appendChildAt, withRoot.
      match goal with
      | |- bind getDoc _ ?w1 = _ =>
          rewrite (bind_inr _ _ w1 _ w1 (getDoc_Some w1 _ eq_refl))
      end.
      destruct root as [t a cs]. unfold createElement.
      cbn [documentElement childNodes appendChild this].
      rewrite updateAt_last_child. reflexivity.
    + intros tag. rewrite getElementsByTagName_appendChild, length_app.
      rewrite <- Nat.add_assoc. f_equal. cbn [visitNode]. rewrite length_app.
      change (tagMatches tag (appendChild (ElementNode child) (createElement constants.ItemGroup)))
        with (tagMatches tag (createElement constants.ItemGroup)).
      f_equal; [destruct (tagMatches tag (createElement constants.ItemGroup)); reflexivity|].
      rewrite length_map. unfold createElement. cbn [appendChild app].
      rewrite getElementsByTagName_children, visitSiblings_cons.
      simpl visitSiblings. rewrite app_nil_r. reflexivity.
    + intros tag. eapply Hnext; [|exact Hat'|exact Hgmatch]. discriminate.
Qed.

(** ** addScriptItem: what a call that finds the file does *)

Lemma utils_exists_is_Some path w :
  is_Some (disk w !! path) -> utils_exists path w = (inr true, w).
Proof.
  intros H. unfold utils_exists. rewrite bool_decide_eq_true_2 by exact H. reflexivity.
Qed.

Lemma utils_exists_None path w :
  disk w !! path = None -> utils_exists path w = (inr false, w).
Proof.
  intros H. unfold utils_exists. rewrite bool_decide_eq_false_2; [reflexivity|].
  rewrite H. intros [x Hx]. discriminate.
Qed.

Lemma serializeToProjFile_fails p files0 d :
  projFileXmlDoc p = Some d ->
  files0 !! projectFilePath p = Some Directory ->
  serializeToProjFile (mkWorld p files0) = (inl IOError, mkWorld p files0).
Proof.
  intros Hd Hdir. unfold serializeToProjFile.
  rewrite (bind_inr _ _ _ _ _ (getDoc_Some (mkWorld p files0) _ Hd)).
  rewrite bind_getThis. unfold fs_writeFile. cbn [this disk]. rewrite Hdir. reflexivity.
Qed.

Lemma newFileNode_facts path :
  tagName (newFileNode path) = constants.Build
  /\ childNodes (newFileNode path) = []
  /\ getAttribute constants.Include (newFileNode path) = path.
Proof.
  unfold newFileNode. rewrite tagName_setAttribute, childNodes_setAttribute.
  rewrite getAttribute_setAttribute_eq. auto.
Qed.

(** [addScriptItem] for a file that is there, up to the write of the
    project file. *)
Lemma addScriptItem_steps relativeFilePath p files0 root :
  projFileXmlDoc p = Some (mkDocument root) ->
  is_Some (files0 !! path_join [projectFolderPath p; relativeFilePath]) ->
  exists ref g root',
    addScriptItem relativeFilePath None (mkWorld p files0)
    = bind serializeToProjFile
        (fun _ => ret (createProjectEntry p relativeFilePath EntryType.File))
        (mkWorld (set_projFileXmlDoc (Some (mkDocument root'))
                    (set_files (files p ++ [createProjectEntry p relativeFilePath EntryType.File])
                               p))
                 files0)
    /\ elementAt ref root' = Some (appendChild (ElementNode (newFileNode relativeFilePath)) g)
    /\ tagMatches constants.ItemGroup g = true
    /\ match outputItemGroup (Some constants.Build) root with
       | Some found =>
           ref = found /\ elementAt ref root = Some g
           /\ updateAt ref (appendChild (ElementNode (newFileNode relativeFilePath))) root
              = Some root'
       | None =>
           ref = [List.length (childNodes root)] /\ g = createElement constants.ItemGroup
           /\ root' = appendChild
                        (ElementNode (appendChild (ElementNode (newFileNode relativeFilePath)) g))
                        root
       end
    /\ (forall tag,
           List.length (getElementsByTagName tag root')
           = List.length (getElementsByTagName tag root)
             + match outputItemGroup (Some constants.Build) root with
               | Some _ => 0
               | None => if tagMatches tag (createElement constants.ItemGroup) then 1 else 0
               end
             + List.length (visitNode tag 0 (ElementNode (newFileNode relativeFilePath))))
    /\ (forall tag,
           truthy tag = true -> tagMatches tag (newFileNode relativeFilePath) = true ->
           is_Some (outputItemGroup (Some tag) root')).
Proof.
  intros Hd Hthere.
  destruct (appendToItemGroup_place (Some constants.Build) (newFileNode relativeFilePath)
              (set_files (files p ++ [createProjectEntry p relativeFilePath EntryType.File]) p)
              files0 root Hd)
    as (ref & g & root' & Hrun & Hrest).
  exists ref, g, root'. split; [|exact Hrest].
  unfold addScriptItem. rewrite bind_getThis. cbn [this].
  rewrite bind_ret.
  rewrite (bind_inr _ _ _ _ _ (utils_exists_is_Some _ (mkWorld p files0) Hthere)).
  cbn [negb]. rewrite bind_ret.
  unfold files_push. rewrite bind_setThis. cbn [this disk].
  unfold addToProjFile. cbn [type createProjectEntry new_ProjectEntry relativePath].
  rewrite !bind_assoc.
  unfold addFileToProjFile. cbv zeta.
  fold (newFileNode relativeFilePath).
  change (bind (bind (findOrCreateItemGroup (Some constants.Build))
                     (fun group => appendChildAt group (ElementNode (newFileNode relativeFilePath))))
               (fun _ => bind serializeToProjFile
                           (fun _ => ret (createProjectEntry p relativeFilePath EntryType.File)))
               (mkWorld (set_files (files p ++ [createProjectEntry p relativeFilePath EntryType.File]) p)
                        files0)
          = bind serializeToProjFile
              (fun _ => ret (createProjectEntry p relativeFilePath EntryType.File))
              (mkWorld (set_projFileXmlDoc (Some (mkDocument root'))
                          (set_files (files p ++ [createProjectEntry p relativeFilePath EntryType.File]) p))
                       files0)).
  rewrite (bind_inr _ _ _ _ _ Hrun). reflexivity.
Qed.

Lemma buildNames_counts path :
  buildNames ->
  List.length (visitNode constants.Build 0 (ElementNode (newFileNode path))) = 1
  /\ tagMatches constants.Build (createElement constants.ItemGroup) = false
  /\ visitNode constants.ItemGroup 0 (ElementNode (newFileNode path)) = []
  /\ tagMatches constants.ItemGroup (createElement constants.ItemGroup) = true
  /\ truthy constants.Build = true
  /\ tagMatches constants.Build (newFileNode path) = true.
Proof.
  intros (Hne & Hstar & Hgstar & Hbg).
  destruct (newFileNode_facts path) as (Htag & Hchildren & _).
  assert (Hb : tagMatches constants.Build (newFileNode path) = true)
    by (apply tagMatches_same; exact Htag).
  split; [|split; [|split; [|split; [|split]]]].
  - rewrite visitNode_childless by exact Hchildren. rewrite Hb. reflexivity.
  - apply tagMatches_false; [exact Hstar|]. simpl. congruence.
  - rewrite visitNode_childless by exact Hchildren.
    rewrite tagMatches_false; [reflexivity | exact Hgstar | rewrite Htag; exact Hbg].
  - apply tagMatches_same. reflexivity.
  - unfold truthy. destruct (String.eqb_spec constants.Build ""); [contradiction | reflexivity].
  - exact Hb.
Qed.


(** X10. [addScriptItem] is not undone when the write of the project file
    fails: for a loaded project, a file that is there and a project file
    path that cannot be written, the call throws, and still the new entry
    stays in [files] and the new script element in the document of the
    project, while the disk is as it was. *)
Theorem addScriptItem_failed_write_keeps_item
    (relativeFilePath : string) (p : Project) (files0 : gmap string Inode) (root : Element) :
  buildNames ->
  projFileXmlDoc p = Some (mkDocument root) ->
  is_Some (files0 !! path_join [projectFolderPath p; relativeFilePath]) ->
  files0 !! projectFilePath p = Some Directory ->
  exists root',
    addScriptItem relativeFilePath None (mkWorld p files0)
    = (inl IOError,
       mkWorld (set_projFileXmlDoc (Some (mkDocument root'))
                  (set_files (files p ++ [createProjectEntry p relativeFilePath EntryType.File])
                             p))
               files0)
    /\ List.length (getElementsByTagName constants.Build root')
       = S (List.length (getElementsByTagName constants.Build root)).
Proof.
  intros Hnames Hd Hthere Hdir.
  destruct (addScriptItem_steps relativeFilePath p files0 root Hd Hthere)
    as (ref & g & root' & Hrun & Hat & Hg & Hplace & Hcount & Hnext).
  destruct (buildNames_counts relativeFilePath Hnames)
    as (Hone & Hbuild & Hnogroup & Hgroup & Htruthy & Hmatch).
  exists root'. split.
  - rewrite Hrun.
    match goal with
    | |- bind serializeToProjFile _ (mkWorld ?p1 _) = _ =>
        rewrite (bind_inl _ _ _ _ _
                   (serializeToProjFile_fails p1 files0 (mkDocument root') eq_refl Hdir))
    end.
    reflexivity.
  - rewrite Hcount, Hbuild, Hone.
    destruct (outputItemGroup (Some constants.Build) root); lia.
Qed.

(** ** addScriptItem and addFolderItem: the files they touch *)

Lemma snd_bind {A B} (m : M A) (k : A -> M B) w :
  snd (bind m k w)
  = match fst (m w) with
    | inr a => snd (k a (snd (m w)))
    | inl _ => snd (m w)
    end.
Proof. unfold bind. destruct (m w) as [[e|a] w1]; reflexivity. Qed.

Lemma fst_bind {A B} (m : M A) (k : A -> M B) w :
  fst (bind m k w)
  = match fst (m w) with
    | inr a => fst (k a (snd (m w)))
    | inl e => inl e
    end.
Proof. unfold bind. destruct (m w) as [[e|a] w1]; reflexivity. Qed.

Lemma makeDirectories_other paths files0 q :
  ~ In q paths -> makeDirectories paths files0 !! q = files0 !! q.
Proof.
  induction paths as [|path paths IH]; intros Hq; cbn [makeDirectories fold_right];
    [reflexivity|].
  rewrite lookup_insert_ne by (intros ->; apply Hq; left; reflexivity).
  apply IH. intros Hin. apply Hq. right. exact Hin.
Qed.

Lemma makeDirectories_made paths files0 q :
  In q paths -> makeDirectories paths files0 !! q = Some Directory.
Proof.
  induction paths as [|path paths IH]; intros Hq; cbn [makeDirectories fold_right];
    [destruct Hq|].
  destruct (decide (path = q)) as [->|Hne].
  - apply lookup_insert_eq.
  - rewrite lookup_insert_ne by exact Hne. apply IH.
    destruct Hq as [Hq|Hq]; [contradiction | exact Hq].
Qed.

(** Where no regular file is above the path, what [fs.mkdir] makes a
    directory was a directory or nothing before. *)
Lemma makeDirectories_kept path files0 q inode :
  fileAbove path files0 = false ->
  files0 !! path = None ->
  files0 !! q = Some inode ->
  makeDirectories (path :: pathsAbove path) files0 !! q = Some inode.
Proof.
  intros Hnone Hpath Hq.
  destruct (in_dec String.string_dec q (path :: pathsAbove path)) as [Hin|Hout];
    [|rewrite makeDirectories_other by exact Hout; exact Hq].
  rewrite (makeDirectories_made _ _ _ Hin).
  destruct Hin as [<-|Hin]; [congruence|].
  destruct inode as [data|]; [|reflexivity].
  unfold fileAbove in Hnone. exfalso.
  assert (Hsome : existsb (fun above => match files0 !! above with
                                        | Some (RegularFile _) => true
                                        | _ => false
                                        end) (pathsAbove path) = true).
  { apply existsb_exists. exists q. split; [exact Hin|]. rewrite Hq. reflexivity. }
  rewrite Hsome in Hnone. discriminate.
Qed.

Lemma fs_mkdir_this path w : this (snd (fs_mkdir path w)) = this w.
Proof.
  unfold fs_mkdir. destruct (disk w !! path) as [[data|]|]; try reflexivity.
  destruct (fileAbove path (disk w)); reflexivity.
Qed.

Lemma fs_mkdir_other path w q :
  q <> path -> ~ In q (pathsAbove path) ->
  disk (snd (fs_mkdir path w)) !! q = disk w !! q.
Proof.
  intros Hq Habove. unfold fs_mkdir. destruct (disk w !! path) as [[data|]|]; try reflexivity.
  destruct (fileAbove path (disk w)); [reflexivity|]. cbn [snd disk].
  apply makeDirectories_other. intros [Hin|Hin]; [congruence | contradiction].
Qed.

Lemma fs_writeFile_this path data w : this (snd (fs_writeFile path data w)) = this w.
Proof. unfold fs_writeFile. destruct (disk w !! path) as [[text|]|]; reflexivity. Qed.

Lemma fs_writeFile_other path data w q :
  q <> path -> disk (snd (fs_writeFile path data w)) !! q = disk w !! q.
Proof.
  intros Hq. unfold fs_writeFile.
  destruct (disk w !! path) as [[text|]|]; try reflexivity;
    simpl; apply lookup_insert_ne; congruence.
Qed.

Lemma fs_writeFile_written path data w :
  fst (fs_writeFile path data w) = inr tt ->
  disk (snd (fs_writeFile path data w)) !! path = Some (RegularFile data).
Proof.
  unfold fs_writeFile.
  destruct (disk w !! path) as [[text|]|]; simpl; try discriminate;
    intros _; apply lookup_insert_eq.
Qed.

Lemma writeContents_this absoluteFilePath contents w :
  this (snd (writeContents absoluteFilePath contents w)) = this w.
Proof.
  unfold writeContents. destruct contents as [text|]; [|reflexivity].
  destruct (truthy text); [|reflexivity].
  rewrite snd_bind. destruct (fst (fs_mkdir _ w)).
  - apply fs_mkdir_this.
  - rewrite fs_writeFile_this. apply fs_mkdir_this.
Qed.

Lemma writeContents_other absoluteFilePath contents w q :
  q <> absoluteFilePath -> q <> path_dirname absoluteFilePath ->
  ~ In q (pathsAbove (path_dirname absoluteFilePath)) ->
  disk (snd (writeContents absoluteFilePath contents w)) !! q = disk w !! q.
Proof.
  intros Hfile Hdir Habove. unfold writeContents. destruct contents as [text|]; [|reflexivity].
  destruct (truthy text); [|reflexivity].
  rewrite snd_bind. destruct (fst (fs_mkdir _ w)).
  - apply fs_mkdir_other; assumption.
  - rewrite fs_writeFile_other by exact Hfile. apply fs_mkdir_other; assumption.
Qed.

Lemma keeps_utils_exists path : keepsOtherFiles (utils_exists path).
Proof. intros w. apply sameElsewhere_refl. Qed.

Lemma keeps_addToProjFile entry : keepsOtherFiles (addToProjFile entry).
Proof.
  unfold addToProjFile. apply keeps_bind; [|intros; apply keeps_serializeToProjFile].
  assert (Hreference : keepsOtherFiles (addDatabaseReferenceToProjFile entry)).
  { unfold addDatabaseReferenceToProjFile. apply keeps_bind.
    - apply keeps_findOrCreateItemGroup.
    - intros group. apply keeps_appendChildAt. }
  destruct (type entry).
  - unfold addFileToProjFile. cbv zeta. apply keeps_bind.
    + apply keeps_findOrCreateItemGroup.
    + intros group. apply keeps_appendChildAt.
  - apply keeps_bind; [|intros; exact Hreference].
    unfold addFolderToProjFile. cbv zeta. apply keeps_bind.
    + apply keeps_findOrCreateItemGroup.
    + intros group. apply keeps_appendChildAt.
  - exact Hreference.
Qed.

Lemma keeps_files_push entry : keepsOtherFiles (files_push entry).
Proof. apply keeps_setThis. intros p. reflexivity. Qed.

Lemma keeps_pushEntry entry :
  keepsOtherFiles
    (bind (files_push entry) (fun _ => bind (addToProjFile entry) (fun _ => ret entry))).
Proof.
  apply keeps_bind; [apply keeps_files_push|]. intros _.
  apply keeps_bind; [apply keeps_addToProjFile|]. intros _. apply keeps_ret.
Qed.

Lemma keeps_addScriptItem_None relativeFilePath :
  keepsOtherFiles (addScriptItem relativeFilePath None).
Proof.
  unfold addScriptItem. apply keeps_bind; [apply keeps_getThis|]. intros this0.
  apply keeps_bind; [apply keeps_ret|]. intros _.
  apply keeps_bind; [apply keeps_utils_exists|]. intros found.
  apply keeps_bind; [destruct found; [apply keeps_ret | apply keeps_throw]|]. intros _.
  apply keeps_pushEntry.
Qed.

Lemma addScriptItem_after_contents relativeFilePath contents w :
  addScriptItem relativeFilePath contents w
  = match writeContents (path_join [projectFolderPath (this w); relativeFilePath]) contents w with
    | (inr _, w1) => addScriptItem relativeFilePath None w1
    | (inl e, w1) => (inl e, w1)
    end.
Proof.
  pose proof (writeContents_this (path_join [projectFolderPath (this w); relativeFilePath])
                                 contents w) as Hthis.
  unfold addScriptItem. rewrite bind_getThis.
  change (match contents with
          | Some text =>
              if truthy text
              then bind (fs_mkdir (path_dirname (path_join [projectFolderPath (this w);
                                                            relativeFilePath])))
                        (fun _ => fs_writeFile (path_join [projectFolderPath (this w);
                                                           relativeFilePath]) text)
              else ret tt
          | None => ret tt
          end)
    with (writeContents (path_join [projectFolderPath (this w); relativeFilePath]) contents).
  unfold bind at 1.
  destruct (writeContents (path_join [projectFolderPath (this w); relativeFilePath]) contents w)
    as [[e|[]] w1]; [reflexivity|].
  simpl in Hthis. rewrite bind_getThis, bind_ret, Hthis. reflexivity.
Qed.

(** X11. [addScriptItem] with contents that are not the empty string, for
    a script path other than the path of the project file: when the call
    succeeds, the file at the script path holds the contents.  Contents
    that are the empty string are treated as no contents at all. *)
Theorem addScriptItem_writes_contents (relativeFilePath text : string) (w : World) :
  text <> "" ->
  path_join [projectFolderPath (this w); relativeFilePath] <> projectFilePath (this w) ->
  succeeded (fst (addScriptItem relativeFilePath (Some text) w)) = true ->
  disk (snd (addScriptItem relativeFilePath (Some text) w))
    !! path_join [projectFolderPath (this w); relativeFilePath]
  = Some (RegularFile text)
  /\ addScriptItem relativeFilePath (Some "") w = addScriptItem relativeFilePath None w.
Proof.
  intros Htext Hother Hok. split; [|reflexivity].
  rewrite addScriptItem_after_contents in Hok |- *.
  pose proof (writeContents_this (path_join [projectFolderPath (this w); relativeFilePath])
                                 (Some text) w) as Hthis.
  assert (Hwritten :
            fst (writeContents (path_join [projectFolderPath (this w); relativeFilePath])
                               (Some text) w) = inr tt ->
            disk (snd (writeContents (path_join [projectFolderPath (this w); relativeFilePath])
                                     (Some text) w))
              !! path_join [projectFolderPath (this w); relativeFilePath]
            = Some (RegularFile text)).
  { unfold writeContents, truthy.
    destruct (String.eqb_spec text ""); [contradiction|]. cbn [negb].
    rewrite fst_bind, snd_bind. destruct (fst (fs_mkdir _ w)); [discriminate|].
    apply fs_writeFile_written. }
  destruct (writeContents (path_join [projectFolderPath (this w); relativeFilePath])
                          (Some text) w) as [[e|[]] w1]; [discriminate|].
  simpl in Hthis, Hwritten.
  destruct (keeps_addScriptItem_None relativeFilePath w1) as [_ Hsame].
  rewrite Hsame by (rewrite Hthis; exact Hother).
  apply Hwritten. reflexivity.
Qed.

(** X12. [addFolderItem] and the folder path (taken to differ from the
    path of the project file).  What is at the path before the call, be it
    a directory or a regular file, is there after it whatever the outcome:
    the method does not check that what it finds is a directory.  When
    nothing is there, [fs.mkdir] is called before the document is touched.
    Where no regular file is above the path, a directory is at the path
    after the call, also when the call throws afterwards; where a regular
    file is above the path, the call throws and changes neither the
    project nor the disk. *)
Theorem addFolderItem_ensures_folder (relativeFolderPath : string) (w : World) :
  path_join [projectFolderPath (this w); relativeFolderPath] <> projectFilePath (this w) ->
  (forall inode,
      disk w !! path_join [projectFolderPath (this w); relativeFolderPath] = Some inode ->
      disk (snd (addFolderItem relativeFolderPath w))
        !! path_join [projectFolderPath (this w); relativeFolderPath]
      = Some inode)
  /\ (disk w !! path_join [projectFolderPath (this w); relativeFolderPath] = None ->
      fileAbove (path_join [projectFolderPath (this w); relativeFolderPath]) (disk w) = false ->
      disk (snd (addFolderItem relativeFolderPath w))
        !! path_join [projectFolderPath (this w); relativeFolderPath]
      = Some Directory)
  /\ (disk w !! path_join [projectFolderPath (this w); relativeFolderPath] = None ->
      fileAbove (path_join [projectFolderPath (this w); relativeFolderPath]) (disk w) = true ->
      addFolderItem relativeFolderPath w = (inl IOError, w)).
Proof.
  intros Hother. split; [|split].
  - intros inode Hthere. unfold addFolderItem. rewrite bind_getThis.
    rewrite (bind_inr _ _ _ _ _ (utils_exists_is_Some _ w (mk_is_Some _ _ Hthere))).
    cbn [negb]. rewrite bind_ret.
    destruct (keeps_pushEntry (createProjectEntry (this w) relativeFolderPath EntryType.Folder) w)
      as [_ Hsame].
    rewrite Hsame by exact Hother. exact Hthere.
  - intros Hthere Hnone. unfold addFolderItem. rewrite bind_getThis.
    rewrite (bind_inr _ _ _ _ _ (utils_exists_None _ w Hthere)). cbn [negb].
    assert (Hmkdir : fs_mkdir (path_join [projectFolderPath (this w); relativeFolderPath]) w
                     = (inr tt,
                        mkWorld (this w)
                          (makeDirectories
                             (path_join [projectFolderPath (this w); relativeFolderPath]
                                :: pathsAbove (path_join [projectFolderPath (this w);
                                                          relativeFolderPath]))
                             (disk w)))).
    { unfold fs_mkdir. rewrite Hthere, Hnone. reflexivity. }
    rewrite (bind_inr _ _ _ _ _ Hmkdir).
    match goal with
    | |- disk (snd (?m ?w1)) !! _ = _ =>
        destruct (keeps_pushEntry
                    (createProjectEntry (this w) relativeFolderPath EntryType.Folder) w1)
          as [_ Hsame]
    end.
    rewrite Hsame by exact Hother. apply makeDirectories_made. left. reflexivity.
  - intros Hthere Hfile. unfold addFolderItem. rewrite bind_getThis.
    rewrite (bind_inr _ _ _ _ _ (utils_exists_None _ w Hthere)). cbn [negb].
    apply bind_inl. unfold fs_mkdir. rewrite Hthere, Hfile. reflexivity.
Qed.

(** X13. The paths [addScriptItem] and [addFolderItem] write to, whatever
    their outcome.  Without contents [addScriptItem] changes nothing on
    the disk but the project file; with contents it changes at most the
    project file, the script file, the directory of the script file and
    the directories above that one; [addFolderItem] changes at most the
    project file, the folder and the directories above the folder. *)
Theorem addItems_touch_named_paths_only (relativePath : string) (w : World) :
  (forall q,
      q <> projectFilePath (this w) ->
      disk (snd (addScriptItem relativePath None w)) !! q = disk w !! q)
  /\ (forall q text,
         q <> projectFilePath (this w) ->
         q <> path_join [projectFolderPath (this w); relativePath] ->
         q <> path_dirname (path_join [projectFolderPath (this w); relativePath]) ->
         ~ In q (pathsAbove
                   (path_dirname (path_join [projectFolderPath (this w); relativePath]))) ->
         disk (snd (addScriptItem relativePath (Some text) w)) !! q = disk w !! q)
  /\ (forall q,
         q <> projectFilePath (this w) ->
         q <> path_join [projectFolderPath (this w); relativePath] ->
         ~ In q (pathsAbove (path_join [projectFolderPath (this w); relativePath])) ->
         disk (snd (addFolderItem relativePath w)) !! q = disk w !! q).
Proof.
  split; [|split].
  - intros q Hq. destruct (keeps_addScriptItem_None relativePath w) as [_ Hsame].
    apply Hsame. exact Hq.
  - intros q text Hq Hfile Hdir Habove. rewrite addScriptItem_after_contents.
    pose proof (writeContents_this (path_join [projectFolderPath (this w); relativePath])
                                   (Some text) w) as Hthis.
    pose proof (writeContents_other (path_join [projectFolderPath (this w); relativePath])
                                    (Some text) w q Hfile Hdir Habove) as Hsame.
    destruct (writeContents (path_join [projectFolderPath (this w); relativePath])
                            (Some text) w) as [[e|[]] w1]; [exact Hsame|].
    simpl in Hthis, Hsame.
    destruct (keeps_addScriptItem_None relativePath w1) as [_ Hrest].
    rewrite Hrest by (rewrite Hthis; exact Hq). exact Hsame.
  - intros q Hq Hfolder Habove. unfold addFolderItem. rewrite bind_getThis.
    unfold bind at 1. unfold utils_exists at 1.
    unfold bind at 1.
    pose proof (fs_mkdir_this (path_join [projectFolderPath (this w); relativePath]) w) as Hthis.
    pose proof (fs_mkdir_other (path_join [projectFolderPath (this w); relativePath]) w q
                               Hfolder Habove)
      as Hsame.
    destruct (negb (bool_decide (is_Some (disk w !! path_join [projectFolderPath (this w);
                                                               relativePath])))).
    + destruct (fs_mkdir (path_join [projectFolderPath (this w); relativePath]) w)
        as [[e|[]] w1]; [exact Hsame|].
      simpl in Hthis, Hsame.
      destruct (keeps_pushEntry (createProjectEntry (this w) relativePath EntryType.Folder) w1)
        as [_ Hrest].
      rewrite Hrest by (rewrite Hthis; exact Hq). exact Hsame.
    + unfold ret at 1.
      destruct (keeps_pushEntry (createProjectEntry (this w) relativePath EntryType.Folder) w)
        as [_ Hrest].
      apply Hrest. exact Hq.
Qed.

(** ** addFolderItem: what a call that can write the project file does *)

Lemma ensureFolder {B} absoluteFolderPath (k : unit -> M B) p files0 :
  (files0 !! absoluteFolderPath = None -> fileAbove absoluteFolderPath files0 = false) ->
  bind (utils_exists absoluteFolderPath)
       (fun exists_ =>
          bind (if negb exists_ then fs_mkdir absoluteFolderPath else ret tt) k)
       (mkWorld p files0)
  = k tt (mkWorld p (withFolder absoluteFolderPath files0)).
Proof.
  intros Hnone. unfold withFolder.
  destruct (files0 !! absoluteFolderPath) as [inode|] eqn:Hthere.
  - rewrite (bind_inr _ _ _ _ _
               (utils_exists_is_Some _ (mkWorld p files0) (mk_is_Some _ _ Hthere))).
    cbn [negb]. apply bind_ret.
  - rewrite (bind_inr _ _ _ _ _ (utils_exists_None _ (mkWorld p files0) Hthere)).
    cbn [negb]. apply bind_inr. unfold fs_mkdir. cbn [disk this].
    rewrite Hthere, (Hnone eq_refl). reflexivity.
Qed.

Lemma withFolder_kept absoluteFolderPath files0 q inode :
  (files0 !! absoluteFolderPath = None -> fileAbove absoluteFolderPath files0 = false) ->
  files0 !! q = Some inode ->
  withFolder absoluteFolderPath files0 !! q = Some inode.
Proof.
  intros Hnone Hq. unfold withFolder.
  destruct (files0 !! absoluteFolderPath) eqn:Hthere; [exact Hq|].
  apply makeDirectories_kept; [exact (Hnone eq_refl) | exact Hthere | exact Hq].
Qed.

(** X19. [addFolderItem] on a loaded project whose project file is on the
    disk, for a folder path other than the path of the project file and
    such that, when nothing is at it, no regular file is above it: the
    call succeeds.  It returns the new folder entry and appends it to
    [files]; when nothing is at the folder path, a directory is made there
    and wherever one is missing above it.  The document gets a childless
    folder element with the relative path as its include attribute, as the
    new last child of the first item group with a folder element below it
    or else of a new item group appended to the root; and then, because
    the folder case of [addToProjFile] runs on into the next case, one
    more item group as last child of the root, with a database reference
    for the entry.  The project file holds that document. *)
Theorem addFolderItem_adds_folder_item
    (relativeFolderPath : string) (p : Project) (files0 : gmap string Inode) (root : Element)
    (original : string) :
  constants.ItemGroup <> "*" ->
  projFileXmlDoc p = Some (mkDocument root) ->
  files0 !! projectFilePath p = Some (RegularFile original) ->
  path_join [projectFolderPath p; relativeFolderPath] <> projectFilePath p ->
  (files0 !! path_join [projectFolderPath p; relativeFolderPath] = None ->
   fileAbove (path_join [projectFolderPath p; relativeFolderPath]) files0 = false) ->
  exists ref g root',
    addFolderItem relativeFolderPath (mkWorld p files0)
    = (inr (createProjectEntry p relativeFolderPath EntryType.Folder),
       mkWorld
         (set_projFileXmlDoc
            (Some (mkDocument
                     (appendChild
                        (ElementNode
                           (mkElement constants.ItemGroup []
                              [ElementNode
                                 (referenceNode
                                    (createProjectEntry p relativeFolderPath
                                                        EntryType.Folder))]))
                        root')))
            (set_files (files p ++ [createProjectEntry p relativeFolderPath EntryType.Folder])
                       p))
         (<[projectFilePath p :=
              RegularFile
                (serializeToString
                   (mkDocument
                      (appendChild
                         (ElementNode
                            (mkElement constants.ItemGroup []
                               [ElementNode
                                  (referenceNode
                                     (createProjectEntry p relativeFolderPath
                                                         EntryType.Folder))]))
                         root')))]>
            (withFolder (path_join [projectFolderPath p; relativeFolderPath]) files0)))
    /\ elementAt ref root'
       = Some (appendChild (ElementNode (newFolderNode relativeFolderPath)) g)
    /\ tagName g = constants.ItemGroup
    /\ (tagName (newFolderNode relativeFolderPath) = constants.Folder
        /\ childNodes (newFolderNode relativeFolderPath) = []
        /\ getAttribute constants.Include (newFolderNode relativeFolderPath)
           = relativeFolderPath)
    /\ match outputItemGroup (Some constants.Folder) root with
       | Some found =>
           ref = found /\ elementAt ref root = Some g
           /\ updateAt ref (appendChild (ElementNode (newFolderNode relativeFolderPath))) root
              = Some root'
       | None =>
           ref = [List.length (childNodes root)] /\ g = createElement constants.ItemGroup
           /\ root' = appendChild
                        (ElementNode
                           (appendChild (ElementNode (newFolderNode relativeFolderPath)) g))
                        root
       end.
Proof.
  intros Hgroup Hd Hfile Hother Hnone.
  destruct (appendToItemGroup_place (Some constants.Folder) (newFolderNode relativeFolderPath)
              (set_files (files p ++ [createProjectEntry p relativeFolderPath EntryType.Folder])
                         p)
              (withFolder (path_join [projectFolderPath p; relativeFolderPath]) files0)
              root Hd)
    as (ref & g & root' & Hrun & Hat & Hg & Hplace & _ & _).
  exists ref, g, root'.
  split; [|split; [exact Hat|split; [|split; [|exact Hplace]]]].
  - unfold addFolderItem. rewrite bind_getThis. cbn [this].
    rewrite (ensureFolder _ _ _ _ Hnone).
    unfold files_push. rewrite bind_setThis. cbn [this disk].
    unfold addToProjFile. cbn [type createProjectEntry new_ProjectEntry relativePath].
    rewrite 2 bind_assoc.
    unfold addFolderToProjFile. cbv zeta.
    fold (newFolderNode relativeFolderPath).
    rewrite (bind_inr _ _ _ _ _ Hrun). cbv beta.
    match goal with
    | |- bind (addDatabaseReferenceToProjFile ?entry) _ ?w1 = _ =>
        rewrite (bind_inr _ _ _ _ _
                   (addDatabaseReferenceToProjFile_document entry w1 (mkDocument root') eq_refl))
    end.
    unfold withRoot. cbn [documentElement this disk].
    match goal with
    | |- bind serializeToProjFile _ (mkWorld ?p1 ?files1) = _ =>
        rewrite (bind_inr _ _ _ _ _
                   (serializeToProjFile_writes p1 files1 _ eq_refl
                      ltac:(cbn [projectFilePath set_projFileXmlDoc set_files];
                            rewrite (withFolder_kept _ _ _ _ Hnone Hfile);
                            discriminate)))
    end.
    reflexivity.
  - apply tagMatches_true_tagName; [exact Hgroup | exact Hg].
  - unfold newFolderNode. rewrite tagName_setAttribute, childNodes_setAttribute.
    rewrite getAttribute_setAttribute_eq. auto.
Qed.

(** ** getMasterDacpac, changeDSP and addMasterDatabaseReference *)

Lemma getMasterDacpac_this w : snd (getMasterDacpac w) = w.
Proof.
  unfold getMasterDacpac, getDoc, bind, getThis, ret, throw.
  destruct (projFileXmlDoc (this w)) as [d|]; [|reflexivity].
  destruct (Document_getElementsByTagName constants.DSP d) as [|dspNode [|]]; try reflexivity.
  destruct (childNodes dspNode) as [|child [|]]; try reflexivity.
  destruct (nodeValue child) as [dsp|]; [|reflexivity].
  destruct (TargetPlatform.includes (dspVersion dsp)); reflexivity.
Qed.

Lemma getMasterDacpac_text w d dspNode dsp :
  projFileXmlDoc (this w) = Some d ->
  Document_getElementsByTagName constants.DSP d = [dspNode] ->
  childNodes dspNode = [TextNode dsp] ->
  getMasterDacpac w
  = (if TargetPlatform.includes (dspVersion dsp)
     then inr (Uri_parse (path_join ["$(NETCoreTargetsPath)"; "SystemDacpacs";
                                     dspVersion dsp; "master.dacpac"]))
     else inl invalidDataSchemaProvider,
     w).
Proof.
  intros Hd Hdsp Hchild. unfold getMasterDacpac.
  rewrite (bind_inr _ _ _ _ _ (getDoc_Some w _ Hd)). rewrite Hdsp, Hchild.
  cbn [nodeValue]. destruct (TargetPlatform.includes (dspVersion dsp)); reflexivity.
Qed.

(** X14. The outcomes of [getMasterDacpac].  It never changes the project
    or the disk.  It returns a Uri exactly when the document is loaded,
    has one schema provider element, that element has one child, the
    child is text, and the version cut out of the text is a target
    platform; the Uri is then made of that version.  A document with
    another number of schema provider elements, or a schema provider
    element with another number of children, gives the invalid schema
    provider error; a single child that is an element, and a document
    that is not loaded, give a type error. *)
Theorem getMasterDacpac_outcomes (w : World) :
  snd (getMasterDacpac w) = w
  /\ (forall uri,
         fst (getMasterDacpac w) = inr uri <->
         exists d dspNode dsp,
           projFileXmlDoc (this w) = Some d
           /\ Document_getElementsByTagName constants.DSP d = [dspNode]
           /\ childNodes dspNode = [TextNode dsp]
           /\ TargetPlatform.includes (dspVersion dsp) = true
           /\ uri = Uri_parse (path_join ["$(NETCoreTargetsPath)"; "SystemDacpacs";
                                          dspVersion dsp; "master.dacpac"]))
  /\ (forall d,
         projFileXmlDoc (this w) = Some d ->
         List.length (Document_getElementsByTagName constants.DSP d) <> 1 ->
         fst (getMasterDacpac w) = inl invalidDataSchemaProvider)
  /\ (forall d dspNode,
         projFileXmlDoc (this w) = Some d ->
         Document_getElementsByTagName constants.DSP d = [dspNode] ->
         List.length (childNodes dspNode) <> 1 ->
         fst (getMasterDacpac w) = inl invalidDataSchemaProvider)
  /\ (forall d dspNode e,
         projFileXmlDoc (this w) = Some d ->
         Document_getElementsByTagName constants.DSP d = [dspNode] ->
         childNodes dspNode = [ElementNode e] ->
         fst (getMasterDacpac w) = inl TypeError)
  /\ (projFileXmlDoc (this w) = None -> fst (getMasterDacpac w) = inl TypeError).
Proof.
  split; [apply getMasterDacpac_this|]. split; [|split; [|split; [|split]]].
  - intros uri. split.
    + unfold getMasterDacpac, getDoc, bind, getThis, ret, throw.
      destruct (projFileXmlDoc (this w)) as [d|]; [|discriminate].
      destruct (Document_getElementsByTagName constants.DSP d) as [|dspNode [|]] eqn:Hdsp;
        try discriminate.
      destruct (childNodes dspNode) as [|child [|]] eqn:Hchild; try discriminate.
      destruct child as [e|dsp]; [discriminate|]. cbn [nodeValue].
      destruct (TargetPlatform.includes (dspVersion dsp)) eqn:Hversion; [|discriminate].
      simpl. intros Heq. injection Heq as <-.
      exists d, dspNode, dsp. auto.
    + intros (d & dspNode & dsp & Hd & Hdsp & Hchild & Hversion & ->).
      rewrite (getMasterDacpac_text w d dspNode dsp Hd Hdsp Hchild), Hversion. reflexivity.
  - intros d Hd Hcount. unfold getMasterDacpac.
    rewrite (bind_inr _ _ _ _ _ (getDoc_Some w _ Hd)).
    destruct (Document_getElementsByTagName constants.DSP d) as [|dspNode [|]];
      [reflexivity | simpl in Hcount; congruence | reflexivity].
  - intros d dspNode Hd Hdsp Hcount. unfold getMasterDacpac.
    rewrite (bind_inr _ _ _ _ _ (getDoc_Some w _ Hd)). rewrite Hdsp.
    destruct (childNodes dspNode) as [|child [|]];
      [reflexivity | simpl in Hcount; congruence | reflexivity].
  - intros d dspNode e Hd Hdsp Hchild. unfold getMasterDacpac.
    rewrite (bind_inr _ _ _ _ _ (getDoc_Some w _ Hd)). rewrite Hdsp, Hchild. reflexivity.
  - intros Hd. unfold getMasterDacpac, getDoc, bind, getThis. rewrite Hd. reflexivity.
Qed.

Lemma changeDSP_document compatLevel w d dspNode old :
  projFileXmlDoc (this w) = Some d ->
  Document_getElementsByTagName constants.DSP d = [dspNode] ->
  childNodes dspNode = [TextNode old] ->
  exists root',
    changeDSP compatLevel w = (inr tt, withRoot root' w)
    /\ Document_getElementsByTagName constants.DSP (mkDocument root')
       = [mkElement (tagName dspNode) (attributes dspNode)
            [TextNode (constants.MicrosoftDatatoolsSchemaSqlSql +:+ compatLevel
                         +:+ constants.databaseSchemaProvider)]].
Proof.
  intros Hd Hdsp Hchild. destruct d as [root].
  unfold changeDSP. cbv zeta.
  rewrite (bind_inr _ _ _ _ _ (getDoc_Some w _ Hd)).
  unfold Document_firstElementByTagName.
  unfold Document_getElementsByTagName in Hdsp. cbn [documentElement] in *.
  destruct (tagMatches constants.DSP root) eqn:Hroot.
  - simpl in Hdsp. injection Hdsp as Hsame Hbelow. subst dspNode.
    apply map_eq_nil in Hbelow.
    cbn [app head]. cbv beta iota. rewrite Hchild. cbn [updateAt setNodeValue].
    eexists. split; [reflexivity|].
    unfold Document_getElementsByTagName. cbn [documentElement].
    rewrite (tagMatches_tagName constants.DSP root) by reflexivity. rewrite Hroot.
    reflexivity.
  - simpl in Hdsp.
    destruct (getElementsByTagName constants.DSP root) as [|[ref x] [|]] eqn:Hfound;
      simpl in Hdsp; try discriminate.
    injection Hdsp as ->. cbn [app head]. cbv beta iota. rewrite Hchild.
    assert (Hin : In (ref, dspNode) (getElementsByTagName constants.DSP root))
      by (rewrite Hfound; left; reflexivity).
    destruct (getElementsByTagName_elementAt _ _ _ _ Hin) as (Hat & _ & _).
    set (f := fun e : Element =>
                mkElement (tagName e) (attributes e)
                  [setNodeValue (constants.MicrosoftDatatoolsSchemaSqlSql +:+ compatLevel
                                   +:+ constants.databaseSchemaProvider) (TextNode old)]).
    destruct (updateAt_is_Some ref f root dspNode Hat) as [root' Hup].
    rewrite Hup. exists root'. split; [reflexivity|].
    assert (Hbelow : map fst (getElementsByTagName constants.DSP (f dspNode))
                     = map fst (getElementsByTagName constants.DSP dspNode)).
    { destruct dspNode as [t a cs]. simpl in Hchild. subst cs. reflexivity. }
    destruct (updateAt_places constants.DSP f ref root root' dspNode Hat Hup eq_refl Hbelow)
      as [Htag Hplaces].
    unfold Document_getElementsByTagName. cbn [documentElement].
    rewrite (tagMatches_tagName constants.DSP root root' Htag), Hroot. cbn [app].
    rewrite Hfound in Hplaces. simpl in Hplaces.
    destruct (getElementsByTagName constants.DSP root') as [|[r x] [|]] eqn:Hfound';
      simpl in Hplaces; try discriminate.
    injection Hplaces as ->.
    assert (Hin' : In (ref, x) (getElementsByTagName constants.DSP root'))
      by (rewrite Hfound'; left; reflexivity).
    destruct (getElementsByTagName_elementAt _ _ _ _ Hin') as (Hat' & _ & _).
    rewrite (elementAt_updateAt ref f root root' dspNode Hat Hup) in Hat'.
    injection Hat' as <-. reflexivity.
Qed.

(** X15. [changeDSP] and then [getMasterDacpac], on a loaded project whose
    document has one schema provider element with one text child:
    [changeDSP] succeeds, writes nothing to the disk and leaves [files]
    alone, and [getMasterDacpac] then answers for the new compatibility
    level: the Uri of its master dacpac when the level is a target
    platform, the invalid schema provider error when it is not. *)
Theorem changeDSP_then_getMasterDacpac
    (compatLevel : string) (w : World) (d : Document) (dspNode : Element) (old : string) :
  projFileXmlDoc (this w) = Some d ->
  Document_getElementsByTagName constants.DSP d = [dspNode] ->
  childNodes dspNode = [TextNode old] ->
  fst (changeDSP compatLevel w) = inr tt
  /\ disk (snd (changeDSP compatLevel w)) = disk w
  /\ files (this (snd (changeDSP compatLevel w))) = files (this w)
  /\ fst (getMasterDacpac (snd (changeDSP compatLevel w)))
     = (if TargetPlatform.includes compatLevel
        then inr (Uri_parse (path_join ["$(NETCoreTargetsPath)"; "SystemDacpacs";
                                        compatLevel; "master.dacpac"]))
        else inl invalidDataSchemaProvider).
Proof.
  intros Hd Hdsp Hchild.
  destruct (changeDSP_document compatLevel w d dspNode old Hd Hdsp Hchild)
    as (root' & Hrun & Hdsp').
  rewrite Hrun. cbn [fst snd]. repeat split.
  rewrite (getMasterDacpac_text (withRoot root' w) (mkDocument root') _ _ eq_refl Hdsp' eq_refl).
  rewrite dspVersion_pattern. reflexivity.
Qed.

Lemma getAttribute_referenceNode_Include entry :
  getAttribute constants.Include (referenceNode entry) = fsPath (fsUri entry).
Proof.
  unfold referenceNode. cbv zeta.
  destruct (databaseLocation entry) as [[|]|];
    rewrite ?getAttribute_appendChild; apply getAttribute_setAttribute_eq.
Qed.

(** A method up to its first wait and then the rest is the method
    awaited. *)
Lemma addDatabaseReference_started_then_rest uri location databaseName w :
  bind (addDatabaseReference_started uri location databaseName) (fun rest => rest) w
  = addDatabaseReference uri location databaseName w.
Proof.
  unfold addDatabaseReference_started, addDatabaseReference, addToProjFile_started,
    addToProjFile. cbv zeta. cbn [type new_DatabaseReferenceProjectEntry].
  set (m := addDatabaseReferenceToProjFile _).
  clearbody m.
  cbv [serializeToProjFile_started serializeToProjFile bind getDoc getThis ret throw].
  destruct (m w) as [[e|[]] w1]; [reflexivity|].
  destruct (projFileXmlDoc (this w1)); reflexivity.
Qed.

(** X16. [addMasterDatabaseReference].  When [getMasterDacpac] throws, the
    method throws the same error and changes nothing.  When it returns a
    Uri, the method reports success with the write of the project file
    still to come: the document has a new last item group with the
    reference for that Uri (a database on the same server, named master),
    whose include attribute is the path of the Uri; nothing else of the
    project has changed and nothing has been written; what is still to
    do is the write of the text of that document to the project file.
    Done next, it leaves project and disk as [addDatabaseReference] awaited
    leaves them; where the project file cannot be written it fails, after
    the method has reported success. *)
Theorem addMasterDatabaseReference_outcome (w : World) :
  (forall e, fst (getMasterDacpac w) = inl e -> addMasterDatabaseReference w = (inl e, w))
  /\ (forall uri d,
         fst (getMasterDacpac w) = inr uri ->
         projFileXmlDoc (this w) = Some d ->
         addMasterDatabaseReference w
         = (inr (fs_writeFile
                   (projectFilePath (this w))
                   (serializeToString
                      (mkDocument (withReference (masterEntry uri) (documentElement d))))),
            mkWorld
              (set_projFileXmlDoc
                 (Some (mkDocument (withReference (masterEntry uri) (documentElement d))))
                 (this w))
              (disk w))
         /\ getAttribute constants.Include (referenceNode (masterEntry uri)) = fsPath uri
         /\ bind addMasterDatabaseReference (fun rest => rest) w
            = addDatabaseReference uri DatabaseReferenceLocation.differentDatabaseSameServer
                                   (Some constants.master) w
         /\ (disk w !! projectFilePath (this w) = Some Directory ->
             bind addMasterDatabaseReference (fun rest => rest) w
             = (inl IOError,
                mkWorld
                  (set_projFileXmlDoc
                     (Some (mkDocument (withReference (masterEntry uri) (documentElement d))))
                     (this w))
                  (disk w)))).
Proof.
  pose proof (getMasterDacpac_this w) as Hthis.
  split.
  - intros e He. unfold addMasterDatabaseReference.
    destruct (getMasterDacpac w) as [r w1] eqn:Hrun. simpl in He, Hthis. subst r w1.
    apply (bind_inl _ _ _ _ _ Hrun).
  - intros uri d Huri Hd.
    destruct (getMasterDacpac w) as [r w1] eqn:Hrun. simpl in Huri, Hthis. subst r w1.
    assert (Hstarted :
              addDatabaseReference_started uri
                DatabaseReferenceLocation.differentDatabaseSameServer (Some constants.master) w
              = (inr (fs_writeFile
                        (projectFilePath (this w))
                        (serializeToString
                           (mkDocument (withReference (masterEntry uri) (documentElement d))))),
                 mkWorld
                   (set_projFileXmlDoc
                      (Some (mkDocument (withReference (masterEntry uri) (documentElement d))))
                      (this w))
                   (disk w))).
    { unfold addDatabaseReference_started, addToProjFile_started. cbv zeta.
      cbn [type new_DatabaseReferenceProjectEntry].
      rewrite (bind_inr _ _ _ _ _ (addDatabaseReferenceToProjFile_document _ w d Hd)).
      unfold serializeToProjFile_started.
      rewrite (bind_inr _ _ _ _ _ (getDoc_withRoot _ w)). reflexivity. }
    assert (Hcall : addMasterDatabaseReference w
                    = addDatabaseReference_started uri
                        DatabaseReferenceLocation.differentDatabaseSameServer
                        (Some constants.master) w).
    { unfold addMasterDatabaseReference. rewrite (bind_inr _ _ _ _ _ Hrun).
      unfold called. rewrite Hstarted. reflexivity. }
    assert (Hrest : bind addMasterDatabaseReference (fun rest => rest) w
                    = addDatabaseReference uri
                        DatabaseReferenceLocation.differentDatabaseSameServer
                        (Some constants.master) w).
    { rewrite <- addDatabaseReference_started_then_rest. unfold bind. rewrite Hcall.
      reflexivity. }
    split; [rewrite Hcall; exact Hstarted|].
    split; [apply getAttribute_referenceNode_Include|].
    split; [exact Hrest|].
    intros Hdir. unfold bind. rewrite Hcall, Hstarted.
    unfold fs_writeFile. cbn [disk this set_projFileXmlDoc projectFilePath].
    rewrite Hdir. reflexivity.
Qed.

(** ** readProjFile: what it reads *)

Lemma forEach_state {A} (l : list A) (body : A -> M unit) (step : A -> Project -> Project) :
  (forall x, In x l -> forall w, body x w = (inr tt, mkWorld (step x (this w)) (disk w))) ->
  forall w,
    forEach l body w = (inr tt, mkWorld (fold_left (fun p x => step x p) l (this w)) (disk w)).
Proof.
  induction l as [|x l IH]; intros Hbody w.
  - destruct w. reflexivity.
  - cbn [forEach fold_left]. rewrite (bind_inr _ _ _ _ _ (Hbody x (or_introl eq_refl) w)).
    rewrite IH by (intros y Hy; apply Hbody; right; exact Hy). reflexivity.
Qed.

Lemma forEach_app {A} (l1 l2 : list A) (body : A -> M unit) w :
  forEach (l1 ++ l2) body w = bind (forEach l1 body) (fun _ => forEach l2 body) w.
Proof.
  revert w. induction l1 as [|x l1 IH]; intros w; [reflexivity|].
  cbn [app forEach]. rewrite bind_assoc.
  destruct (body x w) as [[e|[]] w1] eqn:Hbody.
  - rewrite !(bind_inl _ _ _ _ _ Hbody). reflexivity.
  - rewrite !(bind_inr _ _ _ _ _ Hbody). apply IH.
Qed.

Lemma set_files_same p : set_files (files p) p = p.
Proof. destruct p. reflexivity. Qed.

Lemma fold_files {A} (l : list A) (entries : Project -> A -> list ProjectEntry) :
  (forall p fs x, entries (set_files fs p) x = entries p x) ->
  forall p,
    fold_left (fun p x => set_files (files p ++ entries p x) p) l p
    = set_files (files p ++ flat_map (entries p) l) p.
Proof.
  intros Hentries. induction l as [|x l IH]; intros p; cbn [fold_left flat_map].
  - rewrite app_nil_r. symmetry. apply set_files_same.
  - rewrite IH.
    rewrite (flat_map_ext (entries (set_files (files p ++ entries p x) p)) (entries p))
      by (intros y; apply Hentries).
    unfold set_files. cbn [files projectFilePath projectFileName
      importedTargets sqlCmdVariables projFileXmlDoc].
    rewrite <- app_assoc. reflexivity.
Qed.

Lemma fold_targets {A} (l : list A) (target : A -> string) :
  forall p,
    fold_left (fun p x => set_importedTargets (importedTargets p ++ [target x]) p) l p
    = set_importedTargets (importedTargets p ++ map target l) p.
Proof.
  induction l as [|x l IH]; intros p; cbn [fold_left map].
  - rewrite app_nil_r. destruct p. reflexivity.
  - rewrite IH. unfold set_importedTargets. cbn. rewrite <- app_assoc. reflexivity.
Qed.

Lemma fold_variables {A} (l : list A) (step : JSObject -> A -> JSObject) :
  forall p,
    fold_left (fun p x => set_sqlCmdVariables (step (sqlCmdVariables p) x) p) l p
    = set_sqlCmdVariables (fold_left step l (sqlCmdVariables p)) p.
Proof.
  induction l as [|x l IH]; intros p; cbn [fold_left].
  - destruct p. reflexivity.
  - rewrite IH. reflexivity.
Qed.

Lemma flat_map_singleton {A B} (f : A -> B) (l : list A) :
  flat_map (fun x => [f x]) l = map f l.
Proof. induction l as [|x l IH]; simpl; [reflexivity | rewrite IH; reflexivity]. Qed.

Lemma forEach_files_push {A} (l : list A) (entry : Project -> A -> ProjectEntry) w :
  (forall p fs x, entry (set_files fs p) x = entry p x) ->
  forEach l (fun x => bind getThis (fun this0 => files_push (entry this0 x))) w
  = (inr tt, mkWorld (set_files (files (this w) ++ map (entry (this w)) l) (this w)) (disk w)).
Proof.
  intros Hentry.
  rewrite (forEach_state l _ (fun x p => set_files (files p ++ [entry p x]) p))
    by (intros; reflexivity).
  rewrite (fold_files l (fun p x => [entry p x]))
    by (intros; rewrite Hentry; reflexivity).
  rewrite flat_map_singleton. reflexivity.
Qed.

(** The scans up to the first variable without a default value. *)
Lemma scanProjFile_outcome root p files0 before rest :
  getElementsByTagName constants.SqlCmdVariable root = before ++ rest ->
  Forall (fun v => is_Some (defaultValueOf v)) before ->
  match rest with
  | [] => True
  | sqlCmdVar :: _ => defaultValueOf sqlCmdVar = None
  end ->
  scanProjFile root (mkWorld p files0)
  = (match rest with
     | [] => inr tt
     | _ :: _ => inl TypeError
     end,
     mkWorld (set_sqlCmdVariables (fold_left readVariable before (sqlCmdVariables p))
                (set_importedTargets (importedTargets p ++ readTargets root)
                   (set_files (files p ++ readEntries p root) p)))
             files0).
Proof.
  intros Hlist Hdefaults Hrest. unfold scanProjFile.
  rewrite (bind_inr _ _ _ tt (mkWorld (set_files (files p ++ readEntries p root) p) files0)).
  - rewrite (bind_inr _ _ _ tt
               (mkWorld (set_importedTargets (importedTargets p ++ readTargets root)
                           (set_files (files p ++ readEntries p root) p)) files0)).
    + rewrite Hlist, forEach_app.
      rewrite (bind_inr _ _ _ tt
                 (mkWorld (set_sqlCmdVariables
                             (fold_left readVariable before (sqlCmdVariables p))
                             (set_importedTargets (importedTargets p ++ readTargets root)
                                (set_files (files p ++ readEntries p root) p)))
                          files0)).
      * destruct rest as [|bad after]; [reflexivity|].
        cbn [forEach]. unfold defaultValueOf in Hrest. unfold bind at 1.
        destruct (getElementsByTagName constants.DefaultValue (snd bad)) as [|dv others];
          [reflexivity|].
        destruct (childNodes (snd dv)) as [|child more]; [reflexivity | discriminate].
      * rewrite (forEach_state _ _
                   (fun v p => set_sqlCmdVariables (readVariable (sqlCmdVariables p) v) p)).
        -- rewrite (fold_variables _ readVariable). reflexivity.
        -- intros v Hv w. rewrite Forall_forall in Hdefaults.
           destruct (Hdefaults v (proj2 (list_elem_of_In _ _) Hv)) as [value Hvalue].
           unfold readVariable. rewrite Hvalue.
           unfold defaultValueOf in Hvalue.
           destruct (getElementsByTagName constants.DefaultValue (snd v)) as [|dv others];
             [discriminate|].
           destruct (childNodes (snd dv)) as [|child more]; [discriminate|].
           injection Hvalue as <-. reflexivity.
    + rewrite (forEach_state _ _
                 (fun i p => set_importedTargets
                               (importedTargets p ++ [getAttribute constants.Project (snd i)]) p))
        by (intros; reflexivity).
      rewrite (fold_targets _ (fun i => getAttribute constants.Project (snd i))).
      reflexivity.
  - rewrite (forEach_state _ _ (fun ig p => set_files (files p ++ entriesOf p ig) p)).
    + rewrite (fold_files _ entriesOf) by (intros; reflexivity). reflexivity.
    + intros ig _ w.
      rewrite (bind_inr _ _ _ _ _
                 (forEach_files_push _
                    (fun p b => createProjectEntry p (getAttribute constants.Include (snd b))
                                                   EntryType.File)
                    w (fun _ _ _ => eq_refl))).
      rewrite (forEach_files_push _
                 (fun p b => createProjectEntry p (getAttribute constants.Include (snd b))
                                                EntryType.Folder)
                 _ (fun _ _ _ => eq_refl)).
      unfold entriesOf, set_files. cbn [this disk files projectFilePath projectFileName
        importedTargets sqlCmdVariables projFileXmlDoc]. rewrite <- app_assoc. reflexivity.
Qed.

Lemma readProjFile_reads p files0 text d :
  files0 !! projectFilePath p = Some (RegularFile text) ->
  parseFromString text = Some d ->
  Forall (fun v => is_Some (defaultValueOf v))
         (getElementsByTagName constants.SqlCmdVariable (documentElement d)) ->
  readProjFile (mkWorld p files0) = (inr tt, mkWorld (afterRead d p) files0).
Proof.
  intros Hfile Hparse Hdefaults. unfold readProjFile. rewrite bind_getThis.
  unfold bind at 1. unfold fs_readFile. cbn [this disk]. rewrite Hfile, Hparse.
  rewrite bind_setThis. cbn [this disk].
  rewrite (scanProjFile_outcome _ _ files0
             (getElementsByTagName constants.SqlCmdVariable (documentElement d)) []
             (eq_sym (app_nil_r _)) Hdefaults I).
  reflexivity.
Qed.

(** *** Assignments to the plain object *)

Lemma lookup_setProperty_ne name' name value (o : JSObject) :
  name' <> name -> setProperty name' value o !! name = o !! name.
Proof.
  intros Hne.
  assert (Hassigned :
            mkJSObject (<[name' := value]> (ownProperties o)) (inheritsObjectPrototype o)
              !! name
            = o !! name).
  { unfold lookup, JSObject_lookup. cbn [ownProperties]. apply lookup_insert_ne. exact Hne. }
  unfold setProperty. cbv zeta. destruct (ownProperties o !! name'); [exact Hassigned|].
  destruct (String.eqb name' "__proto__" && inheritsObjectPrototype o); [|exact Hassigned].
  destruct value; reflexivity.
Qed.

Lemma lookup_setProperty_eq name value (o : JSObject) :
  name <> "__proto__" -> setProperty name value o !! name = Some value.
Proof.
  intros Hname. unfold setProperty. cbv zeta.
  rewrite (proj2 (String.eqb_neq _ _) Hname). cbn [andb].
  destruct (ownProperties o !! name);
    unfold lookup, JSObject_lookup; cbn [ownProperties]; apply lookup_insert_eq.
Qed.

Lemma fold_readVariable_other (l : list (Path * Element)) name :
  Forall (fun v => variableName v <> name) l ->
  forall m, fold_left readVariable l m !! name = m !! name.
Proof.
  induction 1 as [|v l Hv Hl IH]; intros m; cbn [fold_left]; [reflexivity|].
  rewrite IH. unfold readVariable. destruct (defaultValueOf v); [|reflexivity].
  apply lookup_setProperty_ne. exact Hv.
Qed.

(** While every variable named [__proto__] has a text as value, an object
    that has its prototype and no own property of that name stays so. *)
Lemma fold_readVariable_proto (l : list (Path * Element)) :
  Forall protoWithText l ->
  forall m,
    inheritsObjectPrototype m = true ->
    m !! "__proto__" = None ->
    fold_left readVariable l m !! "__proto__" = None
    /\ inheritsObjectPrototype (fold_left readVariable l m) = true.
Proof.
  induction 1 as [|v l Hv Hl IH]; intros m Hm Hnone; cbn [fold_left];
    [split; [exact Hnone | exact Hm]|].
  assert (Hstep : readVariable m v !! "__proto__" = None
                  /\ inheritsObjectPrototype (readVariable m v) = true).
  { unfold readVariable. destruct (defaultValueOf v) as [value|] eqn:Hvalue;
      [|split; [exact Hnone | exact Hm]].
    fold (variableName v).
    destruct (String.eqb (variableName v) "__proto__") eqn:Hname.
    - apply String.eqb_eq in Hname. destruct (Hv Hname) as [text Htext].
      rewrite Hvalue in Htext. injection Htext as ->.
      unfold setProperty. cbv zeta. rewrite Hname.
      change (ownProperties m !! "__proto__") with (m !! "__proto__").
      rewrite Hnone, Hm. split; [exact Hnone | exact Hm].
    - apply String.eqb_neq in Hname. split.
      + rewrite lookup_setProperty_ne by exact Hname. exact Hnone.
      + unfold setProperty. cbv zeta. rewrite (proj2 (String.eqb_neq _ _) Hname).
        cbn [andb]. destruct (ownProperties m !! variableName v); exact Hm. }
  destruct Hstep as [Hlookup Hinherits].
  exact (IH (readVariable m v) Hinherits Hlookup).
Qed.

(** A name other than [__proto__] is an own property as in a map. *)
Lemma readVariable_plain v (m : JSObject) :
  variableName v <> "__proto__" ->
  readVariable m v
  = mkJSObject (readOwnProperty (ownProperties m) v) (inheritsObjectPrototype m).
Proof.
  intros Hname. unfold readVariable, readOwnProperty.
  destruct (defaultValueOf v) as [value|]; [|destruct m; reflexivity].
  fold (variableName v). unfold setProperty. cbv zeta.
  rewrite (proj2 (String.eqb_neq _ _) Hname). cbn [andb].
  destruct (ownProperties m !! variableName v); reflexivity.
Qed.

Lemma fold_readVariable_plain (l : list (Path * Element)) :
  Forall (fun v => variableName v <> "__proto__") l ->
  forall m,
    fold_left readVariable l m
    = mkJSObject (fold_left readOwnProperty l (ownProperties m)) (inheritsObjectPrototype m).
Proof.
  induction 1 as [|v l Hv Hl IH]; intros m; cbn [fold_left]; [destruct m; reflexivity|].
  rewrite IH, (readVariable_plain v m Hv). reflexivity.
Qed.

Lemma fold_readOwnProperty_congr (l : list (Path * Element)) name :
  forall m m' : gmap string (option string),
    m !! name = m' !! name ->
    fold_left readOwnProperty l m !! name = fold_left readOwnProperty l m' !! name.
Proof.
  induction l as [|v l IH]; intros m m' Hsame; cbn [fold_left]; [exact Hsame|].
  apply IH. unfold readOwnProperty. destruct (defaultValueOf v); [|exact Hsame].
  destruct (decide (variableName v = name)) as [->|Hne].
  - rewrite !lookup_insert_eq. reflexivity.
  - rewrite !lookup_insert_ne by exact Hne. exact Hsame.
Qed.

Lemma readOwnProperty_absorbs (l : list (Path * Element)) v m :
  readOwnProperty (fold_left readOwnProperty l (readOwnProperty m v)) v
  = readOwnProperty (fold_left readOwnProperty l m) v.
Proof.
  destruct (defaultValueOf v) as [value|] eqn:Hvalue.
  - assert (Hread : forall m', readOwnProperty m' v = <[variableName v := value]> m')
      by (intros m'; unfold readOwnProperty; rewrite Hvalue; reflexivity).
    rewrite !Hread. apply map_eq. intros name.
    destruct (decide (variableName v = name)) as [->|Hne].
    + rewrite !lookup_insert_eq. reflexivity.
    + rewrite !lookup_insert_ne by exact Hne. apply fold_readOwnProperty_congr.
      apply lookup_insert_ne. exact Hne.
  - assert (Hread : forall m', readOwnProperty m' v = m')
      by (intros m'; unfold readOwnProperty; rewrite Hvalue; reflexivity).
    rewrite !Hread. reflexivity.
Qed.

Lemma fold_readOwnProperty_absorbs (l : list (Path * Element)) :
  forall l' m,
    fold_left readOwnProperty l
      (fold_left readOwnProperty l' (fold_left readOwnProperty l m))
    = fold_left readOwnProperty l (fold_left readOwnProperty l' m).
Proof.
  induction l as [|v l IH] using rev_ind; intros l' m; [reflexivity|].
  rewrite !fold_left_app. cbn [fold_left].
  change (fold_left readOwnProperty l' (readOwnProperty (fold_left readOwnProperty l m) v))
    with (fold_left readOwnProperty (v :: l') (fold_left readOwnProperty l m)).
  rewrite IH. cbn [fold_left]. rewrite <- !fold_left_app.
  apply readOwnProperty_absorbs.
Qed.

Lemma readVariables_twice root m :
  Forall (fun v => variableName v <> "__proto__")
         (getElementsByTagName constants.SqlCmdVariable root) ->
  readVariables root (readVariables root m) = readVariables root m.
Proof.
  intros Hplain. unfold readVariables. rewrite !(fold_readVariable_plain _ Hplain).
  cbn [ownProperties inheritsObjectPrototype]. f_equal.
  apply (fold_readOwnProperty_absorbs _ []).
Qed.

(** X1. What [readProjFile] makes of a project file that parses and whose
    variables all have a default value element with a child.  It
    succeeds, leaves the disk alone, keeps the parsed document, and adds
    to what the project held before: to [files], group by group in
    document order, the script elements of the group as file entries and
    then its folder elements as folder entries, each with its include
    attribute as relative path; to [importedTargets] the project
    attribute of every import, in document order; to [sqlCmdVariables],
    by one assignment [sqlCmdVariables[name] = value] for every variable in
    document order, its include attribute as name and the value of the
    first child of its first default value element as value. *)
Theorem readProjFile_reads_document
    (p : Project) (files0 : gmap string Inode) (text : string) (d : Document) :
  files0 !! projectFilePath p = Some (RegularFile text) ->
  parseFromString text = Some d ->
  Forall (fun v => is_Some (defaultValueOf v))
         (getElementsByTagName constants.SqlCmdVariable (documentElement d)) ->
  readProjFile (mkWorld p files0)
  = (inr tt,
     mkWorld
       (mkProject (projectFilePath p) (projectFileName p)
                  (files p ++ readEntries p (documentElement d))
                  (importedTargets p ++ readTargets (documentElement d))
                  (readVariables (documentElement d) (sqlCmdVariables p))
                  (Some d))
       files0).
Proof.
  intros Hfile Hparse Hdefaults. apply (readProjFile_reads p files0 text d); assumption.
Qed.

(** X2. [readProjFile] does not start from empty collections: called
    twice on the same project object and the same file, it leaves every
    entry in [files] and every target in [importedTargets] twice and the
    document as after one call; the variables are assigned a second time,
    which leaves [sqlCmdVariables] as after one call when no variable is
    named [__proto__]. *)
Theorem readProjFile_twice_appends
    (p : Project) (files0 : gmap string Inode) (text : string) (d : Document) :
  files0 !! projectFilePath p = Some (RegularFile text) ->
  parseFromString text = Some d ->
  Forall (fun v => is_Some (defaultValueOf v))
         (getElementsByTagName constants.SqlCmdVariable (documentElement d)) ->
  bind readProjFile (fun _ => readProjFile) (mkWorld p files0)
  = (inr tt,
     mkWorld
       (mkProject (projectFilePath p) (projectFileName p)
                  (files p ++ readEntries p (documentElement d)
                           ++ readEntries p (documentElement d))
                  (importedTargets p ++ readTargets (documentElement d)
                                     ++ readTargets (documentElement d))
                  (readVariables (documentElement d)
                     (readVariables (documentElement d) (sqlCmdVariables p)))
                  (Some d))
       files0)
  /\ (Forall (fun v => variableName v <> "__proto__")
             (getElementsByTagName constants.SqlCmdVariable (documentElement d)) ->
      readVariables (documentElement d)
        (readVariables (documentElement d) (sqlCmdVariables p))
      = readVariables (documentElement d) (sqlCmdVariables p)).
Proof.
  intros Hfile Hparse Hdefaults. split.
  - rewrite (bind_inr _ _ _ _ _ (readProjFile_reads p files0 text d Hfile Hparse Hdefaults)).
    rewrite (readProjFile_reads (afterRead d p) files0 text d Hfile Hparse Hdefaults).
    unfold afterRead.
    cbn [files importedTargets sqlCmdVariables projectFilePath projectFileName].
    rewrite <- !app_assoc. reflexivity.
  - apply readVariables_twice.
Qed.

(** X3. Variables with the same name in one project file: after
    [readProjFile] a name other than [__proto__] has, as own property of
    [sqlCmdVariables], the value of the last of them in document order; a
    name that no variable of the file has keeps what the project held for
    it before.  A variable named [__proto__] is not stored in an object
    that has its prototype and no own property of that name: when every
    such variable has a text as value, the object keeps its prototype and
    has no own property of that name after the call. *)
Theorem readProjFile_last_declaration_wins
    (p : Project) (files0 : gmap string Inode) (text : string) (d : Document)
    (before after : list (Path * Element)) (sqlCmdVar : Path * Element)
    (value : option string) :
  files0 !! projectFilePath p = Some (RegularFile text) ->
  parseFromString text = Some d ->
  Forall (fun v => is_Some (defaultValueOf v))
         (getElementsByTagName constants.SqlCmdVariable (documentElement d)) ->
  getElementsByTagName constants.SqlCmdVariable (documentElement d)
  = before ++ sqlCmdVar :: after ->
  defaultValueOf sqlCmdVar = Some value ->
  Forall (fun v => variableName v <> variableName sqlCmdVar) after ->
  (variableName sqlCmdVar <> "__proto__" ->
   sqlCmdVariables (this (snd (readProjFile (mkWorld p files0)))) !! variableName sqlCmdVar
   = Some value)
  /\ (forall name,
        Forall (fun v => variableName v <> name)
               (getElementsByTagName constants.SqlCmdVariable (documentElement d)) ->
        sqlCmdVariables (this (snd (readProjFile (mkWorld p files0)))) !! name
        = sqlCmdVariables p !! name)
  /\ (inheritsObjectPrototype (sqlCmdVariables p) = true ->
      sqlCmdVariables p !! "__proto__" = None ->
      Forall protoWithText
             (getElementsByTagName constants.SqlCmdVariable (documentElement d)) ->
      sqlCmdVariables (this (snd (readProjFile (mkWorld p files0)))) !! "__proto__" = None
      /\ inheritsObjectPrototype
           (sqlCmdVariables (this (snd (readProjFile (mkWorld p files0))))) = true).
Proof.
  intros Hfile Hparse Hdefaults Hlist Hvalue Hafter.
  rewrite (readProjFile_reads p files0 text d Hfile Hparse Hdefaults).
  cbn [snd this afterRead sqlCmdVariables]. unfold readVariables. split; [|split].
  - intros Hname. rewrite Hlist, fold_left_app. cbn [fold_left].
    rewrite (fold_readVariable_other after _ Hafter).
    unfold readVariable. rewrite Hvalue. apply lookup_setProperty_eq. exact Hname.
  - intros name Hname. apply fold_readVariable_other. exact Hname.
  - intros Hinherits Hnone Hproto. apply fold_readVariable_proto; assumption.
Qed.

(** X4. [readProjFile] is not undone when it throws over a variable
    without a default value: the project keeps the parsed document, all
    the entries and imported targets of the file, and the variables that
    come before the faulty one in document order. *)
Theorem readProjFile_keeps_what_it_read
    (p : Project) (files0 : gmap string Inode) (text : string) (d : Document)
    (before after : list (Path * Element)) (sqlCmdVar : Path * Element) :
  files0 !! projectFilePath p = Some (RegularFile text) ->
  parseFromString text = Some d ->
  getElementsByTagName constants.SqlCmdVariable (documentElement d)
  = before ++ sqlCmdVar :: after ->
  Forall (fun v => is_Some (defaultValueOf v)) before ->
  defaultValueOf sqlCmdVar = None ->
  readProjFile (mkWorld p files0)
  = (inl TypeError,
     mkWorld
       (mkProject (projectFilePath p) (projectFileName p)
                  (files p ++ readEntries p (documentElement d))
                  (importedTargets p ++ readTargets (documentElement d))
                  (fold_left readVariable before (sqlCmdVariables p))
                  (Some d))
       files0).
Proof.
  intros Hfile Hparse Hlist Hdefaults Hnone. unfold readProjFile. rewrite bind_getThis.
  unfold bind at 1. unfold fs_readFile. cbn [this disk]. rewrite Hfile, Hparse.
  rewrite bind_setThis. cbn [this disk].
  rewrite (scanProjFile_outcome _ _ files0 before (sqlCmdVar :: after) Hlist Hdefaults Hnone).
  reflexivity.
Qed.

(** ** The round-trip upgrade, step by step *)












(** ** addToProject *)

Context {U : Utilities}.

Lemma bind_then_unit {B} (m : M unit) (k : M B) w :
  bind m (fun _ => k) w = bind (bind m (fun _ => ret tt)) (fun _ => k) w.
Proof. unfold bind, ret. destruct (m w) as [[e|[]] w1]; reflexivity. Qed.

Lemma addToProject_cons file rest w :
  addToProject (file :: rest) w
  = bind (addToProject [file]) (fun _ => addToProject rest) w.
Proof. unfold addToProject. cbn [forEach]. apply bind_then_unit. Qed.

Lemma length_positive (s : string) : Nat.ltb 0 (String.length s) = negb (String.eqb s "").
Proof. destruct s; reflexivity. Qed.

Lemma addToProject_one_passedOver file w :
  passedOver w file -> addToProject [file] w = (inr tt, w).
Proof.
  intros Hpassed. unfold addToProject. cbn [forEach]. rewrite bind_assoc, bind_getThis.
  fold (relativePathOf (this w) file). rewrite length_positive.
  destruct Hpassed as [Hempty | (data & Hfile & Hextension)].
  - rewrite Hempty. reflexivity.
  - destruct (negb (String.eqb (relativePathOf (this w) file) "")); [|reflexivity].
    rewrite bind_assoc.
    assert (Hstat : fs_stat file w = (inr (RegularFile data), w))
      by (unfold fs_stat; rewrite Hfile; reflexivity).
    rewrite (bind_inr _ _ _ _ _ Hstat), Hextension. reflexivity.
Qed.

Lemma addToProject_one_missing file w :
  relativePathOf (this w) file <> "" ->
  disk w !! file = None ->
  addToProject [file] w = (inl IOError, w).
Proof.
  intros Hrelative Hmissing. unfold addToProject. cbn [forEach].
  rewrite bind_assoc, bind_getThis.
  fold (relativePathOf (this w) file). rewrite length_positive.
  destruct (String.eqb_spec (relativePathOf (this w) file) ""); [contradiction|].
  cbn [negb]. rewrite bind_assoc.
  assert (Hstat : fs_stat file w = (inl IOError, w))
    by (unfold fs_stat; rewrite Hmissing; reflexivity).
  apply (bind_inl _ _ _ _ _ Hstat).
Qed.

(** X17. [addToProject] passes over a path whose relative path is empty,
    without looking at the disk, and a regular file whose lower-cased
    path does not end in the extension of scripts: a list of such paths
    changes neither the project nor the disk, and the call succeeds. *)
Theorem addToProject_passes_over (list : list string) (w : World) :
  Forall (passedOver w) list -> addToProject list w = (inr tt, w).
Proof.
  induction 1 as [|file rest Hfile Hrest IH]; [reflexivity|].
  rewrite addToProject_cons.
  rewrite (bind_inr _ _ _ _ _ (addToProject_one_passedOver file w Hfile)). exact IH.
Qed.

(** X18. A path of the list with a relative path that is not empty and
    with nothing on the disk is no case [addToProject] passes over: the
    stat fails, the method throws, and the paths after it are not looked
    at. *)
Theorem addToProject_missing_path_fails
    (before after : list string) (file : string) (w : World) :
  Forall (passedOver w) before ->
  relativePathOf (this w) file <> "" ->
  disk w !! file = None ->
  addToProject (before ++ file :: after) w = (inl IOError, w).
Proof.
  intros Hbefore Hrelative Hmissing.
  induction Hbefore as [|x before Hx Hbefore IH]; cbn [app]; rewrite addToProject_cons.
  - apply (bind_inl _ _ _ _ _ (addToProject_one_missing file w Hrelative Hmissing)).
  - rewrite (bind_inr _ _ _ _ _ (addToProject_one_passedOver x w Hx)). exact IH.
Qed.

End ProjectFacts.

(** * The theorems on the sample project *)

Import Sample.

(** C4 on the sample project: nothing is at missing.sql. *)
Lemma addScriptItem_missing_file_witness :
  disk loaded !! path_join [projectFolderPath (this loaded); "missing.sql"] = None
  /\ addScriptItem "missing.sql" None loaded
     = (inl (noFileExist (path_join [projectFolderPath (this loaded); "missing.sql"])), loaded).
Proof.
  split; [vm_compute; reflexivity|].
  apply (addScriptItem_missing_file_is_atomic "missing.sql" loaded).
  vm_compute. reflexivity.
Defined.

(** C10 on the sample project, for a reference to the same database. *)
Lemma addDatabaseReference_condition_witness :
  constants.Include <> constants.Condition
  /\ projFileXmlDoc (this loaded) = Some sqlproj
  /\ exists reference,
      projFileXmlDoc
        (this (snd (addDatabaseReference (Uri_file "/work/other.dacpac")
                      DatabaseReferenceLocation.sameDatabase None loaded)))
      = Some (mkDocument
                (appendChild
                   (ElementNode (mkElement constants.ItemGroup [] [ElementNode reference]))
                   (documentElement sqlproj)))
      /\ tagName reference = constants.ArtifactReference
      /\ getAttribute constants.Condition reference = constants.NetCoreCondition.
Proof.
  split; [discriminate|]. split; [vm_compute; reflexivity|].
  apply (addDatabaseReference_condition_is_NetCore
           (Uri_file "/work/other.dacpac") DatabaseReferenceLocation.sameDatabase None loaded sqlproj);
    [discriminate | vm_compute; reflexivity].
Defined.

(** C7 on the sample project, for a reference to master on the same
    server. *)
Lemma addDatabaseReference_children_witness :
  constants.SuppressMissingDependenciesErrors <> constants.DatabaseVariableLiteralValue
  /\ projFileXmlDoc (this loaded) = Some sqlproj
  /\ exists reference,
      projFileXmlDoc
        (this (snd (addDatabaseReference (Uri_file "/work/master.dacpac")
                      DatabaseReferenceLocation.differentDatabaseSameServer
                      (Some "master") loaded)))
      = Some (mkDocument
                (appendChild
                   (ElementNode (mkElement constants.ItemGroup [] [ElementNode reference]))
                   (documentElement sqlproj)))
      /\ In (ElementNode (mkElement constants.SuppressMissingDependenciesErrors []
                            [TextNode "False"]))
            (childNodes reference)
      /\ (In (ElementNode (mkElement constants.DatabaseVariableLiteralValue []
                             [TextNode "master"]))
             (childNodes reference)
          <-> DatabaseReferenceLocation.differentDatabaseSameServer
              = DatabaseReferenceLocation.differentDatabaseSameServer)
      /\ (DatabaseReferenceLocation.differentDatabaseSameServer
          = DatabaseReferenceLocation.sameDatabase ->
          forall child, In (ElementNode child) (childNodes reference) ->
                        tagName child <> constants.DatabaseVariableLiteralValue).
Proof.
  split; [discriminate|]. split; [vm_compute; reflexivity|].
  apply (addDatabaseReference_children
           (Uri_file "/work/master.dacpac") DatabaseReferenceLocation.differentDatabaseSameServer
           "master" loaded sqlproj);
    [discriminate | vm_compute; reflexivity].
Defined.

(** C8, as the code has it, on the sample project. *)
Lemma addDatabaseReference_item_group_witness :
  projFileXmlDoc (this loaded) = Some sqlproj
  /\ exists d',
      projFileXmlDoc
        (this (snd (addDatabaseReference (Uri_file "/work/other.dacpac")
                      DatabaseReferenceLocation.sameDatabase None loaded)))
      = Some d'
      /\ tagName (documentElement d') = tagName (documentElement sqlproj)
      /\ attributes (documentElement d') = attributes (documentElement sqlproj)
      /\ childNodes (documentElement d')
         = childNodes (documentElement sqlproj)
             ++ [ElementNode
                   (mkElement constants.ItemGroup []
                      [ElementNode
                         (referenceNode
                            (new_DatabaseReferenceProjectEntry (Uri_file "/work/other.dacpac")
                               DatabaseReferenceLocation.sameDatabase None))])]
      /\ List.length (getElementsByTagName constants.ItemGroup (documentElement sqlproj))
         < List.length (getElementsByTagName constants.ItemGroup (documentElement d')).
Proof.
  split; [vm_compute; reflexivity|].
  apply (addDatabaseReference_always_creates_item_group
           (Uri_file "/work/other.dacpac") DatabaseReferenceLocation.sameDatabase None loaded sqlproj).
  vm_compute. reflexivity.
Defined.

(** C8 as the claim states it fails here: the sample document has two
    item groups, and after [addDatabaseReference] it has three. *)
Lemma addDatabaseReference_item_group_counterexample :
  projFileXmlDoc (this loaded) = Some sqlproj
  /\ List.length (getElementsByTagName constants.ItemGroup (documentElement sqlproj)) = 2
  /\ exists d',
      projFileXmlDoc
        (this (snd (addDatabaseReference (Uri_file "/work/other.dacpac")
                      DatabaseReferenceLocation.sameDatabase None loaded)))
      = Some d'
      /\ List.length (getElementsByTagName constants.ItemGroup (documentElement d')) = 3.
Proof.
  split; [vm_compute; reflexivity|]. split; [reflexivity|].
  eexists. split; vm_compute; reflexivity.
Qed.

(** C3, as the code has it, on a project with the provider of SQL
    Server 2016. *)
Lemma getMasterDacpac_witness :
  projFileXmlDoc
    (this (projectWithDsp "Microsoft.Data.Tools.Schema.Sql.Sql130DatabaseSchemaProvider"))
  = Some (mkDocument
            (mkElement "Project" []
               [ElementNode (mkElement "PropertyGroup" []
                  [ElementNode (mkElement "DSP" []
                     [TextNode "Microsoft.Data.Tools.Schema.Sql.Sql130DatabaseSchemaProvider"])])]))
  /\ getMasterDacpac
       (projectWithDsp "Microsoft.Data.Tools.Schema.Sql.Sql130DatabaseSchemaProvider")
     = (inr (Uri_parse (path_join ["$(NETCoreTargetsPath)"; "SystemDacpacs"; "130";
                                   "master.dacpac"])),
        projectWithDsp "Microsoft.Data.Tools.Schema.Sql.Sql130DatabaseSchemaProvider")
  /\ getMasterDacpac
       (projectWithDsp "Xicrosoft.Data.Tools.Schema.Sql.Sql130DatabaseSchemaProvideX")
     = (inr (Uri_parse (path_join ["$(NETCoreTargetsPath)"; "SystemDacpacs"; "130";
                                   "master.dacpac"])),
        projectWithDsp "Xicrosoft.Data.Tools.Schema.Sql.Sql130DatabaseSchemaProvideX")
  /\ getMasterDacpac
       (projectWithDsp "Microsoft.Data.Tools.Schema.Sql.Sql999DatabaseSchemaProvider")
     = (inl invalidDataSchemaProvider,
        projectWithDsp "Microsoft.Data.Tools.Schema.Sql.Sql999DatabaseSchemaProvider").
Proof.
  split; [reflexivity|]. split; [|split].
  - exact (proj1 (getMasterDacpac_checks_version_only
                    (projectWithDsp
                       "Microsoft.Data.Tools.Schema.Sql.Sql130DatabaseSchemaProvider")
                    _ (mkElement "DSP" []
                         [TextNode
                            "Microsoft.Data.Tools.Schema.Sql.Sql130DatabaseSchemaProvider"])
                    "Microsoft.Data.Tools.Schema.Sql.Sql130DatabaseSchemaProvider"
                    eq_refl eq_refl eq_refl)
                 constants.MicrosoftDatatoolsSchemaSqlSql "130" constants.databaseSchemaProvider
                 eq_refl eq_refl eq_refl).
  - exact (proj1 (getMasterDacpac_checks_version_only
                    (projectWithDsp
                       "Xicrosoft.Data.Tools.Schema.Sql.Sql130DatabaseSchemaProvideX")
                    _ (mkElement "DSP" []
                         [TextNode
                            "Xicrosoft.Data.Tools.Schema.Sql.Sql130DatabaseSchemaProvideX"])
                    "Xicrosoft.Data.Tools.Schema.Sql.Sql130DatabaseSchemaProvideX"
                    eq_refl eq_refl eq_refl)
                 "Xicrosoft.Data.Tools.Schema.Sql.Sql" "130" "DatabaseSchemaProvideX"
                 eq_refl eq_refl eq_refl).
  - exact (proj1 (getMasterDacpac_checks_version_only
                    (projectWithDsp
                       "Microsoft.Data.Tools.Schema.Sql.Sql999DatabaseSchemaProvider")
                    _ (mkElement "DSP" []
                         [TextNode
                            "Microsoft.Data.Tools.Schema.Sql.Sql999DatabaseSchemaProvider"])
                    "Microsoft.Data.Tools.Schema.Sql.Sql999DatabaseSchemaProvider"
                    eq_refl eq_refl eq_refl)
                 constants.MicrosoftDatatoolsSchemaSqlSql "999" constants.databaseSchemaProvider
                 eq_refl eq_refl eq_refl).
Defined.

(** C3 as the claim states it fails here: a string that does not start
    with the prefix and does not end with the suffix, of the same lengths
    around 130, is accepted. *)
Lemma getMasterDacpac_pattern_counterexample :
  (forall version,
      "Xicrosoft.Data.Tools.Schema.Sql.Sql130DatabaseSchemaProvideX"
      <> constants.MicrosoftDatatoolsSchemaSqlSql +:+ version
           +:+ constants.databaseSchemaProvider)
  /\ fst (getMasterDacpac
            (projectWithDsp "Xicrosoft.Data.Tools.Schema.Sql.Sql130DatabaseSchemaProvideX"))
     = inr (Uri_parse "$(NETCoreTargetsPath)/SystemDacpacs/130/master.dacpac").
Proof.
  split; [|vm_compute; reflexivity].
  intros version Heq. apply (f_equal (String.get 0)) in Heq.
  simpl in Heq. discriminate Heq.
Qed.

(** C1 fails on the sample project: the folder Views is added, and a
    reference to it. *)
Lemma addFolderItem_reference_witness :
  succeeded (fst (addFolderItem "Views" loaded)) = true
  /\ fst (addFolderItem "Views" loaded)
     = inr (createProjectEntry (this loaded) "Views" EntryType.Folder)
  /\ exists d',
      projFileXmlDoc (this (snd (addFolderItem "Views" loaded))) = Some d'
      /\ last (childNodes (documentElement d'))
         = Some (ElementNode
                   (mkElement constants.ItemGroup []
                      [ElementNode
                         (referenceNode
                            (createProjectEntry (this loaded) "Views" EntryType.Folder))])).
Proof.
  assert (Hsucceeded : succeeded (fst (addFolderItem "Views" loaded)) = true)
    by (vm_compute; reflexivity).
  split; [exact Hsucceeded|].
  apply (addFolderItem_also_adds_reference "Views" loaded). exact Hsucceeded.
Defined.

(** On the sample project [addFolderItem] adds four elements: the
    folder, and an item group with an artifact reference and its suppress
    flag. *)
Example addFolderItem_sample_elements :
  (fun d => List.length (getElementsByTagName "*" (documentElement d)))
    <$> projFileXmlDoc (this (snd (addFolderItem "Views" loaded)))
  = Some (List.length (getElementsByTagName "*" (documentElement sqlproj)) + 4)
  /\ (fun d => map fst (getElementsByTagName constants.ArtifactReference (documentElement d)))
       <$> projFileXmlDoc (this (snd (addFolderItem "Views" loaded)))
     = Some [[5; 0]]
  /\ getElementsByTagName constants.ArtifactReference (documentElement sqlproj) = [].
Proof. repeat split; vm_compute; reflexivity. Qed.

(** C6, as the code has it, on a project file whose variable has no
    default value. *)
Lemma readProjFile_missing_default_value_witness :
  brokenDisk !! projectPath = Some (RegularFile (write noDefaultValue))
  /\ parseFromString (write noDefaultValue) = Some noDefaultValue
  /\ fst (readProjFile (mkWorld (new_Project projectPath) brokenDisk)) = inl TypeError.
Proof.
  split; [vm_compute; reflexivity|]. split; [vm_compute; reflexivity|].
  apply (readProjFile_missing_default_value
           (mkWorld (new_Project projectPath) brokenDisk)
           (write noDefaultValue) noDefaultValue
           ([0; 0], mkElement "SqlCmdVariable" [("Include", "ProdDatabaseName")] [])).
  - vm_compute. reflexivity.
  - vm_compute. reflexivity.
  - left. reflexivity.
  - left. reflexivity.
Defined.

(** C6 as the claim states it fails here: the default value element has
    no text below it, only an element; the load succeeds and records
    [null] as the value of the variable. *)
Lemma readProjFile_element_default_value_counterexample :
  elementDisk !! projectPath = Some (RegularFile (write elementDefaultValue))
  /\ parseFromString (write elementDefaultValue) = Some elementDefaultValue
  /\ map snd (getElementsByTagName constants.SqlCmdVariable
                (documentElement elementDefaultValue))
     = [mkElement "SqlCmdVariable" [("Include", "ProdDatabaseName")]
          [ElementNode (mkElement "DefaultValue" []
             [ElementNode (mkElement "Value" [] [])])]]
  /\ fst (readProjFile (mkWorld (new_Project projectPath) elementDisk)) = inr tt
  /\ sqlCmdVariables (this (snd (readProjFile (mkWorld (new_Project projectPath) elementDisk))))
       !! "ProdDatabaseName"
     = Some None.
Proof. repeat split; vm_compute; reflexivity. Qed.

(** C2 on the sample project, whose imports are the children 3 and 4 of
    the root. *)
Lemma updateProjectForRoundTrip_two_imports_witness :
  roundTripNames
  /\ projFileXmlDoc (this loaded) = Some sqlproj
  /\ disk0 !! projectFilePath (this loaded) = Some (RegularFile (write sqlproj))
  /\ getElementsByTagName constants.Import (documentElement sqlproj)
     = [([3], mkElement "Import"
                [("Condition", constants.SqlDbPresentCondition);
                 ("Project", constants.SqlDbTargets)] []);
        ([4], mkElement "Import"
                [("Condition", constants.SqlDbNotPresentCondition);
                 ("Project", constants.MsBuildtargets)] [])]
  /\ exists root' files1,
      updateProjectForRoundTrip (mkWorld (this loaded) disk0)
      = (inr tt,
         mkWorld
           (set_projFileXmlDoc (Some (mkDocument root'))
              (set_importedTargets
                 (importedTargets (this loaded) ++ [constants.NetCoreTargets]) (this loaded)))
           files1)
      /\ map fst (getElementsByTagName constants.Import root')
         = map fst (getElementsByTagName constants.Import (documentElement sqlproj))
             ++ [[List.length (childNodes (documentElement sqlproj))]]
      /\ List.length (getElementsByTagName constants.Import root') = 3
      /\ In ([3], importNode constants.RoundTripSqlDbPresentCondition constants.SqlDbTargets)
            (getElementsByTagName constants.Import root')
      /\ In ([4], importNode constants.RoundTripSqlDbNotPresentCondition
                             constants.MsBuildtargets)
            (getElementsByTagName constants.Import root')
      /\ In ([List.length (childNodes (documentElement sqlproj))],
             importNode constants.NetCoreCondition constants.NetCoreTargets)
            (getElementsByTagName constants.Import root')
      /\ (forall condition target,
             getAttribute constants.Condition (importNode condition target) = condition
             /\ getAttribute constants.Project (importNode condition target) = target)
      /\ List.length (getElementsByTagName constants.PackageReference root')
         = S (List.length (getElementsByTagName constants.PackageReference
                             (documentElement sqlproj)))
      /\ files1 !! (projectFilePath (this loaded) +:+ "_backup")
         = Some (RegularFile (write sqlproj))
      /\ files1 !! projectFilePath (this loaded)
         = Some (RegularFile (serializeToString (mkDocument root'))).
Proof.
  assert (Hnames : roundTripNames) by (repeat split; discriminate).
  split; [exact Hnames|]. split; [vm_compute; reflexivity|].
  split; [vm_compute; reflexivity|]. split; [vm_compute; reflexivity|].
  apply (updateProjectForRoundTrip_two_imports
           (this loaded) disk0 (documentElement sqlproj) (write sqlproj) 3 4
           (mkElement "Import"
              [("Condition", constants.SqlDbPresentCondition);
               ("Project", constants.SqlDbTargets)] [])
           (mkElement "Import"
              [("Condition", constants.SqlDbNotPresentCondition);
               ("Project", constants.MsBuildtargets)] [])).
  - exact Hnames.
  - vm_compute. reflexivity.
  - vm_compute. reflexivity.
  - vm_compute. discriminate.
  - left. vm_compute. reflexivity.
  - constructor.
  - constructor.
  - vm_compute. reflexivity.
  - vm_compute. reflexivity.
Defined.

(** ** The further theorems on the sample project *)

(** Two strings that differ, by computation. *)
Ltac differ :=
  let H := fresh in
  intros H; apply String.eqb_eq in H; vm_compute in H; discriminate H.

(** X1 on the sample project file, read into a new project. *)
Lemma readProjFile_reads_document_witness :
  disk0 !! projectFilePath (new_Project projectPath) = Some (RegularFile (write sqlproj))
  /\ parseFromString (write sqlproj) = Some sqlproj
  /\ Forall (fun v => is_Some (defaultValueOf v))
            (getElementsByTagName constants.SqlCmdVariable (documentElement sqlproj))
  /\ readProjFile (mkWorld (new_Project projectPath) disk0)
     = (inr tt,
        mkWorld
          (mkProject (projectFilePath (new_Project projectPath))
                     (projectFileName (new_Project projectPath))
                     (files (new_Project projectPath)
                        ++ readEntries (new_Project projectPath) (documentElement sqlproj))
                     (importedTargets (new_Project projectPath)
                        ++ readTargets (documentElement sqlproj))
                     (readVariables (documentElement sqlproj)
                                    (sqlCmdVariables (new_Project projectPath)))
                     (Some sqlproj))
          disk0).
Proof.
  assert (Hfile : disk0 !! projectFilePath (new_Project projectPath)
                  = Some (RegularFile (write sqlproj))) by (vm_compute; reflexivity).
  assert (Hparse : parseFromString (write sqlproj) = Some sqlproj) by (vm_compute; reflexivity).
  assert (Hdefaults : Forall (fun v => is_Some (defaultValueOf v))
                        (getElementsByTagName constants.SqlCmdVariable
                                              (documentElement sqlproj))).
  { remember (getElementsByTagName constants.SqlCmdVariable (documentElement sqlproj)) as l
      eqn:Hl.
    vm_compute in Hl. subst l. constructor; [eexists; reflexivity | constructor]. }
  split; [exact Hfile|]. split; [exact Hparse|]. split; [exact Hdefaults|].
  exact (readProjFile_reads_document _ _ _ _ Hfile Hparse Hdefaults).
Defined.

(** X2 on the sample project file. *)
Lemma readProjFile_twice_appends_witness :
  disk0 !! projectFilePath (new_Project projectPath) = Some (RegularFile (write sqlproj))
  /\ parseFromString (write sqlproj) = Some sqlproj
  /\ Forall (fun v => is_Some (defaultValueOf v))
            (getElementsByTagName constants.SqlCmdVariable (documentElement sqlproj))
  /\ bind readProjFile (fun _ => readProjFile) (mkWorld (new_Project projectPath) disk0)
     = (inr tt,
        mkWorld
          (mkProject (projectFilePath (new_Project projectPath))
                     (projectFileName (new_Project projectPath))
                     (files (new_Project projectPath)
                        ++ readEntries (new_Project projectPath) (documentElement sqlproj)
                        ++ readEntries (new_Project projectPath) (documentElement sqlproj))
                     (importedTargets (new_Project projectPath)
                        ++ readTargets (documentElement sqlproj)
                        ++ readTargets (documentElement sqlproj))
                     (readVariables (documentElement sqlproj)
                        (readVariables (documentElement sqlproj)
                                       (sqlCmdVariables (new_Project projectPath))))
                     (Some sqlproj))
          disk0)
  /\ Forall (fun v => variableName v <> "__proto__")
            (getElementsByTagName constants.SqlCmdVariable (documentElement sqlproj))
  /\ readVariables (documentElement sqlproj)
       (readVariables (documentElement sqlproj) (sqlCmdVariables (new_Project projectPath)))
     = readVariables (documentElement sqlproj) (sqlCmdVariables (new_Project projectPath)).
Proof.
  assert (Hfile : disk0 !! projectFilePath (new_Project projectPath)
                  = Some (RegularFile (write sqlproj))) by (vm_compute; reflexivity).
  assert (Hparse : parseFromString (write sqlproj) = Some sqlproj) by (vm_compute; reflexivity).
  assert (Hdefaults : Forall (fun v => is_Some (defaultValueOf v))
                        (getElementsByTagName constants.SqlCmdVariable
                                              (documentElement sqlproj))).
  { remember (getElementsByTagName constants.SqlCmdVariable (documentElement sqlproj)) as l
      eqn:Hl.
    vm_compute in Hl. subst l. constructor; [eexists; reflexivity | constructor]. }
  assert (Hplain : Forall (fun v => variableName v <> "__proto__")
                     (getElementsByTagName constants.SqlCmdVariable
                                           (documentElement sqlproj))).
  { remember (getElementsByTagName constants.SqlCmdVariable (documentElement sqlproj)) as l
      eqn:Hl.
    vm_compute in Hl. subst l. constructor; [differ | constructor]. }
  split; [exact Hfile|]. split; [exact Hparse|]. split; [exact Hdefaults|].
  destruct (readProjFile_twice_appends _ _ _ _ Hfile Hparse Hdefaults) as [Htwice Hsame].
  split; [exact Htwice|]. split; [exact Hplain | exact (Hsame Hplain)].
Defined.

(** A second call is not idle when variables have the name of the
    prototype accessor.  Of two such variables the first, a text, is not
    stored, and the second, which has no text, takes the prototype from
    the object; in a second call both are therefore stored as own
    properties, which leaves the value of the second. *)
Example readVariables_again_with_proto :
  readVariables (documentElement protoDefaults) (sqlCmdVariables (new_Project projectPath))
    !! "__proto__"
  = None
  /\ inheritsObjectPrototype
       (readVariables (documentElement protoDefaults)
                      (sqlCmdVariables (new_Project projectPath)))
     = false
  /\ readVariables (documentElement protoDefaults)
       (readVariables (documentElement protoDefaults)
                      (sqlCmdVariables (new_Project projectPath)))
       !! "__proto__"
     = Some None.
Proof. repeat split; vm_compute; reflexivity. Qed.

(** X3 on a project file that declares the variable Environment twice
    and a variable named as the prototype accessor between the two: the
    second value of Environment is the one the project has, and nothing
    is stored for the other variable. *)
Lemma readProjFile_last_declaration_wins_witness :
  twoDefaultsDisk !! projectFilePath (new_Project projectPath)
  = Some (RegularFile (write twoDefaults))
  /\ parseFromString (write twoDefaults) = Some twoDefaults
  /\ Forall (fun v => is_Some (defaultValueOf v))
            (getElementsByTagName constants.SqlCmdVariable (documentElement twoDefaults))
  /\ getElementsByTagName constants.SqlCmdVariable (documentElement twoDefaults)
     = [([0; 0], mkElement "SqlCmdVariable" [("Include", "Environment")]
                   [ElementNode (mkElement "DefaultValue" [] [TextNode "test"])]);
        ([0; 1], mkElement "SqlCmdVariable" [("Include", "__proto__")]
                   [ElementNode (mkElement "DefaultValue" [] [TextNode "staging"])])]
       ++ ([0; 2], mkElement "SqlCmdVariable" [("Include", "Environment")]
                     [ElementNode (mkElement "DefaultValue" [] [TextNode "production"])])
       :: []
  /\ defaultValueOf
       ([0; 2], mkElement "SqlCmdVariable" [("Include", "Environment")]
                  [ElementNode (mkElement "DefaultValue" [] [TextNode "production"])])
     = Some (Some "production")
  /\ Forall (fun v : Path * Element =>
               variableName v
               <> variableName
                    ([0; 2],
                     mkElement "SqlCmdVariable" [("Include", "Environment")]
                       [ElementNode (mkElement "DefaultValue" [] [TextNode "production"])]))
            []
  /\ variableName
       ([0; 2], mkElement "SqlCmdVariable" [("Include", "Environment")]
                  [ElementNode (mkElement "DefaultValue" [] [TextNode "production"])])
     <> "__proto__"
  /\ sqlCmdVariables
       (this (snd (readProjFile (mkWorld (new_Project projectPath) twoDefaultsDisk))))
       !! variableName
            ([0; 2],
             mkElement "SqlCmdVariable" [("Include", "Environment")]
               [ElementNode (mkElement "DefaultValue" [] [TextNode "production"])])
     = Some (Some "production")
  /\ (forall name,
        Forall (fun v => variableName v <> name)
               (getElementsByTagName constants.SqlCmdVariable (documentElement twoDefaults)) ->
        sqlCmdVariables
          (this (snd (readProjFile (mkWorld (new_Project projectPath) twoDefaultsDisk))))
          !! name
        = sqlCmdVariables (new_Project projectPath) !! name)
  /\ inheritsObjectPrototype (sqlCmdVariables (new_Project projectPath)) = true
  /\ sqlCmdVariables (new_Project projectPath) !! "__proto__" = None
  /\ Forall protoWithText
            (getElementsByTagName constants.SqlCmdVariable (documentElement twoDefaults))
  /\ sqlCmdVariables
       (this (snd (readProjFile (mkWorld (new_Project projectPath) twoDefaultsDisk))))
       !! "__proto__"
     = None
  /\ inheritsObjectPrototype
       (sqlCmdVariables
          (this (snd (readProjFile (mkWorld (new_Project projectPath) twoDefaultsDisk)))))
     = true.
Proof.
  assert (Hfile : twoDefaultsDisk !! projectFilePath (new_Project projectPath)
                  = Some (RegularFile (write twoDefaults))) by (vm_compute; reflexivity).
  assert (Hparse : parseFromString (write twoDefaults) = Some twoDefaults)
    by (vm_compute; reflexivity).
  assert (Hlist : getElementsByTagName constants.SqlCmdVariable (documentElement twoDefaults)
                  = [([0; 0], mkElement "SqlCmdVariable" [("Include", "Environment")]
                                [ElementNode (mkElement "DefaultValue" [] [TextNode "test"])]);
                     ([0; 1], mkElement "SqlCmdVariable" [("Include", "__proto__")]
                                [ElementNode (mkElement "DefaultValue" []
                                                [TextNode "staging"])])]
                    ++ ([0; 2], mkElement "SqlCmdVariable" [("Include", "Environment")]
                                  [ElementNode (mkElement "DefaultValue" []
                                                  [TextNode "production"])])
                    :: []) by (vm_compute; reflexivity).
  assert (Hdefaults : Forall (fun v => is_Some (defaultValueOf v))
                        (getElementsByTagName constants.SqlCmdVariable
                                              (documentElement twoDefaults))).
  { rewrite Hlist. constructor; [eexists; reflexivity|].
    constructor; [eexists; reflexivity|].
    constructor; [eexists; reflexivity | constructor]. }
  assert (Hvalue : defaultValueOf
                     ([0; 2], mkElement "SqlCmdVariable" [("Include", "Environment")]
                                [ElementNode (mkElement "DefaultValue" []
                                                [TextNode "production"])])
                   = Some (Some "production")) by reflexivity.
  assert (Hafter : Forall (fun v : Path * Element =>
                             variableName v
                             <> variableName
                                  ([0; 2],
                                   mkElement "SqlCmdVariable" [("Include", "Environment")]
                                     [ElementNode (mkElement "DefaultValue" []
                                                     [TextNode "production"])]))
                          []) by constructor.
  assert (Hname : variableName
                    ([0; 2], mkElement "SqlCmdVariable" [("Include", "Environment")]
                               [ElementNode (mkElement "DefaultValue" []
                                               [TextNode "production"])])
                  <> "__proto__") by differ.
  assert (Hinherits : inheritsObjectPrototype (sqlCmdVariables (new_Project projectPath))
                      = true) by reflexivity.
  assert (Hproto : Forall protoWithText
                     (getElementsByTagName constants.SqlCmdVariable
                                           (documentElement twoDefaults))).
  { rewrite Hlist. constructor; [intros H; exfalso; revert H; differ|].
    constructor; [intros _; exists "staging"; reflexivity|].
    constructor; [intros H; exfalso; revert H; differ | constructor]. }
  split; [exact Hfile|]. split; [exact Hparse|]. split; [exact Hdefaults|].
  split; [exact Hlist|]. split; [exact Hvalue|]. split; [exact Hafter|].
  split; [exact Hname|].
  destruct (readProjFile_last_declaration_wins _ _ _ _ _ _ _ _
              Hfile Hparse Hdefaults Hlist Hvalue Hafter) as [Hlast [Hother Hkept]].
  split; [exact (Hlast Hname)|]. split; [exact Hother|].
  split; [exact Hinherits|]. split; [reflexivity|]. split; [exact Hproto|].
  exact (Hkept Hinherits eq_refl Hproto).
Defined.

(** X4 on a project file whose second variable has no default value: the
    script, the import and the first variable are in the project after
    the call has thrown. *)
Lemma readProjFile_keeps_what_it_read_witness :
  secondWithoutDefaultDisk !! projectFilePath (new_Project projectPath)
  = Some (RegularFile (write secondWithoutDefault))
  /\ parseFromString (write secondWithoutDefault) = Some secondWithoutDefault
  /\ getElementsByTagName constants.SqlCmdVariable (documentElement secondWithoutDefault)
     = [([1; 0], mkElement "SqlCmdVariable" [("Include", "Environment")]
                   [ElementNode (mkElement "DefaultValue" [] [TextNode "test"])])]
       ++ ([1; 1], mkElement "SqlCmdVariable" [("Include", "Region")] []) :: []
  /\ Forall (fun v => is_Some (defaultValueOf v))
            [([1; 0], mkElement "SqlCmdVariable" [("Include", "Environment")]
                        [ElementNode (mkElement "DefaultValue" [] [TextNode "test"])])]
  /\ defaultValueOf ([1; 1], mkElement "SqlCmdVariable" [("Include", "Region")] []) = None
  /\ readProjFile (mkWorld (new_Project projectPath) secondWithoutDefaultDisk)
     = (inl TypeError,
        mkWorld
          (mkProject (projectFilePath (new_Project projectPath))
                     (projectFileName (new_Project projectPath))
                     (files (new_Project projectPath)
                        ++ readEntries (new_Project projectPath)
                                       (documentElement secondWithoutDefault))
                     (importedTargets (new_Project projectPath)
                        ++ readTargets (documentElement secondWithoutDefault))
                     (fold_left readVariable
                        [([1; 0], mkElement "SqlCmdVariable" [("Include", "Environment")]
                                    [ElementNode (mkElement "DefaultValue" []
                                                    [TextNode "test"])])]
                        (sqlCmdVariables (new_Project projectPath)))
                     (Some secondWithoutDefault))
          secondWithoutDefaultDisk).
Proof.
  assert (Hfile : secondWithoutDefaultDisk !! projectFilePath (new_Project projectPath)
                  = Some (RegularFile (write secondWithoutDefault)))
    by (vm_compute; reflexivity).
  assert (Hparse : parseFromString (write secondWithoutDefault) = Some secondWithoutDefault)
    by (vm_compute; reflexivity).
  assert (Hlist : getElementsByTagName constants.SqlCmdVariable
                    (documentElement secondWithoutDefault)
                  = [([1; 0], mkElement "SqlCmdVariable" [("Include", "Environment")]
                                [ElementNode (mkElement "DefaultValue" [] [TextNode "test"])])]
                    ++ ([1; 1], mkElement "SqlCmdVariable" [("Include", "Region")] []) :: [])
    by (vm_compute; reflexivity).
  assert (Hdefaults : Forall (fun v => is_Some (defaultValueOf v))
                        [([1; 0], mkElement "SqlCmdVariable" [("Include", "Environment")]
                                    [ElementNode (mkElement "DefaultValue" []
                                                    [TextNode "test"])])])
    by (constructor; [eexists; reflexivity | constructor]).
  assert (Hnone : defaultValueOf ([1; 1], mkElement "SqlCmdVariable" [("Include", "Region")] [])
                  = None) by reflexivity.
  split; [exact Hfile|]. split; [exact Hparse|]. split; [exact Hlist|].
  split; [exact Hdefaults|]. split; [exact Hnone|].
  exact (readProjFile_keeps_what_it_read _ _ _ _ _ _ _ Hfile Hparse Hlist Hdefaults Hnone).
Defined.




(** X8 on the loaded sample project, for the tag of scripts. *)
Lemma findOrCreateItemGroup_first_group_witness :
  projFileXmlDoc (this loaded) = Some sqlproj
  /\ (forall before ref g after,
         constants.Build <> "" ->
         getElementsByTagName constants.ItemGroup (documentElement sqlproj)
         = before ++ (ref, g) :: after ->
         Forall (holdsNone constants.Build) before ->
         getElementsByTagName constants.Build g <> [] ->
         findOrCreateItemGroup (Some constants.Build) loaded = (inr ref, loaded))
  /\ (Forall (holdsNone constants.Build)
             (getElementsByTagName constants.ItemGroup (documentElement sqlproj))
      \/ constants.Build = "" ->
      findOrCreateItemGroup (Some constants.Build) loaded
      = (inr [List.length (childNodes (documentElement sqlproj))],
         withRoot (appendChild (ElementNode (createElement constants.ItemGroup))
                               (documentElement sqlproj)) loaded)).
Proof.
  assert (Hd : projFileXmlDoc (this loaded) = Some sqlproj) by (vm_compute; reflexivity).
  split; [exact Hd|].
  exact (findOrCreateItemGroup_first_group constants.Build loaded sqlproj Hd).
Defined.


(** X10 on the loaded sample project and a disk where a directory takes
    the path of the project file. *)
Lemma addScriptItem_failed_write_keeps_item_witness :
  buildNames
  /\ projFileXmlDoc (this loaded) = Some (mkDocument (documentElement sqlproj))
  /\ is_Some (lockedDisk !! path_join [projectFolderPath (this loaded); "Tables/t2.sql"])
  /\ lockedDisk !! projectFilePath (this loaded) = Some Directory
  /\ exists root',
       addScriptItem "Tables/t2.sql" None (mkWorld (this loaded) lockedDisk)
       = (inl IOError,
          mkWorld (set_projFileXmlDoc (Some (mkDocument root'))
                     (set_files (files (this loaded)
                                   ++ [createProjectEntry (this loaded) "Tables/t2.sql"
                                                          EntryType.File])
                                (this loaded)))
                  lockedDisk)
       /\ List.length (getElementsByTagName constants.Build root')
          = S (List.length (getElementsByTagName constants.Build (documentElement sqlproj))).
Proof.
  assert (Hnames : buildNames) by (unfold buildNames; repeat split; differ).
  assert (Hd : projFileXmlDoc (this loaded) = Some (mkDocument (documentElement sqlproj)))
    by (vm_compute; reflexivity).
  assert (Hthere : is_Some (lockedDisk
                              !! path_join [projectFolderPath (this loaded); "Tables/t2.sql"]))
    by (exists (RegularFile "CREATE TABLE t2 (id int)"); vm_compute; reflexivity).
  assert (Hdir : lockedDisk !! projectFilePath (this loaded) = Some Directory)
    by (vm_compute; reflexivity).
  split; [exact Hnames|]. split; [exact Hd|]. split; [exact Hthere|]. split; [exact Hdir|].
  exact (addScriptItem_failed_write_keeps_item _ _ _ _ Hnames Hd Hthere Hdir).
Defined.

(** X11 on the loaded sample project, for a new script in a new folder. *)
Lemma addScriptItem_writes_contents_witness :
  "CREATE VIEW v1 AS SELECT 1" <> ""
  /\ path_join [projectFolderPath (this loaded); "Views/v1.sql"] <> projectFilePath (this loaded)
  /\ succeeded (fst (addScriptItem "Views/v1.sql" (Some "CREATE VIEW v1 AS SELECT 1") loaded))
     = true
  /\ disk (snd (addScriptItem "Views/v1.sql" (Some "CREATE VIEW v1 AS SELECT 1") loaded))
       !! path_join [projectFolderPath (this loaded); "Views/v1.sql"]
     = Some (RegularFile "CREATE VIEW v1 AS SELECT 1")
  /\ addScriptItem "Views/v1.sql" (Some "") loaded = addScriptItem "Views/v1.sql" None loaded.
Proof.
  assert (Htext : "CREATE VIEW v1 AS SELECT 1" <> "") by discriminate.
  assert (Hother : path_join [projectFolderPath (this loaded); "Views/v1.sql"]
                   <> projectFilePath (this loaded)) by differ.
  assert (Hok : succeeded (fst (addScriptItem "Views/v1.sql"
                                  (Some "CREATE VIEW v1 AS SELECT 1") loaded)) = true)
    by (vm_compute; reflexivity).
  split; [exact Htext|]. split; [exact Hother|]. split; [exact Hok|].
  exact (addScriptItem_writes_contents _ _ _ Htext Hother Hok).
Defined.

(** X12 on the loaded sample project: a folder that is not there is made;
    a folder below a script file is not, and the call throws. *)
Lemma addFolderItem_ensures_folder_witness :
  path_join [projectFolderPath (this loaded); "Views"] <> projectFilePath (this loaded)
  /\ disk loaded !! path_join [projectFolderPath (this loaded); "Views"] = None
  /\ fileAbove (path_join [projectFolderPath (this loaded); "Views"]) (disk loaded) = false
  /\ disk (snd (addFolderItem "Views" loaded))
       !! path_join [projectFolderPath (this loaded); "Views"]
     = Some Directory
  /\ path_join [projectFolderPath (this (mkWorld (this loaded) scriptDisk));
                "Tables/t2.sql/Indexes"]
     <> projectFilePath (this (mkWorld (this loaded) scriptDisk))
  /\ disk (mkWorld (this loaded) scriptDisk)
       !! path_join [projectFolderPath (this (mkWorld (this loaded) scriptDisk));
                     "Tables/t2.sql/Indexes"]
     = None
  /\ fileAbove (path_join [projectFolderPath (this (mkWorld (this loaded) scriptDisk));
                           "Tables/t2.sql/Indexes"])
               (disk (mkWorld (this loaded) scriptDisk))
     = true
  /\ addFolderItem "Tables/t2.sql/Indexes" (mkWorld (this loaded) scriptDisk)
     = (inl IOError, mkWorld (this loaded) scriptDisk).
Proof.
  assert (Hother : path_join [projectFolderPath (this loaded); "Views"]
                   <> projectFilePath (this loaded)) by differ.
  assert (Hthere : disk loaded !! path_join [projectFolderPath (this loaded); "Views"] = None)
    by (vm_compute; reflexivity).
  assert (Hnone : fileAbove (path_join [projectFolderPath (this loaded); "Views"])
                            (disk loaded) = false) by (vm_compute; reflexivity).
  assert (Hother' : path_join [projectFolderPath (this (mkWorld (this loaded) scriptDisk));
                               "Tables/t2.sql/Indexes"]
                    <> projectFilePath (this (mkWorld (this loaded) scriptDisk))) by differ.
  assert (Hthere' : disk (mkWorld (this loaded) scriptDisk)
                      !! path_join [projectFolderPath (this (mkWorld (this loaded) scriptDisk));
                                    "Tables/t2.sql/Indexes"]
                    = None) by (vm_compute; reflexivity).
  assert (Hfile : fileAbove (path_join [projectFolderPath
                                          (this (mkWorld (this loaded) scriptDisk));
                                        "Tables/t2.sql/Indexes"])
                            (disk (mkWorld (this loaded) scriptDisk))
                  = true) by (vm_compute; reflexivity).
  split; [exact Hother|]. split; [exact Hthere|]. split; [exact Hnone|].
  split; [exact (proj1 (proj2 (addFolderItem_ensures_folder _ _ Hother)) Hthere Hnone)|].
  split; [exact Hother'|]. split; [exact Hthere'|]. split; [exact Hfile|].
  exact (proj2 (proj2 (addFolderItem_ensures_folder _ _ Hother')) Hthere' Hfile).
Defined.

(** X13 on the loaded sample project: the folder of tables is as it was
    after a folder of views has been added. *)
Lemma addItems_touch_named_paths_only_witness :
  "/work/db/Tables" <> projectFilePath (this loaded)
  /\ "/work/db/Tables" <> path_join [projectFolderPath (this loaded); "Views"]
  /\ ~ In "/work/db/Tables" (pathsAbove (path_join [projectFolderPath (this loaded); "Views"]))
  /\ disk (snd (addFolderItem "Views" loaded)) !! "/work/db/Tables"
     = disk loaded !! "/work/db/Tables".
Proof.
  assert (Hproject : "/work/db/Tables" <> projectFilePath (this loaded)) by differ.
  assert (Hfolder : "/work/db/Tables" <> path_join [projectFolderPath (this loaded); "Views"])
    by differ.
  assert (Habove : ~ In "/work/db/Tables"
                        (pathsAbove (path_join [projectFolderPath (this loaded); "Views"]))).
  { remember (pathsAbove (path_join [projectFolderPath (this loaded); "Views"])) as above
      eqn:Heq.
    vm_compute in Heq. subst above. intros [H|[H|[H|[]]]]; discriminate H. }
  split; [exact Hproject|]. split; [exact Hfolder|]. split; [exact Habove|].
  destruct (addItems_touch_named_paths_only "Views" loaded) as (_ & _ & Hkept).
  exact (Hkept _ Hproject Hfolder Habove).
Defined.

(** X14 on the loaded sample project, whose schema provider is that of
    version 130. *)
Lemma getMasterDacpac_outcomes_witness :
  snd (getMasterDacpac loaded) = loaded
  /\ fst (getMasterDacpac loaded)
     = inr (Uri_parse (path_join ["$(NETCoreTargetsPath)"; "SystemDacpacs";
                                  dspVersion
                                    "Microsoft.Data.Tools.Schema.Sql.Sql130DatabaseSchemaProvider";
                                  "master.dacpac"])).
Proof.
  destruct (getMasterDacpac_outcomes loaded) as (Hsame & Hreturns & _).
  split; [exact Hsame|]. apply Hreturns.
  exists sqlproj,
         (mkElement "DSP" []
            [TextNode "Microsoft.Data.Tools.Schema.Sql.Sql130DatabaseSchemaProvider"]),
         "Microsoft.Data.Tools.Schema.Sql.Sql130DatabaseSchemaProvider".
  split; [vm_compute; reflexivity|]. split; [vm_compute; reflexivity|].
  split; [reflexivity|]. split; [vm_compute; reflexivity | reflexivity].
Defined.

(** X15 on the loaded sample project, whose schema provider is that of
    version 130, for the change to version 150. *)
Lemma changeDSP_then_getMasterDacpac_witness :
  projFileXmlDoc (this loaded) = Some sqlproj
  /\ Document_getElementsByTagName constants.DSP sqlproj
     = [mkElement "DSP" []
          [TextNode "Microsoft.Data.Tools.Schema.Sql.Sql130DatabaseSchemaProvider"]]
  /\ childNodes (mkElement "DSP" []
                   [TextNode "Microsoft.Data.Tools.Schema.Sql.Sql130DatabaseSchemaProvider"])
     = [TextNode "Microsoft.Data.Tools.Schema.Sql.Sql130DatabaseSchemaProvider"]
  /\ fst (changeDSP "150" loaded) = inr tt
  /\ disk (snd (changeDSP "150" loaded)) = disk loaded
  /\ files (this (snd (changeDSP "150" loaded))) = files (this loaded)
  /\ fst (getMasterDacpac (snd (changeDSP "150" loaded)))
     = (if TargetPlatform.includes "150"
        then inr (Uri_parse (path_join ["$(NETCoreTargetsPath)"; "SystemDacpacs";
                                        "150"; "master.dacpac"]))
        else inl invalidDataSchemaProvider).
Proof.
  assert (Hd : projFileXmlDoc (this loaded) = Some sqlproj) by (vm_compute; reflexivity).
  assert (Hdsp : Document_getElementsByTagName constants.DSP sqlproj
                 = [mkElement "DSP" []
                      [TextNode "Microsoft.Data.Tools.Schema.Sql.Sql130DatabaseSchemaProvider"]])
    by (vm_compute; reflexivity).
  split; [exact Hd|]. split; [exact Hdsp|]. split; [reflexivity|].
  exact (changeDSP_then_getMasterDacpac "150" loaded sqlproj _ _ Hd Hdsp eq_refl).
Defined.

(** X16 on the loaded sample project: the reference to the master dacpac
    of version 130. *)
Lemma addMasterDatabaseReference_outcome_witness :
  fst (getMasterDacpac loaded)
  = inr (Uri_parse "$(NETCoreTargetsPath)/SystemDacpacs/130/master.dacpac")
  /\ projFileXmlDoc (this loaded) = Some sqlproj
  /\ addMasterDatabaseReference loaded
     = (inr (fs_writeFile
               (projectFilePath (this loaded))
               (serializeToString
                  (mkDocument
                     (withReference
                        (masterEntry
                           (Uri_parse "$(NETCoreTargetsPath)/SystemDacpacs/130/master.dacpac"))
                        (documentElement sqlproj))))),
        mkWorld
          (set_projFileXmlDoc
             (Some (mkDocument
                      (withReference
                         (masterEntry
                            (Uri_parse "$(NETCoreTargetsPath)/SystemDacpacs/130/master.dacpac"))
                         (documentElement sqlproj))))
             (this loaded))
          (disk loaded))
  /\ getAttribute constants.Include
       (referenceNode
          (masterEntry (Uri_parse "$(NETCoreTargetsPath)/SystemDacpacs/130/master.dacpac")))
     = fsPath (Uri_parse "$(NETCoreTargetsPath)/SystemDacpacs/130/master.dacpac")
  /\ bind addMasterDatabaseReference (fun rest => rest) loaded
     = addDatabaseReference
         (Uri_parse "$(NETCoreTargetsPath)/SystemDacpacs/130/master.dacpac")
         DatabaseReferenceLocation.differentDatabaseSameServer
         (Some constants.master) loaded
  /\ fst (getMasterDacpac (mkWorld (this loaded) lockedDisk))
     = inr (Uri_parse "$(NETCoreTargetsPath)/SystemDacpacs/130/master.dacpac")
  /\ projFileXmlDoc (this (mkWorld (this loaded) lockedDisk)) = Some sqlproj
  /\ disk (mkWorld (this loaded) lockedDisk)
       !! projectFilePath (this (mkWorld (this loaded) lockedDisk))
     = Some Directory
  /\ succeeded (fst (addMasterDatabaseReference (mkWorld (this loaded) lockedDisk))) = true
  /\ bind addMasterDatabaseReference (fun rest => rest) (mkWorld (this loaded) lockedDisk)
     = (inl IOError,
        mkWorld
          (set_projFileXmlDoc
             (Some (mkDocument
                      (withReference
                         (masterEntry
                            (Uri_parse "$(NETCoreTargetsPath)/SystemDacpacs/130/master.dacpac"))
                         (documentElement sqlproj))))
             (this (mkWorld (this loaded) lockedDisk)))
          (disk (mkWorld (this loaded) lockedDisk))).
Proof.
  assert (Huri : fst (getMasterDacpac loaded)
                 = inr (Uri_parse "$(NETCoreTargetsPath)/SystemDacpacs/130/master.dacpac"))
    by (vm_compute; reflexivity).
  assert (Hd : projFileXmlDoc (this loaded) = Some sqlproj) by (vm_compute; reflexivity).
  assert (Huri' : fst (getMasterDacpac (mkWorld (this loaded) lockedDisk))
                  = inr (Uri_parse "$(NETCoreTargetsPath)/SystemDacpacs/130/master.dacpac"))
    by (vm_compute; reflexivity).
  assert (Hd' : projFileXmlDoc (this (mkWorld (this loaded) lockedDisk)) = Some sqlproj)
    by (vm_compute; reflexivity).
  assert (Hdir : disk (mkWorld (this loaded) lockedDisk)
                   !! projectFilePath (this (mkWorld (this loaded) lockedDisk))
                 = Some Directory) by (vm_compute; reflexivity).
  split; [exact Huri|]. split; [exact Hd|].
  destruct (addMasterDatabaseReference_outcome loaded) as [_ Hreference].
  destruct (Hreference _ _ Huri Hd) as (Hcall & Hinclude & Hrest & _).
  split; [exact Hcall|]. split; [exact Hinclude|]. split; [exact Hrest|].
  split; [exact Huri'|]. split; [exact Hd'|]. split; [exact Hdir|].
  destruct (addMasterDatabaseReference_outcome (mkWorld (this loaded) lockedDisk))
    as [_ Hlocked].
  destruct (Hlocked _ _ Huri' Hd') as (Hcall' & _ & _ & Hfails).
  split; [rewrite Hcall'; reflexivity | exact (Hfails Hdir)].
Defined.

(** X17 on the loaded sample project: the project file itself, which is
    no script, and a path outside the folder of the project. *)
Lemma addToProject_passes_over_witness :
  Forall (passedOver loaded) ["/work/db/db.sqlproj"; "/elsewhere/x.sql"]
  /\ addToProject ["/work/db/db.sqlproj"; "/elsewhere/x.sql"] loaded = (inr tt, loaded).
Proof.
  assert (Hpassed : Forall (passedOver loaded) ["/work/db/db.sqlproj"; "/elsewhere/x.sql"]).
  { constructor; [|constructor; [|constructor]].
    - right. exists (write sqlproj). split; vm_compute; reflexivity.
    - left. vm_compute. reflexivity. }
  split; [exact Hpassed|].
  exact (addToProject_passes_over _ _ Hpassed).
Defined.

(** X18 on the loaded sample project: a script that is not on the disk,
    between the project file and a folder that is there. *)
Lemma addToProject_missing_path_fails_witness :
  Forall (passedOver loaded) ["/work/db/db.sqlproj"]
  /\ relativePathOf (this loaded) "/work/db/missing.sql" <> ""
  /\ disk loaded !! "/work/db/missing.sql" = None
  /\ addToProject (["/work/db/db.sqlproj"] ++ "/work/db/missing.sql" :: ["/work/db/Tables"])
                  loaded
     = (inl IOError, loaded).
Proof.
  assert (Hpassed : Forall (passedOver loaded) ["/work/db/db.sqlproj"]).
  { constructor; [|constructor].
    right. exists (write sqlproj). split; vm_compute; reflexivity. }
  assert (Hrelative : relativePathOf (this loaded) "/work/db/missing.sql" <> "") by differ.
  assert (Hmissing : disk loaded !! "/work/db/missing.sql" = None)
    by (vm_compute; reflexivity).
  split; [exact Hpassed|]. split; [exact Hrelative|]. split; [exact Hmissing|].
  exact (addToProject_missing_path_fails _ _ _ _ Hpassed Hrelative Hmissing).
Defined.

(** X19 on the loaded sample project, for a folder that is not there. *)
Lemma addFolderItem_adds_folder_item_witness :
  constants.ItemGroup <> "*"
  /\ projFileXmlDoc (this loaded) = Some (mkDocument (documentElement sqlproj))
  /\ disk loaded !! projectFilePath (this loaded) = Some (RegularFile (write sqlproj))
  /\ path_join [projectFolderPath (this loaded); "Views"] <> projectFilePath (this loaded)
  /\ fileAbove (path_join [projectFolderPath (this loaded); "Views"]) (disk loaded) = false
  /\ exists ref g root',
       addFolderItem "Views" (mkWorld (this loaded) (disk loaded))
       = (inr (createProjectEntry (this loaded) "Views" EntryType.Folder),
          mkWorld
            (set_projFileXmlDoc
               (Some (mkDocument
                        (appendChild
                           (ElementNode
                              (mkElement constants.ItemGroup []
                                 [ElementNode
                                    (referenceNode
                                       (createProjectEntry (this loaded) "Views"
                                                           EntryType.Folder))]))
                           root')))
               (set_files (files (this loaded)
                             ++ [createProjectEntry (this loaded) "Views" EntryType.Folder])
                          (this loaded)))
            (<[projectFilePath (this loaded) :=
                 RegularFile
                   (serializeToString
                      (mkDocument
                         (appendChild
                            (ElementNode
                               (mkElement constants.ItemGroup []
                                  [ElementNode
                                     (referenceNode
                                        (createProjectEntry (this loaded) "Views"
                                                            EntryType.Folder))]))
                            root')))]>
               (withFolder (path_join [projectFolderPath (this loaded); "Views"])
                           (disk loaded))))
       /\ elementAt ref root' = Some (appendChild (ElementNode (newFolderNode "Views")) g)
       /\ tagName g = constants.ItemGroup
       /\ (tagName (newFolderNode "Views") = constants.Folder
           /\ childNodes (newFolderNode "Views") = []
           /\ getAttribute constants.Include (newFolderNode "Views") = "Views")
       /\ match outputItemGroup (Some constants.Folder) (documentElement sqlproj) with
          | Some found =>
              ref = found /\ elementAt ref (documentElement sqlproj) = Some g
              /\ updateAt ref (appendChild (ElementNode (newFolderNode "Views")))
                          (documentElement sqlproj)
                 = Some root'
          | None =>
              ref = [List.length (childNodes (documentElement sqlproj))]
              /\ g = createElement constants.ItemGroup
              /\ root' = appendChild
                           (ElementNode (appendChild (ElementNode (newFolderNode "Views")) g))
                           (documentElement sqlproj)
          end.
Proof.
  assert (Hgroup : constants.ItemGroup <> "*") by differ.
  assert (Hd : projFileXmlDoc (this loaded) = Some (mkDocument (documentElement sqlproj)))
    by (vm_compute; reflexivity).
  assert (Hfile : disk loaded !! projectFilePath (this loaded)
                  = Some (RegularFile (write sqlproj))) by (vm_compute; reflexivity).
  assert (Hother : path_join [projectFolderPath (this loaded); "Views"]
                   <> projectFilePath (this loaded)) by differ.
  assert (Hnone : fileAbove (path_join [projectFolderPath (this loaded); "Views"])
                            (disk loaded) = false) by (vm_compute; reflexivity).
  split; [exact Hgroup|]. split; [exact Hd|]. split; [exact Hfile|]. split; [exact Hother|].
  split; [exact Hnone|].
  exact (addFolderItem_adds_folder_item _ _ _ _ _ Hgroup Hd Hfile Hother (fun _ => Hnone)).
Defined.
